(** * Exa Search Agent CLI (src/cli.ts)

    A shallow embedding of the command-line front-end: the six subcommand
    actions that turn option strings into a request for the Exa client, and
    [formatResults], which renders a response as JSON or as a text report.

    JavaScript values are modelled as the program meets them: strings are
    sequences of UTF-16 code units, numbers are IEEE doubles given by their
    exact value, responses are JSON-shaped values, and the actions run in a
    small state-and-exception monad over the process (standard output,
    standard error, the calls issued, the exit code). *)

From Stdlib Require Import ZArith NArith List Bool Lia String Ascii.
Import ListNotations.
Local Open Scope Z_scope.

(** ** Strings: sequences of UTF-16 code units *)

Module JSString.

Definition jsstring := list Z.

(** An ASCII literal of the source as code units. *)
Definition lit (s : string) : jsstring :=
  map (fun c => Z.of_N (N_of_ascii c)) (list_ascii_of_string s).

Fixpoint eqb (a b : jsstring) : bool :=
  match a, b with
  | [], [] => true
  | x :: a', y :: b' => (x =? y) && eqb a' b'
  | _, _ => false
  end.

(** [String.prototype.repeat]. *)
Fixpoint repeat_str (s : jsstring) (n : nat) : jsstring :=
  match n with
  | O => []
  | S n' => s ++ repeat_str s n'
  end.

(** [Array.prototype.join] on an array of strings. *)
Fixpoint join (sep : jsstring) (parts : list jsstring) : jsstring :=
  match parts with
  | [] => []
  | [p] => p
  | p :: rest => p ++ sep ++ join sep rest
  end.

(** [s.slice(0, n)] for a non-negative [n]. *)
Definition slice0 (n : nat) (s : jsstring) : jsstring := firstn n s.

(** [s.replace(/\n/g, " ")]: every line feed becomes one space. *)
Definition replace_newlines (s : jsstring) : jsstring :=
  map (fun c => if c =? 10 then 32 else c) s.

(** [s.length]. *)
Definition length (s : jsstring) : Z := Z.of_nat (List.length s).

(** Decimal digits of a non-negative integer, most significant first. *)
Fixpoint digits_fuel (fuel : nat) (n : Z) (acc : list Z) : list Z :=
  match fuel with
  | O => acc
  | S f =>
      let acc' := (n mod 10) :: acc in
      if n <? 10 then acc' else digits_fuel f (n / 10) acc'
  end.

Definition digits (n : Z) : list Z :=
  digits_fuel (S (Z.to_nat (Z.log2 n))) n [].

Definition digit_char (d : Z) : Z := 48 + d.

(** The decimal numeral of a non-negative integer. *)
Definition decimal (n : Z) : jsstring := map digit_char (digits n).

(** The decimal numeral of [n] padded with zeros on the left to [w] places. *)
Definition pad (w : nat) (n : Z) : jsstring :=
  let d := decimal n in
  repeat_str (lit "0") (w - List.length d) ++ d.

End JSString.
Import JSString.

(** ** Numbers: IEEE-754 doubles by their exact value *)

Module JSNumber.

(** A finite double is the dyadic rational [z / 2^e]; the canonical form has
    [e = 0] or [z] odd, so an integer-valued double [n] is [Finite n 0]. *)
Inductive Number :=
| NaN
| Infinity (negative : bool)
| NegZero
| Finite (z : Z) (e : N).

Definition two53 : Z := 2 ^ 53.

(** The integer nearest to [p / q] ([0 <= p], [0 < q]), ties to even. *)
Definition rne (p q : Z) : Z :=
  let f := p / q in
  let r := p mod q in
  if 2 * r <? q then f
  else if q <? 2 * r then f + 1
  else if Z.even f then f else f + 1.

(** [2^k <= p / q], for any integer [k]. *)
Definition ge_pow2 (p q k : Z) : bool :=
  if 0 <=? k then q * 2 ^ k <=? p else q <=? p * 2 ^ (- k).

(** [floor (log2 (p / q))] for positive [p] and [q]. *)
Definition ilog2Q (p q : Z) : Z :=
  let l := Z.log2 p - Z.log2 q in
  if ge_pow2 p q l then l else l - 1.

(** Number of trailing zero bits. *)
Fixpoint ctz (p : positive) : Z :=
  match p with
  | xO p' => 1 + ctz p'
  | _ => 0
  end.

Definition ctzZ (m : Z) : Z :=
  match m with
  | Zpos p => ctz p
  | _ => 0
  end.

(** The canonical form of [m * 2^ex], for [0 < m]. *)
Definition canon (m ex : Z) : Number :=
  if 0 <=? ex then Finite (m * 2 ^ ex) 0
  else
    let t := Z.min (ctzZ m) (- ex) in
    Finite (m / 2 ^ t) (Z.to_N (- ex - t)).

(** Round the positive rational [p / q] to the nearest double, ties to even:
    a 53-bit significand, exponents from -1074 to 971. *)
Definition F_pos (p q : Z) : Number :=
  let ex := Z.max (ilog2Q p q - 52) (-1074) in
  let m := if 0 <=? ex then rne p (q * 2 ^ ex) else rne (p * 2 ^ (- ex)) q in
  if (971 <? ex) || ((ex =? 971) && (m =? two53)) then Infinity false
  else if m =? 0 then Finite 0 0
  else canon m ex.

Definition neg (x : Number) : Number :=
  match x with
  | NaN => NaN
  | Infinity s => Infinity (negb s)
  | NegZero => Finite 0 0
  | Finite 0 _ => NegZero
  | Finite z e => Finite (- z) e
  end.

(** The Number for the rational [p / q], [0 < q].  Integers up to [2^53] in
    magnitude are doubles and stand for themselves. *)
Definition F_of_Q (p q : Z) : Number :=
  if (q =? 1) && (Z.abs p <=? two53) then Finite p 0
  else if p =? 0 then Finite 0 0
  else if 0 <? p then F_pos p q
  else neg (F_pos (- p) q).

Definition F_of_Z (z : Z) : Number := F_of_Q z 1.

(** [a - b] on Numbers: the exact difference, rounded. *)
Definition sub (a b : Number) : Number :=
  match a, b with
  | NaN, _ | _, NaN => NaN
  | Infinity s, Infinity s' => if Bool.eqb s s' then NaN else Infinity s
  | Infinity s, _ => Infinity s
  | _, Infinity s => Infinity (negb s)
  | NegZero, NegZero => Finite 0 0
  | NegZero, Finite 0 _ => NegZero
  | NegZero, Finite z e => neg (Finite z e)
  | Finite z e, NegZero => Finite z e
  | Finite z1 e1, Finite z2 e2 =>
      F_of_Q (z1 * 2 ^ Z.of_N e2 - z2 * 2 ^ Z.of_N e1) (2 ^ Z.of_N (e1 + e2))
  end.

(** The integer part of a finite Number (truncation); [None] for [NaN] and
    the infinities. *)
Definition trunc (x : Number) : option Z :=
  match x with
  | NaN | Infinity _ => None
  | NegZero => Some 0
  | Finite z e => Some (Z.quot z (2 ^ Z.of_N e))
  end.

(** *** [parseInt(string)] with no radix argument *)

(** [StrWhiteSpaceChar]: white space and line terminators. *)
Definition is_whitespace (c : Z) : bool :=
  (c =? 9) || (c =? 10) || (c =? 11) || (c =? 12) || (c =? 13) || (c =? 32)
  || (c =? 0xA0) || (c =? 0x1680) || ((0x2000 <=? c) && (c <=? 0x200A))
  || (c =? 0x2028) || (c =? 0x2029) || (c =? 0x202F) || (c =? 0x205F)
  || (c =? 0x3000) || (c =? 0xFEFF).

Fixpoint trim_start (s : jsstring) : jsstring :=
  match s with
  | c :: s' => if is_whitespace c then trim_start s' else s
  | [] => []
  end.

(** The value of a code unit as a digit of radix [R], if it is one. *)
Definition digit_value (R c : Z) : option Z :=
  let v :=
    if (48 <=? c) && (c <=? 57) then c - 48
    else if (97 <=? c) && (c <=? 122) then c - 87
    else if (65 <=? c) && (c <=? 90) then c - 55
    else 36 in
  if v <? R then Some v else None.

(** The longest prefix of radix-[R] digits: its value, and whether it is
    non-empty. *)
Fixpoint parse_digits (R : Z) (s : jsstring) (acc : Z) (seen : bool) : Z * bool :=
  match s with
  | c :: s' =>
      match digit_value R c with
      | Some d => parse_digits R s' (acc * R + d) true
      | None => (acc, seen)
      end
  | [] => (acc, seen)
  end.

(** White space is trimmed, a sign is read, a [0x] prefix selects radix 16,
    and the longest prefix of digits is the value, taken exactly and rounded
    to a Number; no digit at all gives [NaN]. *)
Definition parseInt (input : jsstring) : Number :=
  let S0 := trim_start input in
  let '(negative, S1) :=
    match S0 with
    | c :: r =>
        if c =? 45 then (true, r) else if c =? 43 then (false, r) else (false, S0)
    | [] => (false, S0)
    end in
  let '(R, S2) :=
    match S1 with
    | a :: b :: r =>
        if (a =? 48) && ((b =? 120) || (b =? 88)) then (16, r) else (10, S1)
    | _ => (10, S1)
    end in
  match parse_digits R S2 0 false with
  | (_, false) => NaN
  | (mathInt, true) =>
      if mathInt =? 0 then (if negative then NegZero else Finite 0 0)
      else F_of_Z (if negative then - mathInt else mathInt)
  end.

(** *** [Number::toString] (radix 10) *)

Definition eqb (a b : Number) : bool :=
  match a, b with
  | NaN, NaN => true
  | Infinity s, Infinity s' => Bool.eqb s s'
  | NegZero, NegZero => true
  | Finite z e, Finite z' e' => (z =? z') && (e =? e')%N
  | _, _ => false
  end.

(** The Number for [s * 10^E]. *)
Definition F_of_dec (s E : Z) : Number :=
  if 0 <=? E then F_of_Q (s * 10 ^ E) 1 else F_of_Q s (10 ^ (- E)).

(** For [0 < p < q]: the [j >= 1] with [10^-j <= p / q < 10^(1-j)]. *)
Fixpoint leading_zeros (fuel : nat) (p q j : Z) : Z :=
  match fuel with
  | O => j
  | S f => if q <=? p * 10 then j else leading_zeros f (p * 10) q (j + 1)
  end.

(** The [n] with [10^(n-1) <= p / q < 10^n], for positive [p] and [q]. *)
Definition decimal_exponent (p q : Z) : Z :=
  if q <=? p then Z.of_nat (List.length (digits (p / q)))
  else 1 - leading_zeros (Z.to_nat (Z.log2 q)) p q 1.

(** [x] is the Number for the digits [s] with exponent [n], that is for
    [s * 10^(n-k)] where [k] is the number of digits of [s]. *)
Definition rounds_to (x : Number) (s n : Z) : bool :=
  eqb (F_of_dec s (n - Z.of_nat (List.length (digits s)))) x.

(** The [k]-digit decimals next to [p / q], as digits and exponent.  Of those
    that round to [x] the nearest is taken, the even one on a tie. *)
Definition candidate (x : Number) (p q n0 k : Z) : option (Z * Z) :=
  let P := p * 10 ^ Z.max (k - n0) 0 in
  let Q := q * 10 ^ Z.max (n0 - k) 0 in
  let lo := P / Q in
  let r := P mod Q in
  let below := (lo, n0) in
  let above := if lo + 1 =? 10 ^ k then (10 ^ (k - 1), n0 + 1) else (lo + 1, n0) in
  let okL := rounds_to x (fst below) (snd below) in
  let okH := rounds_to x (fst above) (snd above) in
  if okL && okH then
    Some (if 2 * r <? Q then below
          else if Q <? 2 * r then above
          else if Z.even lo then below else above)
  else if okL then Some below
  else if okH then Some above
  else None.

(** The first [k], from [k] on and within [fuel] steps, with a candidate. *)
Fixpoint shortest (fuel : nat) (x : Number) (p q n0 k : Z) : option (Z * Z) :=
  match fuel with
  | O => None
  | S f =>
      match candidate x p q n0 k with
      | Some c => Some c
      | None => shortest f x p q n0 (k + 1)
      end
  end.

(** The digits [s] and the exponent [n] of a positive finite [z / 2^e]: the
    shortest decimal that rounds to it, looked for among the decimals of up
    to seventeen digits, which is where every double has one; for a dyadic
    with none, which is then no double, its exact expansion
    [z * 5^e / 10^e]. *)
Definition shortest_decimal (z : Z) (e : N) : Z * Z :=
  let q := 2 ^ Z.of_N e in
  match shortest 17 (Finite z e) z q (decimal_exponent z q) 1 with
  | Some c => c
  | None =>
      let s := z * 5 ^ Z.of_N e in
      (s, Z.of_nat (List.length (digits s)) - Z.of_N e)
  end.

Definition exponent_part (n : Z) : jsstring :=
  lit "e" ++ (if 0 <=? n - 1 then lit "+" else lit "-") ++ decimal (Z.abs (n - 1)).

(** The numeral for the digits [s] with exponent [n]. *)
Definition format_decimal (s n : Z) : jsstring :=
  let ds := decimal s in
  let k := Z.of_nat (List.length ds) in
  if (k <=? n) && (n <=? 21) then
    ds ++ repeat_str (lit "0") (Z.to_nat (n - k))
  else if (0 <? n) && (n <=? 21) then
    firstn (Z.to_nat n) ds ++ lit "." ++ skipn (Z.to_nat n) ds
  else if (-6 <? n) && (n <=? 0) then
    lit "0." ++ repeat_str (lit "0") (Z.to_nat (- n)) ++ ds
  else if k =? 1 then ds ++ exponent_part n
  else firstn 1 ds ++ lit "." ++ skipn 1 ds ++ exponent_part n.

Definition toString (x : Number) : jsstring :=
  match x with
  | NaN => lit "NaN"
  | Infinity false => lit "Infinity"
  | Infinity true => lit "-Infinity"
  | NegZero => lit "0"
  | Finite z e =>
      if z =? 0 then lit "0"
      else
        let '(s, n) := shortest_decimal (Z.abs z) e in
        (if z <? 0 then lit "-" else []) ++ format_decimal s n
  end.

End JSNumber.
Import JSNumber.

(** ** Completions: a value, or a thrown exception *)

(** What the program can see thrown: the [RangeError] of serialising an invalid
    date, a [TypeError] of the runtime (property read on [null] or
    [undefined], call of a non-function, iteration of a non-iterable), and the
    rejection of the external call, which carries its message. *)
Inductive Error :=
| RangeError
| TypeError
| ExaError (message : jsstring).

Inductive Result (A : Type) :=
| Ok (a : A)
| Throw (e : Error).
Arguments Ok {A} a.
Arguments Throw {A} e.

(** ** Dates: time values and the calendar of ECMA-262 *)

Module JSDate.

(** A time value: milliseconds since the epoch, or [None] for [NaN]. *)
Definition TimeValue := option Z.

Definition msPerDay : Z := 86400000.
Definition msPerHour : Z := 3600000.
Definition msPerMinute : Z := 60000.
Definition msPerSecond : Z := 1000.

Definition Day (t : Z) : Z := t / msPerDay.
Definition TimeWithinDay (t : Z) : Z := t mod msPerDay.

Definition DaysInYear (y : Z) : Z :=
  if negb (y mod 4 =? 0) then 365
  else if negb (y mod 100 =? 0) then 366
  else if negb (y mod 400 =? 0) then 365
  else 366.

Definition DayFromYear (y : Z) : Z :=
  365 * (y - 1970) + (y - 1969) / 4 - (y - 1901) / 100 + (y - 1601) / 400.

(** The largest [y] whose first day is not after [t]: an estimate from the
    mean year length, corrected by at most one year. *)
Definition YearFromTime (t : Z) : Z :=
  let d := Day t in
  let y := 1970 + (d * 400) / 146097 in
  if DayFromYear (y + 1) <=? d then y + 1
  else if DayFromYear y <=? d then y
  else y - 1.

Definition DayWithinYear (t : Z) : Z := Day t - DayFromYear (YearFromTime t).

Definition LeapOfYear (y : Z) : Z := if DaysInYear y =? 366 then 1 else 0.
Definition InLeapYear (t : Z) : Z := LeapOfYear (YearFromTime t).

(** Day number within the year on which month [m] (0 to 11) starts. *)
Definition MonthStart (m leap : Z) : Z :=
  match m with
  | 0 => 0
  | 1 => 31
  | 2 => 59 + leap
  | 3 => 90 + leap
  | 4 => 120 + leap
  | 5 => 151 + leap
  | 6 => 181 + leap
  | 7 => 212 + leap
  | 8 => 243 + leap
  | 9 => 273 + leap
  | 10 => 304 + leap
  | _ => 334 + leap
  end.

Definition MonthFromTime (t : Z) : Z :=
  let d := DayWithinYear t in
  let leap := InLeapYear t in
  if d <? 31 then 0
  else if d <? 59 + leap then 1
  else if d <? 90 + leap then 2
  else if d <? 120 + leap then 3
  else if d <? 151 + leap then 4
  else if d <? 181 + leap then 5
  else if d <? 212 + leap then 6
  else if d <? 243 + leap then 7
  else if d <? 273 + leap then 8
  else if d <? 304 + leap then 9
  else if d <? 334 + leap then 10
  else 11.

Definition DateFromTime (t : Z) : Z :=
  DayWithinYear t - MonthStart (MonthFromTime t) (InLeapYear t) + 1.

Definition HourFromTime (t : Z) : Z := (t / msPerHour) mod 24.
Definition MinFromTime (t : Z) : Z := (t / msPerMinute) mod 60.
Definition SecFromTime (t : Z) : Z := (t / msPerSecond) mod 60.
Definition msFromTime (t : Z) : Z := t mod msPerSecond.

(** [MakeDay] on integers: the day number of the first of the month, plus
    [date - 1]. *)
Definition MakeDay (year month date : Z) : Z :=
  let ym := year + month / 12 in
  let mn := month mod 12 in
  DayFromYear ym + MonthStart mn (LeapOfYear ym) + date - 1.

Definition MakeTime (hour min sec ms : Z) : Z :=
  hour * msPerHour + min * msPerMinute + sec * msPerSecond + ms.

Definition MakeDate (day time : Z) : Z := day * msPerDay + time.

Definition TimeClip (t : Z) : TimeValue :=
  if 8640000000000000 <? Z.abs t then None else Some t.

Section LocalTime.

(** [LocalTZA t isUTC]: the offset of the local time zone in milliseconds, a
    datum of the host. *)
Variable LocalTZA : Z -> bool -> Z.

Definition LocalTime (t : Z) : Z := t + LocalTZA t true.
Definition UTC (t : Z) : Z := t - LocalTZA t false.

(** [Date.prototype.getDate]. *)
Definition getDate (tv : TimeValue) : Number :=
  match tv with
  | None => NaN
  | Some t => F_of_Z (DateFromTime (LocalTime t))
  end.

(** [Date.prototype.setDate]: the new time value of the date object. *)
Definition setDate (tv : TimeValue) (date : Number) : TimeValue :=
  match tv with
  | None => None
  | Some t0 =>
      let t := LocalTime t0 in
      match trunc date with
      | None => None
      | Some dt =>
          let newDate :=
            MakeDate (MakeDay (YearFromTime t) (MonthFromTime t) dt)
                     (TimeWithinDay t) in
          let u := TimeClip (UTC newDate) in
          u
      end
  end.

End LocalTime.

(** The year of the ISO format: four digits from 0 to 9999, otherwise a sign
    and six digits. *)
Definition iso_year (y : Z) : jsstring :=
  if (0 <=? y) && (y <=? 9999) then pad 4 y
  else (if y <? 0 then lit "-" else lit "+") ++ pad 6 (Z.abs y).

Definition iso_string (t : Z) : jsstring :=
  iso_year (YearFromTime t) ++ lit "-" ++ pad 2 (MonthFromTime t + 1)
  ++ lit "-" ++ pad 2 (DateFromTime t)
  ++ lit "T" ++ pad 2 (HourFromTime t) ++ lit ":" ++ pad 2 (MinFromTime t)
  ++ lit ":" ++ pad 2 (SecFromTime t) ++ lit "." ++ pad 3 (msFromTime t)
  ++ lit "Z".

(** [Date.prototype.toISOString]: throws a [RangeError] on an invalid date. *)
Definition toISOString (tv : TimeValue) : Result jsstring :=
  match tv with
  | None => Throw RangeError
  | Some t => Ok (iso_string t)
  end.

End JSDate.
Import JSDate.

(** ** Values: what a response of the client can hold *)

Module JSValue.

(** The values of a parsed JSON document, which is what a call of the client
    resolves to.  An object lists its properties in enumeration order.  A
    property that is not there reads as [undefined], which is [None] in an
    [option value]. *)
#[warnings="-register-all"]
Inductive value :=
| Null
| Bool (b : bool)
| Num (n : Number)
| Str (s : jsstring)
| Arr (items : list value)
| Obj (props : list (jsstring * value)).

Fixpoint lookup (key : jsstring) (props : list (jsstring * value)) : option value :=
  match props with
  | [] => None
  | (k, v) :: rest => if JSString.eqb k key then Some v else lookup key rest
  end.

(** [base.key] for the property names the program reads ([results], [title],
    [url], [publishedDate], [author], [summary], [text], [length]): the own
    property of an object, the length of an array or string, [undefined] on
    any other value, and a [TypeError] on [null] and [undefined]. *)
Definition get (base : option value) (key : jsstring) : Result (option value) :=
  match base with
  | None | Some Null => Throw TypeError
  | Some (Obj props) => Ok (lookup key props)
  | Some (Arr items) =>
      if JSString.eqb key (lit "length")
      then Ok (Some (Num (F_of_Z (Z.of_nat (List.length items)))))
      else Ok None
  | Some (Str s) =>
      if JSString.eqb key (lit "length")
      then Ok (Some (Num (F_of_Z (JSString.length s))))
      else Ok None
  | Some (Bool _) | Some (Num _) => Ok None
  end.

(** [ToBoolean]. *)
Definition truthy (v : option value) : bool :=
  match v with
  | None | Some Null => false
  | Some (Bool b) => b
  | Some (Num NaN) | Some (Num NegZero) => false
  | Some (Num (Finite z _)) => negb (z =? 0)
  | Some (Num (Infinity _)) => true
  | Some (Str s) => negb (JSString.eqb s [])
  | Some (Arr _) | Some (Obj _) => true
  end.

(** [ToString] of a value; an array joins its elements with commas, [null]
    elements as the empty string. *)
Fixpoint ToString_value (v : value) : jsstring :=
  match v with
  | Null => lit "null"
  | Bool true => lit "true"
  | Bool false => lit "false"
  | Num n => JSNumber.toString n
  | Str s => s
  | Arr items =>
      join (lit ",")
           (map (fun x => match x with Null => [] | _ => ToString_value x end) items)
  | Obj _ => lit "[object Object]"
  end.

(** [ToString], as a template literal applies it. *)
Definition ToString (v : option value) : jsstring :=
  match v with
  | None => lit "undefined"
  | Some x => ToString_value x
  end.

Definition is_high_surrogate (c : Z) : bool := (0xD800 <=? c) && (c <=? 0xDBFF).
Definition is_low_surrogate (c : Z) : bool := (0xDC00 <=? c) && (c <=? 0xDFFF).

(** The code points of a string, each as a string of one or two code units. *)
Fixpoint code_points (s : jsstring) : list jsstring :=
  match s with
  | [] => []
  | c :: s' =>
      match s' with
      | d :: s'' =>
          if is_high_surrogate c && is_low_surrogate d
          then [c; d] :: code_points s''
          else [c] :: code_points s'
      | [] => [[c]]
      end
  end.

(** The values a [for ... of] loop visits: the elements of an array, the code
    points of a string; anything else is not iterable. *)
Definition iterate (v : value) : Result (list value) :=
  match v with
  | Arr items => Ok items
  | Str s => Ok (map Str (code_points s))
  | _ => Throw TypeError
  end.

End JSValue.
Import JSValue.

(** ** [JSON.stringify(value, null, 2)] *)

Module JSON.

Definition hex_digit (d : Z) : Z := if d <? 10 then 48 + d else 87 + d.

(** [UnicodeEscape]: a backslash, [u] and four lowercase hexadecimal digits. *)
Definition unicode_escape (c : Z) : jsstring :=
  [92; 117; hex_digit (c / 4096 mod 16); hex_digit (c / 256 mod 16);
   hex_digit (c / 16 mod 16); hex_digit (c mod 16)].

(** A code unit that is not half of a surrogate pair. *)
Definition escape_unit (c : Z) : jsstring :=
  if c =? 8 then [92; 98]
  else if c =? 9 then [92; 116]
  else if c =? 10 then [92; 110]
  else if c =? 12 then [92; 102]
  else if c =? 13 then [92; 114]
  else if c =? 34 then [92; 34]
  else if c =? 92 then [92; 92]
  else if (c <? 32) || is_high_surrogate c || is_low_surrogate c
       then unicode_escape c
  else [c].

Fixpoint quote_body (s : jsstring) : jsstring :=
  match s with
  | [] => []
  | c :: s' =>
      match s' with
      | d :: s'' =>
          if is_high_surrogate c && is_low_surrogate d
          then c :: d :: quote_body s''
          else escape_unit c ++ quote_body s'
      | [] => escape_unit c
      end
  end.

(** [QuoteJSONString]. *)
Definition quote (s : jsstring) : jsstring := [34] ++ quote_body s ++ [34].

Definition gap : jsstring := lit "  ".
Definition nl : jsstring := [10].

(** [SerializeJSONProperty] with the current indentation. *)
Fixpoint serialize (indent : jsstring) (v : value) {struct v} : jsstring :=
  match v with
  | Null => lit "null"
  | Bool true => lit "true"
  | Bool false => lit "false"
  | Num n =>
      match n with
      | NaN | Infinity _ => lit "null"
      | _ => JSNumber.toString n
      end
  | Str s => quote s
  | Arr items =>
      let inner := indent ++ gap in
      match items with
      | [] => lit "[]"
      | _ =>
          lit "[" ++ nl ++ inner
          ++ join (lit "," ++ nl ++ inner) (map (serialize inner) items)
          ++ nl ++ indent ++ lit "]"
      end
  | Obj props =>
      let inner := indent ++ gap in
      match props with
      | [] => lit "{}"
      | _ =>
          lit "{" ++ nl ++ inner
          ++ join (lit "," ++ nl ++ inner)
               (map (fun kv => quote (fst kv) ++ lit ": " ++ serialize inner (snd kv))
                    props)
          ++ nl ++ indent ++ lit "}"
      end
  end.

Definition stringify (v : value) : jsstring := serialize [] v.

(** ** [JSON.parse(text)] *)

Definition is_ws (c : Z) : bool := (c =? 9) || (c =? 10) || (c =? 13) || (c =? 32).

Fixpoint skip_ws (s : jsstring) : jsstring :=
  match s with
  | c :: s' => if is_ws c then skip_ws s' else s
  | [] => []
  end.

Definition is_digit (c : Z) : bool := (48 <=? c) && (c <=? 57).

(** The decimal digits at the head of [s], and what follows them. *)
Fixpoint span_digits (s : jsstring) : list Z * jsstring :=
  match s with
  | c :: s' =>
      if is_digit c then let '(ds, r) := span_digits s' in (c - 48 :: ds, r)
      else ([], s)
  | [] => ([], [])
  end.

(** The value of a list of decimal digits. *)
Definition digits_value (ds : list Z) : Z := fold_left (fun a d => a * 10 + d) ds 0.

(** [. digits], when present: the digits, and what follows. *)
Definition parse_fraction (s : jsstring) : option (list Z * jsstring) :=
  match s with
  | c :: r =>
      if c =? 46 then
        match span_digits r with
        | ([], _) => None
        | (ds, r') => Some (ds, r')
        end
      else Some ([], s)
  | [] => Some ([], s)
  end.

(** [e sign digits], when present: the exponent, and what follows. *)
Definition parse_exponent (s : jsstring) : option (Z * jsstring) :=
  let after_sign (negative : bool) (r : jsstring) :=
    match span_digits r with
    | ([], _) => None
    | (ds, r') => Some (if negative then - digits_value ds else digits_value ds, r')
    end in
  match s with
  | c :: r =>
      if (c =? 101) || (c =? 69) then
        match r with
        | sign :: r' =>
            if sign =? 45 then after_sign true r'
            else if sign =? 43 then after_sign false r'
            else after_sign false r
        | [] => None
        end
      else Some (0, s)
  | [] => Some (0, s)
  end.

(** A number token, after its optional minus sign: the Number nearest to the
    value written. *)
Definition parse_unsigned (s : jsstring) : option (Number * jsstring) :=
  match span_digits s with
  | ([], _) => None
  | (d :: ds, r) =>
      (* a leading zero stands alone *)
      let '(int_digits, r) :=
        if d =? 0 then ([0], map (fun x => 48 + x) ds ++ r) else (d :: ds, r) in
      match parse_fraction r with
      | None => None
      | Some (frac, r1) =>
          match parse_exponent r1 with
          | None => None
          | Some (ex, r2) =>
              Some (F_of_dec (digits_value (int_digits ++ frac))
                             (ex - Z.of_nat (List.length frac)), r2)
          end
      end
  end.

Definition parse_number (s : jsstring) : option (Number * jsstring) :=
  match s with
  | c :: r =>
      if c =? 45 then
        match parse_unsigned r with
        | Some (n, r') => Some (JSNumber.neg n, r')
        | None => None
        end
      else parse_unsigned s
  | [] => None
  end.

Definition hex_value (c : Z) : option Z :=
  if (48 <=? c) && (c <=? 57) then Some (c - 48)
  else if (97 <=? c) && (c <=? 102) then Some (c - 87)
  else if (65 <=? c) && (c <=? 70) then Some (c - 55)
  else None.

Definition push (c : Z) (r : option (jsstring * jsstring)) : option (jsstring * jsstring) :=
  match r with
  | Some (cs, rest) => Some (c :: cs, rest)
  | None => None
  end.

(** The characters of a string token after the opening quote, up to and
    including the closing one. *)
Fixpoint parse_chars (s : jsstring) : option (jsstring * jsstring) :=
  match s with
  | [] => None
  | c :: r =>
      if c =? 34 then Some ([], r)
      else if c =? 92 then
        match r with
        | [] => None
        | e :: r1 =>
            if e =? 117 then
              match r1 with
              | x3 :: x2 :: x1 :: x0 :: r2 =>
                  match hex_value x3, hex_value x2, hex_value x1, hex_value x0 with
                  | Some d3, Some d2, Some d1, Some d0 =>
                      push (d3 * 4096 + d2 * 256 + d1 * 16 + d0) (parse_chars r2)
                  | _, _, _, _ => None
                  end
              | _ => None
              end
            else if e =? 34 then push 34 (parse_chars r1)
            else if e =? 92 then push 92 (parse_chars r1)
            else if e =? 47 then push 47 (parse_chars r1)
            else if e =? 98 then push 8 (parse_chars r1)
            else if e =? 102 then push 12 (parse_chars r1)
            else if e =? 110 then push 10 (parse_chars r1)
            else if e =? 114 then push 13 (parse_chars r1)
            else if e =? 116 then push 9 (parse_chars r1)
            else None
        end
      else if c <? 32 then None
      else push c (parse_chars r)
  end.

Definition parse_string (s : jsstring) : option (jsstring * jsstring) :=
  match s with
  | c :: r => if c =? 34 then parse_chars r else None
  | [] => None
  end.

(** An array index: the canonical numeral of an integer below [2^32 - 1]. *)
Definition array_index (k : jsstring) : option Z :=
  match span_digits k with
  | (d :: ds, []) =>
      let n := digits_value (d :: ds) in
      if ((d =? 0) && negb (List.length ds =? 0)%nat) || (4294967295 <=? n)
      then None else Some n
  | _ => None
  end.

(** Whether a new key [k] is enumerated before the existing key [k']: array
    indices come first, in ascending order; other keys keep creation order. *)
Definition goes_before (k k' : jsstring) : bool :=
  match array_index k, array_index k' with
  | Some i, Some j => i <? j
  | Some _, None => true
  | None, _ => false
  end.

Fixpoint insert_key (k : jsstring) (v : value) (props : list (jsstring * value))
  : list (jsstring * value) :=
  match props with
  | [] => [(k, v)]
  | (k', v') :: rest =>
      if goes_before k k' then (k, v) :: props
      else (k', v') :: insert_key k v rest
  end.

Fixpoint replace_key (k : jsstring) (v : value) (props : list (jsstring * value))
  : list (jsstring * value) :=
  match props with
  | [] => []
  | (k', v') :: rest =>
      if JSString.eqb k' k then (k', v) :: rest
      else (k', v') :: replace_key k v rest
  end.

(** [CreateDataProperty]: a key that is there keeps its place and takes the
    new value; a new key takes its place in the enumeration order. *)
Definition define (props : list (jsstring * value)) (k : jsstring) (v : value)
  : list (jsstring * value) :=
  match lookup k props with
  | Some _ => replace_key k v props
  | None => insert_key k v props
  end.

(** The elements of a non-empty array: values separated by commas, then the
    closing bracket. *)
Fixpoint parse_elements (pv : jsstring -> option (value * jsstring))
  (fuel : nat) (s : jsstring) : option (list value * jsstring) :=
  match fuel with
  | O => None
  | S f =>
      match pv (skip_ws s) with
      | None => None
      | Some (v, r) =>
          match skip_ws r with
          | c :: r' =>
              if c =? 44 then
                match parse_elements pv f r' with
                | Some (vs, r'') => Some (v :: vs, r'')
                | None => None
                end
              else if c =? 93 then Some ([v], r')
              else None
          | [] => None
          end
      end
  end.

(** The members of a non-empty object: [string : value], separated by
    commas, then the closing brace; each is defined on the object built so
    far. *)
Fixpoint parse_members (pv : jsstring -> option (value * jsstring))
  (fuel : nat) (s : jsstring) (acc : list (jsstring * value))
  : option (list (jsstring * value) * jsstring) :=
  match fuel with
  | O => None
  | S f =>
      match parse_string (skip_ws s) with
      | None => None
      | Some (k, r) =>
          match skip_ws r with
          | colon :: r1 =>
              if colon =? 58 then
                match pv (skip_ws r1) with
                | None => None
                | Some (v, r2) =>
                    let acc' := define acc k v in
                    match skip_ws r2 with
                    | c :: r3 =>
                        if c =? 44 then parse_members pv f r3 acc'
                        else if c =? 125 then Some (acc', r3)
                        else None
                    | [] => None
                    end
                end
              else None
          | [] => None
          end
      end
  end.

Definition expect (word : jsstring) (v : value) (s : jsstring) : option (value * jsstring) :=
  if JSString.eqb (firstn (List.length word) s) word
  then Some (v, skipn (List.length word) s) else None.

(** A JSON value at the head of [s]; [depth] bounds the nesting. *)
Fixpoint parse_value (depth : nat) (s : jsstring) : option (value * jsstring) :=
  match depth with
  | O => None
  | S d =>
      match s with
      | [] => None
      | c :: r =>
          if c =? 110 then expect (lit "null") Null s
          else if c =? 116 then expect (lit "true") (Bool true) s
          else if c =? 102 then expect (lit "false") (Bool false) s
          else if c =? 34 then
            match parse_string s with
            | Some (str, r') => Some (Str str, r')
            | None => None
            end
          else if c =? 91 then
            match skip_ws r with
            | [] => None
            | c' :: r' =>
                if c' =? 93 then Some (Arr [], r')
                else
                  match parse_elements (parse_value d) (S (List.length r')) (c' :: r') with
                  | Some (vs, r'') => Some (Arr vs, r'')
                  | None => None
                  end
            end
          else if c =? 123 then
            match skip_ws r with
            | [] => None
            | c' :: r' =>
                if c' =? 125 then Some (Obj [], r')
                else
                  match parse_members (parse_value d) (S (List.length r')) (c' :: r') [] with
                  | Some (ps, r'') => Some (Obj ps, r'')
                  | None => None
                  end
            end
          else
            match parse_number s with
            | Some (n, r') => Some (Num n, r')
            | None => None
            end
      end
  end.

(** [JSON.parse]: one value between white space; [None] is a [SyntaxError]. *)
Definition parse (text : jsstring) : option value :=
  match parse_value (List.length text) (skip_ws text) with
  | Some (v, r) =>
      match skip_ws r with
      | [] => Some v
      | _ => None
      end
  | None => None
  end.

End JSON.

(** ** The Exa client and the host *)

(** The options object handed to the client; a field that was never set is
    [None]. *)
Module Request.

Record t := {
  numResults : option Number;
  type : option jsstring;
  startPublishedDate : option jsstring;
  includeDomains : option (list jsstring);
  text : option bool;
  summary : option bool
}.

Definition empty : t :=
  {| numResults := None; type := None; startPublishedDate := None;
     includeDomains := None; text := None; summary := None |}.

Definition over {A} (a b : option A) : option A :=
  match b with Some _ => b | None => a end.

(** Object spread of two option bags: the fields of [b] win. *)
Definition spread (a b : t) : t :=
  {| numResults := over (numResults a) (numResults b);
     type := over (type a) (type b);
     startPublishedDate := over (startPublishedDate a) (startPublishedDate b);
     includeDomains := over (includeDomains a) (includeDomains b);
     text := over (text a) (text b);
     summary := over (summary a) (summary b) |}.

End Request.

(** The five methods of the client the program calls. *)
Inductive ExaCall :=
| search (query : jsstring) (options : Request.t)
| searchAndContents (query : jsstring) (options : Request.t)
| findSimilar (url : jsstring) (options : Request.t)
| findSimilarAndContents (url : jsstring) (options : Request.t)
| getContents (urls : list jsstring) (options : Request.t).

(** ** The command line *)

(** The options object of commander: a value option that was not given and
    has no default is [None]; a boolean flag is [true] when given. *)
Module SearchOptions.

Record t := {
  num : option jsstring;
  type : option jsstring;
  contents : bool;
  summary : bool;
  days : option jsstring;
  domain : option jsstring;
  format : option jsstring
}.

(** No option given on the command line. *)
Definition none : t :=
  {| num := None; type := None; contents := false; summary := false;
     days := None; domain := None; format := None |}.

End SearchOptions.

(** A command line: the subcommand, its arguments, and the options as given
    (an option that was not given is [None] or [false]). *)
Inductive Command :=
| Search (query : jsstring) (given_options : SearchOptions.t)
| Similar (url : jsstring) (given_options : SearchOptions.t)
| Contents (urls : list jsstring) (given_options : SearchOptions.t)
| Research (topic : jsstring) (given_options : SearchOptions.t)
| News (topic : jsstring) (given_options : SearchOptions.t)
| Papers (topic : jsstring) (given_options : SearchOptions.t).

(** What an invocation reads from its surroundings: the environment variable,
    the clock, the time zone and locale of the runtime, the texts of the
    exceptions of the runtime it meets, the line commander writes when it
    rejects the command line (it names the option it does not know as it
    was typed, or the missing argument), and the answer of the Exa service
    to a call. *)
Record Host := {
  EXA_API_KEY : option jsstring;
  now : Z;
  LocalTZA : Z -> bool -> Z;
  Date_parse : jsstring -> TimeValue;
  toLocaleDateString : Z -> jsstring;
  RangeError_message : jsstring;
  TypeError_message : jsstring;
  commander_error : Command -> jsstring;
  exa : ExaCall -> Result value
}.

(** [error.message].  The rejection of a call carries its own message.  The
    runtime words a [TypeError] after the expression that failed; an
    invocation meets at most one, and [TypeError_message] is its text. *)
Definition message (h : Host) (e : Error) : jsstring :=
  match e with
  | RangeError => RangeError_message h
  | TypeError => TypeError_message h
  | ExaError m => m
  end.

(** ** [formatResults] *)

Definition bindR {A B} (r : Result A) (k : A -> Result B) : Result B :=
  match r with
  | Ok a => k a
  | Throw e => Throw e
  end.

Declare Scope result_scope.
Delimit Scope result_scope with result.
Notation "x <- r ;; k" := (bindR r (fun x => k))
  (at level 61, r at next level, right associativity) : result_scope.

Module Glyph.
Definition magnifier : jsstring := [0xD83D; 0xDD0D].
Definition page : jsstring := [0xD83D; 0xDCC4].
Definition link : jsstring := [0xD83D; 0xDD17].
Definition calendar : jsstring := [0xD83D; 0xDCC5].
Definition writing_hand : jsstring := [0x270D; 0xFE0F].
Definition memo : jsstring := [0xD83D; 0xDCDD].
Definition box_line : jsstring := [0x2500].
Definition cross : jsstring := [0x274C].
Definition microscope : jsstring := [0xD83D; 0xDD2C].
Definition newspaper : jsstring := [0xD83D; 0xDCF0].
Definition books : jsstring := [0xD83D; 0xDCDA].
End Glyph.

Definition newline : jsstring := [10].

(** The rule [box_line.repeat(60)]. *)
Definition divider : jsstring := repeat_str Glyph.box_line 60.

(** [ToNumber] then [TimeClip]: the time value of [new Date(n)]. *)
Definition time_of_number (n : Number) : TimeValue :=
  match trunc n with
  | Some z => TimeClip z
  | None => None
  end.

(** [new Date(value)]: a string is parsed, another primitive is a number of
    milliseconds, an object goes through its string. *)
Definition Date_of (h : Host) (v : value) : TimeValue :=
  match v with
  | Str s => Date_parse h s
  | Num n => time_of_number n
  | Bool b => Some (if b then 1 else 0)
  | Null => Some 0
  | Arr _ | Obj _ => Date_parse h (ToString_value v)
  end.

(** [date.toLocaleDateString()]. *)
Definition localeDate (h : Host) (tv : TimeValue) : jsstring :=
  match tv with
  | None => lit "Invalid Date"
  | Some t => toLocaleDateString h t
  end.

(** [a || b] on values. *)
Definition or_else (a b : option value) : option value :=
  if truthy a then a else b.

(** The preview of a body text: [text.slice(0, 300).replace(/\n/g, " ")],
    then three dots when [text.length > 300]. *)
Definition preview_line (text : jsstring) : jsstring :=
  let preview := replace_newlines (slice0 300 text) in
  preview ++ (if 300 <? JSString.length text then lit "..." else []).

(** The lines one pass of the loop body pushes. *)
Definition format_result (h : Host) (result : value) : Result (list jsstring) :=
  (title <- get (Some result) (lit "title") ;;
   url <- get (Some result) (lit "url") ;;
   publishedDate <- get (Some result) (lit "publishedDate") ;;
   author <- get (Some result) (lit "author") ;;
   summary <- get (Some result) (lit "summary") ;;
   text <- get (Some result) (lit "text") ;;
   body <- (if truthy text then
              match text with
              | Some (Str s) => Ok [[]; preview_line s]
              | _ => Throw TypeError
              end
            else Ok []) ;;
   Ok ([ [];
         Glyph.page ++ lit " " ++ ToString (or_else title (Some (Str (lit "Untitled"))));
         Glyph.link ++ lit " " ++ ToString url ]
       ++ (if truthy publishedDate
           then [Glyph.calendar ++ lit " "
                 ++ localeDate h (match publishedDate with
                                  | Some v => Date_of h v
                                  | None => None
                                  end)]
           else [])
       ++ (if truthy author
           then [Glyph.writing_hand ++ lit "  " ++ ToString author]
           else [])
       ++ (if truthy summary
           then [[]; Glyph.memo ++ lit " " ++ ToString summary]
           else [])
       ++ body
       ++ [ []; divider ]))%result.

Fixpoint format_each (h : Host) (items : list value) : Result (list jsstring) :=
  match items with
  | [] => Ok []
  | r :: rest =>
      (block <- format_result h r ;;
       blocks <- format_each h rest ;;
       Ok (block ++ blocks))%result
  end.

Definition formatResults (h : Host) (results : value) (format : option jsstring)
  : Result jsstring :=
  let format := match format with Some f => f | None => lit "text" end in
  if JSString.eqb format (lit "json") then Ok (JSON.stringify results)
  else
    (collection <- get (Some results) (lit "results") ;;
     len <- match collection with
            | None | Some Null => Ok None
            | _ => get collection (lit "length")
            end ;;
     let header :=
       newline ++ Glyph.magnifier ++ lit " Found "
       ++ ToString (or_else len (Some (Num (Finite 0 0)))) ++ lit " results"
       ++ newline in
     items <- match or_else collection (Some (Arr [])) with
              | Some v => iterate v
              | None => Throw TypeError
              end ;;
     blocks <- format_each h items ;;
     Ok (join newline ([header; divider] ++ blocks)))%result.

(** ** The process: output streams, calls issued, exit *)

Record Process := {
  stdout : list jsstring;
  stderr : list jsstring;
  calls : list ExaCall
}.

Definition start : Process := {| stdout := []; stderr := []; calls := [] |}.

Inductive Outcome (A : Type) :=
| Done (a : A)
| Thrown (e : Error)
| Exited (code : Z).
Arguments Done {A} a.
Arguments Thrown {A} e.
Arguments Exited {A} code.

(** A computation of an action: it transforms the process and completes,
    throws, or ends the process. *)
Definition M (A : Type) : Type := Process -> Outcome A * Process.

Definition ret {A} (a : A) : M A := fun p => (Done a, p).

Definition bind {A B} (m : M A) (k : A -> M B) : M B :=
  fun p =>
    match m p with
    | (Done a, p') => k a p'
    | (Thrown e, p') => (Thrown e, p')
    | (Exited c, p') => (Exited c, p')
    end.

Declare Scope action_scope.
Delimit Scope action_scope with action.
Notation "x <- m ;; k" := (bind m (fun x => k))
  (at level 61, m at next level, right associativity) : action_scope.
Notation "m ;; k" := (bind m (fun _ => k))
  (at level 61, right associativity) : action_scope.

(** A completion of a pure computation, raised into an action. *)
Definition lift {A} (r : Result A) : M A :=
  fun p => match r with Ok a => (Done a, p) | Throw e => (Thrown e, p) end.

(** [try { body } catch (error) { handler }]. *)
Definition try_catch {A} (body : M A) (handler : Error -> M A) : M A :=
  fun p =>
    match body p with
    | (Thrown e, p') => handler e p'
    | r => r
    end.

(** [console.log(s)]: one entry on standard output. *)
Definition console_log (s : jsstring) : M unit :=
  fun p => (Done tt, {| stdout := stdout p ++ [s]; stderr := stderr p; calls := calls p |}).

(** [console.error(a, b)]: the arguments separated by a space, one entry on
    standard error. *)
Definition console_error (parts : list jsstring) : M unit :=
  fun p => (Done tt, {| stdout := stdout p; stderr := stderr p ++ [join (lit " ") parts];
                        calls := calls p |}).

Definition process_exit {A} (code : Z) : M A := fun p => (Exited code, p).

(** [await exa.method(...)]: the call is issued and the host answers. *)
Definition await (h : Host) (c : ExaCall) : M value :=
  fun p =>
    let p' := {| stdout := stdout p; stderr := stderr p; calls := calls p ++ [c] |} in
    match exa h c with
    | Ok v => (Done v, p')
    | Throw e => (Thrown e, p')
    end.

(** The process when the action has run: its streams and calls, and the exit
    code (an exception that nothing caught ends it with code 1). *)
Definition run (m : M unit) : Process * Z :=
  match m start with
  | (Done _, p) => (p, 0)
  | (Thrown _, p) => (p, 1)
  | (Exited c, p) => (p, c)
  end.

(** ** The subcommands *)

(** [s || d] on an option string: the empty string is falsy too. *)
Definition or_default (s : option jsstring) (d : jsstring) : jsstring :=
  match s with
  | Some (c :: r) => c :: r
  | _ => d
  end.

(** A non-empty option string, when there is one. *)
Definition given (s : option jsstring) : option jsstring :=
  match s with
  | Some (c :: r) => Some (c :: r)
  | _ => None
  end.

(** The default commander fills in for an option that was not given. *)
Definition default (s : option jsstring) (d : jsstring) : option jsstring :=
  match s with
  | Some v => Some v
  | None => Some d
  end.

(** [getClient]: without the key, one line on standard error and exit 1. *)
Definition getClient (h : Host) : M unit :=
  match given (EXA_API_KEY h) with
  | Some _ => ret tt
  | None =>
      (console_error [Glyph.cross ++ lit " EXA_API_KEY environment variable not set"] ;;
       process_exit 1)%action
  end.

(** The [catch] block every action ends with. *)
Definition report (h : Host) (error : Error) : M unit :=
  (console_error [Glyph.cross ++ lit " Error:"; message h error] ;;
   process_exit 1)%action.

(** [const date = new Date(); date.setDate(date.getDate() - parseInt(days))]:
    the time value of [date] afterwards. *)
Definition days_before_now (h : Host) (days : jsstring) : TimeValue :=
  let date := Some (now h) in
  setDate (LocalTZA h) date (JSNumber.sub (getDate (LocalTZA h) date) (parseInt days)).

Import SearchOptions.

Definition search_action (h : Host) (query : jsstring) (options : SearchOptions.t) : M unit :=
  (getClient h ;;
   try_catch
     (let searchOptions :=
        {| Request.numResults := Some (parseInt (or_default (num options) (lit "10")));
           Request.type := Some (or_default (type options) (lit "auto"));
           Request.startPublishedDate := None;
           Request.includeDomains := None;
           Request.text := None;
           Request.summary := None |} in
      searchOptions <-
        match given (days options) with
        | Some d =>
            iso <- lift (toISOString (days_before_now h d)) ;;
            ret (Request.spread searchOptions
                   {| Request.numResults := None; Request.type := None;
                      Request.startPublishedDate := Some iso;
                      Request.includeDomains := None;
                      Request.text := None; Request.summary := None |})
        | None => ret searchOptions
        end ;;
      let searchOptions :=
        match given (domain options) with
        | Some d =>
            Request.spread searchOptions
              {| Request.numResults := None; Request.type := None;
                 Request.startPublishedDate := None;
                 Request.includeDomains := Some [d];
                 Request.text := None; Request.summary := None |}
        | None => searchOptions
        end in
      results <-
        (if contents options || summary options then
           let contentsOptions :=
             {| Request.numResults := None; Request.type := None;
                Request.startPublishedDate := None; Request.includeDomains := None;
                Request.text := if contents options then Some true else None;
                Request.summary := if summary options then Some true else None |} in
           await h (searchAndContents query (Request.spread searchOptions contentsOptions))
         else await h (search query searchOptions)) ;;
      out <- lift (formatResults h results (format options)) ;;
      console_log out)
     (report h))%action.

Definition similar_action (h : Host) (url : jsstring) (options : SearchOptions.t) : M unit :=
  (getClient h ;;
   try_catch
     (results <-
        (if contents options then
           await h (findSimilarAndContents url
             {| Request.numResults := Some (parseInt (or_default (num options) (lit "10")));
                Request.type := None; Request.startPublishedDate := None;
                Request.includeDomains := None;
                Request.text := Some true; Request.summary := None |})
         else
           await h (findSimilar url
             {| Request.numResults := Some (parseInt (or_default (num options) (lit "10")));
                Request.type := None; Request.startPublishedDate := None;
                Request.includeDomains := None;
                Request.text := None; Request.summary := None |})) ;;
      out <- lift (formatResults h results (format options)) ;;
      console_log out)
     (report h))%action.

Definition contents_action (h : Host) (urls : list jsstring) (options : SearchOptions.t) : M unit :=
  (getClient h ;;
   try_catch
     (let contentsOptions :=
        {| Request.numResults := None; Request.type := None;
           Request.startPublishedDate := None; Request.includeDomains := None;
           Request.text := Some true;
           Request.summary := if summary options then Some true else None |} in
      results <- await h (getContents urls contentsOptions) ;;
      out <- lift (formatResults h results (format options)) ;;
      console_log out)
     (report h))%action.

Definition research_action (h : Host) (topic : jsstring) (options : SearchOptions.t) : M unit :=
  (getClient h ;;
   try_catch
     (console_log (Glyph.microscope ++ lit " Researching: " ++ topic ++ lit "..." ++ newline) ;;
      let searchOptions :=
        {| Request.numResults := Some (parseInt (or_default (num options) (lit "5")));
           Request.type := Some (lit "neural");
           Request.startPublishedDate := None;
           Request.includeDomains := None;
           Request.text := Some true;
           Request.summary := Some true |} in
      searchOptions <-
        match given (days options) with
        | Some d =>
            iso <- lift (toISOString (days_before_now h d)) ;;
            ret (Request.spread searchOptions
                   {| Request.numResults := None; Request.type := None;
                      Request.startPublishedDate := Some iso;
                      Request.includeDomains := None;
                      Request.text := None; Request.summary := None |})
        | None => ret searchOptions
        end ;;
      results <- await h (searchAndContents topic searchOptions) ;;
      out <- lift (formatResults h results (format options)) ;;
      console_log out)
     (report h))%action.

Definition news_action (h : Host) (topic : jsstring) (options : SearchOptions.t) : M unit :=
  (getClient h ;;
   try_catch
     (console_log (Glyph.newspaper ++ lit " Searching news: " ++ topic ++ lit "..." ++ newline) ;;
      let date := days_before_now h (or_default (days options) (lit "7")) in
      iso <- lift (toISOString date) ;;
      results <- await h (searchAndContents topic
        {| Request.numResults := Some (parseInt (or_default (num options) (lit "10")));
           Request.type := Some (lit "neural");
           Request.startPublishedDate := Some iso;
           Request.includeDomains := None;
           Request.text := None;
           Request.summary := Some true |}) ;;
      out <- lift (formatResults h results (format options)) ;;
      console_log out)
     (report h))%action.

Definition papers_action (h : Host) (topic : jsstring) (options : SearchOptions.t) : M unit :=
  (getClient h ;;
   try_catch
     (console_log (Glyph.books ++ lit " Searching papers: " ++ topic ++ lit "..." ++ newline) ;;
      results <- await h (searchAndContents topic
        {| Request.numResults := Some (parseInt (or_default (num options) (lit "10")));
           Request.type := Some (lit "neural");
           Request.startPublishedDate := None;
           Request.includeDomains :=
             Some [lit "arxiv.org"; lit "scholar.google.com"; lit "semanticscholar.org";
                   lit "papers.ssrn.com"; lit "researchgate.net"];
           Request.text := None;
           Request.summary := Some true |}) ;;
      out <- lift (formatResults h results (format options)) ;;
      console_log out)
     (report h))%action.

(** What commander checks before it runs an action: every option given is
    one the subcommand declares (search declares all seven; similar num,
    contents and format; contents summary and format; research and news
    num, days and format; papers num and format), and contents has at least
    one URL.  A value option is given when it has a value, the empty string
    included; a flag is given when it is [true]. *)
Definition not_given (s : option jsstring) : bool :=
  match s with
  | None => true
  | Some _ => false
  end.

Definition accepted (c : Command) : bool :=
  match c with
  | Search _ _ => true
  | Similar _ o =>
      not_given (type o) && negb (summary o) && not_given (days o)
      && not_given (domain o)
  | Contents urls o =>
      match urls with [] => false | _ :: _ => true end
      && not_given (num o) && not_given (type o) && negb (contents o)
      && not_given (days o) && not_given (domain o)
  | Research _ o | News _ o =>
      not_given (type o) && negb (contents o) && negb (summary o)
      && not_given (domain o)
  | Papers _ o =>
      not_given (type o) && negb (contents o) && negb (summary o)
      && not_given (days o) && not_given (domain o)
  end.

(** The options object commander hands to the action of a command line it
    accepts: the options the subcommand declares, with the declared defaults
    for those not given. *)
Definition declared (c : Command) : SearchOptions.t :=
  match c with
  | Search _ o =>
      {| num := default (num o) (lit "10"); type := default (type o) (lit "auto");
         contents := contents o; summary := summary o; days := days o;
         domain := domain o; format := default (format o) (lit "text") |}
  | Similar _ o =>
      {| num := default (num o) (lit "10"); type := None;
         contents := contents o; summary := false; days := None;
         domain := None; format := default (format o) (lit "text") |}
  | Contents _ o =>
      {| num := None; type := None; contents := false; summary := summary o;
         days := None; domain := None; format := default (format o) (lit "text") |}
  | Research _ o =>
      {| num := default (num o) (lit "5"); type := None; contents := false;
         summary := false; days := days o; domain := None;
         format := default (format o) (lit "text") |}
  | News _ o =>
      {| num := default (num o) (lit "10"); type := None; contents := false;
         summary := false; days := default (days o) (lit "7"); domain := None;
         format := default (format o) (lit "text") |}
  | Papers _ o =>
      {| num := default (num o) (lit "10"); type := None; contents := false;
         summary := false; days := None; domain := None;
         format := default (format o) (lit "text") |}
  end.

(** What commander does with a command line it rejects: its error line on
    standard error and exit code 1, before any action. *)
Definition usage_error (h : Host) (c : Command) : M unit :=
  (console_error [commander_error h c] ;; process_exit 1)%action.

(** [program.parse()]: the command line is checked, and the action of the
    subcommand runs on its declared options. *)
Definition action (h : Host) (c : Command) : M unit :=
  if accepted c then
    match c with
    | Search query _ => search_action h query (declared c)
    | Similar url _ => similar_action h url (declared c)
    | Contents urls _ => contents_action h urls (declared c)
    | Research topic _ => research_action h topic (declared c)
    | News topic _ => news_action h topic (declared c)
    | Papers topic _ => papers_action h topic (declared c)
    end
  else usage_error h c.

Definition main (h : Host) (c : Command) : Process * Z := run (action h c).

(** ** The request builder and the course of an invocation

    The part of each action that comes before the call, as one function of a
    command line that commander accepts: the call the action issues, or the
    exception raised before any call.  [main_outcome] below shows that the
    actions factor through it. *)

Definition since (h : Host) (days : option jsstring) : Result (option jsstring) :=
  match given days with
  | Some d => (iso <- toISOString (days_before_now h d) ;; Ok (Some iso))%result
  | None => Ok None
  end.

Definition request (h : Host) (c : Command) : Result ExaCall :=
  let o := declared c in
  match c with
  | Search query _ =>
      (date <- since h (days o) ;;
       let searchOptions :=
         {| Request.numResults := Some (parseInt (or_default (num o) (lit "10")));
            Request.type := Some (or_default (type o) (lit "auto"));
            Request.startPublishedDate := date;
            Request.includeDomains :=
              match given (domain o) with Some d => Some [d] | None => None end;
            Request.text := if contents o then Some true else None;
            Request.summary := if summary o then Some true else None |} in
       Ok (if contents o || summary o
           then searchAndContents query searchOptions
           else search query searchOptions))%result
  | Similar url _ =>
      let options :=
        {| Request.numResults := Some (parseInt (or_default (num o) (lit "10")));
           Request.type := None; Request.startPublishedDate := None;
           Request.includeDomains := None;
           Request.text := if contents o then Some true else None;
           Request.summary := None |} in
      Ok (if contents o then findSimilarAndContents url options
          else findSimilar url options)
  | Contents urls _ =>
      Ok (getContents urls
            {| Request.numResults := None; Request.type := None;
               Request.startPublishedDate := None; Request.includeDomains := None;
               Request.text := Some true;
               Request.summary := if summary o then Some true else None |})
  | Research topic _ =>
      (date <- since h (days o) ;;
       Ok (searchAndContents topic
             {| Request.numResults := Some (parseInt (or_default (num o) (lit "5")));
                Request.type := Some (lit "neural");
                Request.startPublishedDate := date;
                Request.includeDomains := None;
                Request.text := Some true;
                Request.summary := Some true |}))%result
  | News topic _ =>
      (iso <- toISOString (days_before_now h (or_default (days o) (lit "7"))) ;;
       Ok (searchAndContents topic
             {| Request.numResults := Some (parseInt (or_default (num o) (lit "10")));
                Request.type := Some (lit "neural");
                Request.startPublishedDate := Some iso;
                Request.includeDomains := None;
                Request.text := None;
                Request.summary := Some true |}))%result
  | Papers topic _ =>
      Ok (searchAndContents topic
            {| Request.numResults := Some (parseInt (or_default (num o) (lit "10")));
               Request.type := Some (lit "neural");
               Request.startPublishedDate := None;
               Request.includeDomains :=
                 Some [lit "arxiv.org"; lit "scholar.google.com";
                       lit "semanticscholar.org"; lit "papers.ssrn.com";
                       lit "researchgate.net"];
               Request.text := None;
               Request.summary := Some true |})
  end.

(** The progress line research, news and papers print before the call. *)
Definition banner (c : Command) : list jsstring :=
  match c with
  | Research topic _ =>
      [Glyph.microscope ++ lit " Researching: " ++ topic ++ lit "..." ++ newline]
  | News topic _ =>
      [Glyph.newspaper ++ lit " Searching news: " ++ topic ++ lit "..." ++ newline]
  | Papers topic _ =>
      [Glyph.books ++ lit " Searching papers: " ++ topic ++ lit "..." ++ newline]
  | _ => []
  end.

(** The line of the [catch] block. *)
Definition diagnostic (h : Host) (e : Error) : jsstring :=
  Glyph.cross ++ lit " Error:" ++ lit " " ++ message h e.

Definition failed (c : Command) (h : Host) (e : Error) (issued : list ExaCall)
  : Process * Z :=
  ({| stdout := banner c; stderr := [diagnostic h e]; calls := issued |}, 1).

(** An invocation with the key set: build the request, call, format, print. *)
Definition outcome (h : Host) (c : Command) : Process * Z :=
  match request h c with
  | Throw e => failed c h e []
  | Ok call =>
      match exa h call with
      | Throw e => failed c h e [call]
      | Ok response =>
          match formatResults h response (SearchOptions.format (declared c)) with
          | Throw e => failed c h e [call]
          | Ok out =>
              ({| stdout := banner c ++ [out]; stderr := []; calls := [call] |}, 0)
          end
      end
  end.

(** ** Well-formed responses

    A ResultSet as the data model has it: an object whose [results] is absent,
    [null] or an array of items; an item is an object with a string [url] and
    with [title], [publishedDate], [author], [summary] and [text] each a
    string, [null] or absent. *)

Definition string_or_absent (v : option value) : bool :=
  match v with
  | None | Some Null | Some (Str _) => true
  | _ => false
  end.

Definition well_formed_item (item : value) : bool :=
  match item with
  | Obj props =>
      match lookup (lit "url") props with Some (Str _) => true | _ => false end
      && string_or_absent (lookup (lit "title") props)
      && string_or_absent (lookup (lit "publishedDate") props)
      && string_or_absent (lookup (lit "author") props)
      && string_or_absent (lookup (lit "summary") props)
      && string_or_absent (lookup (lit "text") props)
  | _ => false
  end.

Definition well_formed (results : value) : bool :=
  match results with
  | Obj props =>
      match lookup (lit "results") props with
      | None | Some Null => true
      | Some (Arr items) => forallb well_formed_item items
      | _ => false
      end
  | _ => false
  end.

(** The items of a well-formed ResultSet. *)
Definition items_of (results : value) : list value :=
  match results with
  | Obj props =>
      match lookup (lit "results") props with
      | Some (Arr items) => items
      | _ => []
      end
  | _ => []
  end.

(** Text mode: any selector but ["json"], or none. *)
Definition text_mode (format : option jsstring) : bool :=
  negb (JSString.eqb (match format with Some f => f | None => lit "text" end)
                     (lit "json")).

(** ** Well-formed JSON values

    What a value of the runtime satisfies: strings are made of 16-bit code
    units, finite numbers are doubles (rounding them changes nothing), and
    the keys of an object are distinct and in enumeration order. *)

Definition utf16 (s : jsstring) : bool :=
  forallb (fun c => (0 <=? c) && (c <? 65536)) s.

Definition is_double (n : Number) : bool :=
  match n with
  | Finite z e => JSNumber.eqb (F_of_Q z (2 ^ Z.of_N e)) n
  | _ => true
  end.

(** No key is equal to a later one, and no later key is enumerated before an
    earlier one. *)
Fixpoint own_keys (keys : list jsstring) : bool :=
  match keys with
  | [] => true
  | k :: rest =>
      forallb (fun k' => negb (JSString.eqb k k') && negb (JSON.goes_before k' k)) rest
      && own_keys rest
  end.

Fixpoint json (v : value) : bool :=
  match v with
  | Null | Bool _ => true
  | Num n => is_double n
  | Str s => utf16 s
  | Arr items => forallb json items
  | Obj props =>
      own_keys (map fst props)
      && forallb (fun kv => utf16 (fst kv) && json (snd kv)) props
  end.

(** The options object of a call. *)
Definition options_of (call : ExaCall) : Request.t :=
  match call with
  | search _ o | searchAndContents _ o | findSimilar _ o
  | findSimilarAndContents _ o | getContents _ o => o
  end.

(** The options a command line gives. *)
Definition given_options (c : Command) : SearchOptions.t :=
  match c with
  | Search _ o | Similar _ o | Contents _ o | Research _ o | News _ o | Papers _ o => o
  end.

(** Two hosts with the same date parsing and the same locale rendering of
    dates. *)
Definition same_locale (h1 h2 : Host) : Prop :=
  (forall s, Date_parse h1 s = Date_parse h2 s)
  /\ (forall t, toLocaleDateString h1 t = toLocaleDateString h2 t).

(** An item that gets a date line. *)
Definition dated (item : value) : bool :=
  match item with
  | Obj props => truthy (lookup (lit "publishedDate") props)
  | _ => false
  end.

(** An object without its property [key]. *)
Definition without (key : jsstring) (props : list (jsstring * value))
  : list (jsstring * value) :=
  filter (fun kv => negb (JSString.eqb (fst kv) key)) props.


(** ** Reading a serialized value back *)

(** A decimal digit. *)
Definition digit (d : Z) : Prop := 0 <= d <= 9.

(** What follows a value in the text the serializer writes: nothing, a comma
    or a line break. *)
Definition delimited (rest : jsstring) : Prop :=
  match rest with
  | [] => True
  | c :: _ => c = 44 \/ c = 10
  end.

(** The number [JSON.parse] reads from the text of a finite Number. *)
Definition reread (x : Number) : Number :=
  match x with
  | NegZero => Finite 0 0
  | _ => x
  end.

(** The head of [r] is not a decimal digit. *)
Definition stops_digits (r : jsstring) : Prop :=
  match r with
  | [] => True
  | c :: _ => JSON.is_digit c = false
  end.

(** An indentation: spaces only. *)
Definition spaces (indent : jsstring) : Prop := Forall (fun c => c = 32) indent.

(** White space, as [JSON.parse] skips it. *)
Definition blank (s : jsstring) : Prop := Forall (fun c => JSON.is_ws c = true) s.

(** The first character of a JSON value: a letter of [null], [true] or
    [false], a quote, a bracket, a brace, a minus sign or a digit. *)
Definition starts_value (c : Z) : Prop :=
  c = 110 \/ c = 116 \/ c = 102 \/ c = 34 \/ c = 91 \/ c = 123 \/ c = 45
  \/ 48 <= c <= 57.

(** The value [JSON.parse] gives for the text of [v]: [NaN] and the
    infinities were written as [null], negative zero as [0]. *)
Fixpoint reparsed (v : value) : value :=
  match v with
  | Num NaN | Num (Infinity _) => Null
  | Num NegZero => Num (Finite 0 0)
  | Arr items => Arr (map reparsed items)
  | Obj props => Obj (map (fun kv => (fst kv, reparsed (snd kv))) props)
  | _ => v
  end.

(** The nesting depth of a value. *)
Fixpoint depth (v : value) : nat :=
  match v with
  | Arr items => S (fold_right Nat.max 0%nat (map depth items))
  | Obj props => S (fold_right Nat.max 0%nat (map (fun kv => depth (snd kv)) props))
  | _ => 0%nat
  end.

(** A parser of values reads the text of [x], written at indentation
    [inner], back as [reparsed x] whatever delimited text follows. *)
Definition reads_back (pv : jsstring -> option (value * jsstring))
  (inner : jsstring) (x : value) : Prop :=
  forall rest, delimited rest ->
    pv (JSON.serialize inner x ++ rest) = Some (reparsed x, rest).

(** The separator between the elements of an array or the members of an
    object: a comma, a line break, the indentation. *)
Definition separator (inner : jsstring) : jsstring := lit "," ++ JSON.nl ++ inner.

(** The text of one member of an object. *)
Definition member (inner : jsstring) (kv : jsstring * value) : jsstring :=
  JSON.quote (fst kv) ++ lit ": " ++ JSON.serialize inner (snd kv).

(** The properties [JSON.parse] defines, one after another, on [acc]. *)
Definition defined (acc props : list (jsstring * value)) : list (jsstring * value) :=
  fold_left (fun a kv => JSON.define a (fst kv) (reparsed (snd kv))) props acc.

(** ** Notions for the properties of the actions and of the formatter *)

(** The command line [c] with the options [o] in place of its own. *)
Definition with_options (c : Command) (o : SearchOptions.t) : Command :=
  match c with
  | Search query _ => Search query o
  | Similar url _ => Similar url o
  | Contents urls _ => Contents urls o
  | Research topic _ => Research topic o
  | News topic _ => News topic o
  | Papers topic _ => Papers topic o
  end.

(** The options with every option string that is empty taken away. *)
Definition given_only (o : SearchOptions.t) : SearchOptions.t :=
  {| num := given (num o); type := given (type o); contents := contents o;
     summary := summary o; days := given (days o); domain := given (domain o);
     format := given (format o) |}.

(** The options with which a search does what research does: type neural,
    contents and summary, and 5 results unless a number is given. *)
Definition research_as_search (o : SearchOptions.t) : SearchOptions.t :=
  {| num := Some (or_default (num o) (lit "5")); type := Some (lit "neural");
     contents := true; summary := true; days := days o; domain := None;
     format := format o |}.

(** The options with which a search does what news does: type neural, the
    summary, and 7 days unless a number of days is given. *)
Definition news_as_search (o : SearchOptions.t) : SearchOptions.t :=
  {| num := num o; type := Some (lit "neural");
     contents := false; summary := true;
     days := Some (or_default (days o) (lit "7")); domain := None;
     format := format o |}.

(** What [console.log] has written to a stream: each entry and a line feed. *)
Definition written (entries : list jsstring) : jsstring :=
  List.concat (map (fun entry => entry ++ newline) entries).

(** The properties of an item the loop body skips when they are falsy. *)
Definition optional_keys : list jsstring :=
  [lit "title"; lit "publishedDate"; lit "author"; lit "summary"; lit "text"].

(** An item the loop body can render: anything but [null], as long as its
    [text], when truthy, is a string. *)
Definition renders (item : value) : bool :=
  match item with
  | Null => false
  | Obj props =>
      match lookup (lit "text") props with
      | Some (Str _) => true
      | text => negb (truthy text)
      end
  | _ => true
  end.

(** A response the text report can be made of: anything but [null], as long
    as its [results], when truthy, is a string or an array of items that
    render. *)
Definition formattable (results : value) : bool :=
  match results with
  | Null => false
  | Obj props =>
      match lookup (lit "results") props with
      | Some (Arr items) => forallb renders items
      | Some (Str _) => true
      | collection => negb (truthy collection)
      end
  | _ => true
  end.

(** A value that becomes a string with no call into it: a primitive, or
    nothing at all. *)
Definition primitive (v : option value) : bool :=
  match v with
  | Some (Arr _) | Some (Obj _) => false
  | _ => true
  end.

(** An item whose title, link, date, author and summary are primitives. *)
Definition plain_item (item : value) : bool :=
  match item with
  | Obj props =>
      primitive (lookup (lit "title") props)
      && primitive (lookup (lit "url") props)
      && primitive (lookup (lit "publishedDate") props)
      && primitive (lookup (lit "author") props)
      && primitive (lookup (lit "summary") props)
  | _ => true
  end.

(** A response whose items are plain. *)
Definition plain (results : value) : bool :=
  match results with
  | Obj props =>
      match lookup (lit "results") props with
      | Some (Arr items) => forallb plain_item items
      | _ => true
      end
  | _ => true
  end.

(** The command lines that ask for a date filter: news always, search and
    research when a days string that is not empty is given. *)
Definition filters_by_date (c : Command) : bool :=
  match c with
  | News _ _ => true
  | Search _ o | Research _ o =>
      match given (days o) with Some _ => true | None => false end
  | _ => false
  end.

(** ** Sample hosts

    Two runtimes in the UTC time zone that parse ISO dates and differ in
    locale only: en-US writes a date month first, en-GB day first with two
    digits. *)

Module Sample.

Definition number_at (w : nat) (s : jsstring) : option (Z * jsstring) :=
  let ds := firstn w s in
  if (List.length ds =? w)%nat && forallb JSON.is_digit ds
  then Some (JSON.digits_value (map (fun c => c - 48) ds), skipn w s)
  else None.

Definition char_at (c : Z) (s : jsstring) : option jsstring :=
  match s with
  | x :: r => if x =? c then Some r else None
  | [] => None
  end.

Definition and_then {A B} (o : option A) (k : A -> option B) : option B :=
  match o with
  | Some a => k a
  | None => None
  end.

(** [Date.parse] on the date form [YYYY-MM-DD] and the date-time form
    [YYYY-MM-DDTHH:mm:ss.sssZ]; nothing else is recognised. *)
Definition iso_parse (s : jsstring) : TimeValue :=
  and_then (number_at 4 s) (fun '(y, s) =>
  and_then (char_at 45 s) (fun s =>
  and_then (number_at 2 s) (fun '(m, s) =>
  and_then (char_at 45 s) (fun s =>
  and_then (number_at 2 s) (fun '(d, s) =>
  if negb ((1 <=? m) && (m <=? 12) && (1 <=? d) && (d <=? 31)) then None
  else
    let day := MakeDay y (m - 1) d in
    match s with
    | [] => TimeClip (MakeDate day 0)
    | _ =>
        and_then (char_at 84 s) (fun s =>
        and_then (number_at 2 s) (fun '(hh, s) =>
        and_then (char_at 58 s) (fun s =>
        and_then (number_at 2 s) (fun '(mm, s) =>
        and_then (char_at 58 s) (fun s =>
        and_then (number_at 2 s) (fun '(ss, s) =>
        and_then (char_at 46 s) (fun s =>
        and_then (number_at 3 s) (fun '(ms, s) =>
        match s with
        | [90] =>
            if (hh <=? 23) && (mm <=? 59) && (ss <=? 59)
            then TimeClip (MakeDate day (MakeTime hh mm ss ms))
            else None
        | _ => None
        end))))))))
    end))))).

Definition en_US_date (t : Z) : jsstring :=
  decimal (MonthFromTime t + 1) ++ lit "/" ++ decimal (DateFromTime t)
  ++ lit "/" ++ decimal (YearFromTime t).

Definition en_GB_date (t : Z) : jsstring :=
  pad 2 (DateFromTime t) ++ lit "/" ++ pad 2 (MonthFromTime t + 1)
  ++ lit "/" ++ decimal (YearFromTime t).

Definition host (locale_date : Z -> jsstring) (answer : ExaCall -> Result value) : Host :=
  {| EXA_API_KEY := Some (lit "secret");
     now := 1700000000000;
     LocalTZA := fun _ _ => 0;
     Date_parse := iso_parse;
     toLocaleDateString := locale_date;
     RangeError_message := lit "Invalid Date";
     TypeError_message := lit "undefined is not an object";
     commander_error := fun _ => lit "error: unknown option";
     exa := answer |}.

(** A service that answers every call with the same response. *)
Definition answers (response : value) : ExaCall -> Result value :=
  fun _ => Ok response.

(** A service that rejects every call. *)
Definition rejects (reason : jsstring) : ExaCall -> Result value :=
  fun _ => Throw (ExaError reason).

Definition item (fields : list (jsstring * value)) : value :=
  Obj ((lit "url", Str (lit "https://example.com/a")) :: fields).

Definition response (items : list value) : value :=
  Obj [(lit "results", Arr items); (lit "requestId", Str (lit "r1"))].

End Sample.

(** * Properties *)

(** ** The model on concrete inputs *)

Example parseInt_plain : parseInt (lit "10") = Finite 10 0.
Proof. reflexivity. Qed.

Example parseInt_prefix : parseInt (lit "  -42px") = Finite (-42) 0.
Proof. reflexivity. Qed.

Example parseInt_letters : parseInt (lit "abc") = NaN.
Proof. reflexivity. Qed.

Example parseInt_hexadecimal : parseInt (lit "0x1F") = Finite 31 0.
Proof. reflexivity. Qed.

Example parseInt_negative_zero : parseInt (lit "-0") = NegZero.
Proof. reflexivity. Qed.

Example parseInt_rounds : parseInt (lit "9007199254740993") = Finite 9007199254740992 0.
Proof. vm_compute. reflexivity. Qed.

Example one_tenth : F_of_dec 1 (-1) = Finite 3602879701896397 55.
Proof. vm_compute. reflexivity. Qed.

Example toString_fraction : JSNumber.toString (F_of_dec 1 (-1)) = lit "0.1".
Proof. vm_compute. reflexivity. Qed.

Example toString_large : JSNumber.toString (F_of_dec 1 21) = lit "1e+21".
Proof. vm_compute. reflexivity. Qed.

Example toString_small : JSNumber.toString (F_of_dec 15 (-8)) = lit "1.5e-7".
Proof. vm_compute. reflexivity. Qed.

Example toString_integer :
  JSNumber.toString (F_of_dec 123456789012345678901 0) = lit "123456789012345680000".
Proof. vm_compute. reflexivity. Qed.

Example toString_least : JSNumber.toString (Finite 1 1074) = lit "5e-324".
Proof. vm_compute. reflexivity. Qed.

Example toString_negative : JSNumber.toString (Finite (-5) 1) = lit "-2.5".
Proof. vm_compute. reflexivity. Qed.

Example epoch : iso_string 0 = lit "1970-01-01T00:00:00.000Z".
Proof. vm_compute. reflexivity. Qed.

Example leap_day : iso_string 951782400000 = lit "2000-02-29T00:00:00.000Z".
Proof. vm_compute. reflexivity. Qed.

Example before_epoch : iso_string (-1) = lit "1969-12-31T23:59:59.999Z".
Proof. vm_compute. reflexivity. Qed.

Example a_week_before :
  days_before_now (Sample.host Sample.en_US_date (Sample.answers Null)) (lit "7")
  = Some (1700000000000 - 7 * 86400000).
Proof. vm_compute. reflexivity. Qed.

Example stringify_nested :
  JSON.stringify (Obj [(lit "a", Arr [Num (Finite 1 0); Null]); (lit "b", Obj [])])
  = lit "{" ++ [10]
    ++ lit "  " ++ [34] ++ lit "a" ++ [34] ++ lit ": [" ++ [10]
    ++ lit "    1," ++ [10]
    ++ lit "    null" ++ [10]
    ++ lit "  ]," ++ [10]
    ++ lit "  " ++ [34] ++ lit "b" ++ [34] ++ lit ": {}" ++ [10]
    ++ lit "}".
Proof. vm_compute. reflexivity. Qed.

Example stringify_escapes :
  JSON.stringify (Str ([34; 92; 10; 1; 0xD83D; 0xDCC4; 0xD83D]))
  = [34] ++ [92; 34] ++ [92; 92] ++ lit "\n" ++ lit "\u0001" ++ [0xD83D; 0xDCC4]
    ++ lit "\ud83d" ++ [34].
Proof. vm_compute. reflexivity. Qed.

Example parse_keys_in_enumeration_order :
  JSON.parse (lit "{" ++ [34] ++ lit "b" ++ [34] ++ lit ": 1, " ++ [34] ++ lit "2"
              ++ [34] ++ lit ": [true, -0], " ++ [34] ++ lit "b" ++ [34]
              ++ lit ": 2e3 }")
  = Some (Obj [(lit "2", Arr [Bool true; Num NegZero]); (lit "b", Num (Finite 2000 0))]).
Proof. vm_compute. reflexivity. Qed.

Example parse_rejects_leading_zero : JSON.parse (lit "01") = None.
Proof. reflexivity. Qed.

Example report_of_one_item :
  formatResults (Sample.host Sample.en_GB_date (Sample.answers Null))
    (Sample.response
       [Sample.item [(lit "title", Str (lit "A page"));
                     (lit "publishedDate", Str (lit "2024-01-05T00:00:00.000Z"));
                     (lit "author", Null);
                     (lit "text", Str (lit "one" ++ [10] ++ lit "two"))]])
    None
  = Ok (join newline
          [ newline ++ Glyph.magnifier ++ lit " Found 1 results" ++ newline;
            divider;
            [];
            Glyph.page ++ lit " A page";
            Glyph.link ++ lit " https://example.com/a";
            Glyph.calendar ++ lit " 05/01/2024";
            [];
            lit "one two";
            [];
            divider ]).
Proof. vm_compute. reflexivity. Qed.

Example search_with_a_bad_count :
  main (Sample.host Sample.en_US_date (Sample.answers (Sample.response [])))
       (Search (lit "agents")
          {| num := Some (lit "abc"); type := None; contents := false;
             summary := true; days := None; domain := Some (lit "example.com");
             format := Some (lit "json") |})
  = ({| stdout := [JSON.stringify (Sample.response [])];
        stderr := [];
        calls :=
          [searchAndContents (lit "agents")
             {| Request.numResults := Some NaN;
                Request.type := Some (lit "auto");
                Request.startPublishedDate := None;
                Request.includeDomains := Some [lit "example.com"];
                Request.text := None;
                Request.summary := Some true |}] |}, 0).
Proof. vm_compute. reflexivity. Qed.

Example missing_key :
  main {| EXA_API_KEY := None; now := 0; LocalTZA := fun _ _ => 0;
          Date_parse := Sample.iso_parse; toLocaleDateString := Sample.en_US_date;
          RangeError_message := []; TypeError_message := [];
          commander_error := fun _ => []; exa := Sample.answers Null |}
       (Papers (lit "x") SearchOptions.none)
  = ({| stdout := [];
        stderr := [Glyph.cross ++ lit " EXA_API_KEY environment variable not set"];
        calls := [] |}, 1).
Proof. vm_compute. reflexivity. Qed.

(** ** Strings *)

Lemma eqb_eq (a b : jsstring) : JSString.eqb a b = true <-> a = b.
Proof.
  revert b; induction a as [|x a IH]; intros [|y b]; simpl; split;
    try congruence; try reflexivity.
  - rewrite andb_true_iff, Z.eqb_eq, IH. intros [-> ->]; reflexivity.
  - intros H; injection H as -> ->.
    rewrite Z.eqb_refl. simpl. apply IH; reflexivity.
Qed.

Lemma eqb_refl (a : jsstring) : JSString.eqb a a = true.
Proof. apply eqb_eq; reflexivity. Qed.

(** ** The actions factor through the request builder *)

Lemma main_outcome (h : Host) (c : Command) (key : jsstring) :
  given (EXA_API_KEY h) = Some key -> accepted c = true -> main h c = outcome h c.
Proof.
  intros Hkey Hacc. unfold main, action. rewrite Hacc. clear Hacc.
  destruct c as [q o|u o|us o|t o|t o|t o];
    destruct o as [n ty [|] [|] d dm f];
    unfold main, outcome, run, action, request, since, failed, diagnostic,
      search_action, similar_action, contents_action, research_action,
      news_action, papers_action, getClient, report, bind, try_catch, lift,
      await, console_log, console_error, process_exit, ret, start, bindR;
    rewrite Hkey;
    cbn -[parseInt or_default formatResults message given toISOString days_before_now].
  all: repeat match goal with
       | |- context [match given ?x with _ => _ end] => destruct (given x)
       | |- context [match toISOString ?x with _ => _ end] => destruct (toISOString x)
       | |- context [if ?b then _ else _] => destruct b
       end;
    cbn -[parseInt or_default formatResults message];
    unfold Request.spread, Request.over;
    cbn -[parseInt or_default formatResults message];
    try reflexivity.
  all: match goal with
       | |- context [match exa ?h ?c with _ => _ end] => destruct (exa h c)
       end; cbn -[parseInt or_default formatResults message]; try reflexivity.
  all: destruct (formatResults _ _ _); reflexivity.
Qed.


(** A command line that commander rejects: its error line, exit code 1, and
    nothing else. *)
Lemma main_rejected (h : Host) (c : Command) :
  accepted c = false ->
  main h c = ({| stdout := []; stderr := [commander_error h c]; calls := [] |}, 1).
Proof. intros Hacc. unfold main, action. rewrite Hacc. reflexivity. Qed.

Lemma outcome_calls (h : Host) (c : Command) :
  calls (fst (outcome h c)) =
  match request h c with Ok call => [call] | Throw _ => [] end.
Proof.
  unfold outcome, failed.
  destruct (request h c) as [call|e]; [|reflexivity].
  destruct (exa h call); [|reflexivity].
  destruct (formatResults _ _ _); reflexivity.
Qed.

(** ** Papers and contents: the request is fixed by the subcommand *)

(** C6.  Whatever options a papers invocation is given, when commander
    accepts it (papers declares the num and format options only) the one
    call it issues is [searchAndContents] on the topic with the five academic
    domains, verbatim and in order, as [includeDomains], type ["neural"] and
    [summary: true]; no option reaches the request but [num].  A papers
    command line with any other option is rejected by commander: no request
    is built, no call is issued and the exit code is 1. *)
Theorem papers_request_fixed
  (h : Host) (topic : jsstring) (o : SearchOptions.t) (key : jsstring) :
  given (EXA_API_KEY h) = Some key ->
  (accepted (Papers topic o) = true ->
   calls (fst (main h (Papers topic o))) =
   [searchAndContents topic
      {| Request.numResults :=
           Some (parseInt (or_default (default (num o) (lit "10")) (lit "10")));
         Request.type := Some (lit "neural");
         Request.startPublishedDate := None;
         Request.includeDomains :=
           Some [lit "arxiv.org"; lit "scholar.google.com"; lit "semanticscholar.org";
                 lit "papers.ssrn.com"; lit "researchgate.net"];
         Request.text := None;
         Request.summary := Some true |}])
  /\ (accepted (Papers topic o) = false ->
      calls (fst (main h (Papers topic o))) = []
      /\ snd (main h (Papers topic o)) = 1).
Proof.
  intros Hkey. split; intros Hacc.
  - rewrite (main_outcome h _ key Hkey Hacc), outcome_calls. reflexivity.
  - rewrite (main_rejected h _ Hacc). split; reflexivity.
Qed.

Lemma papers_request_fixed_witness :
  let h := Sample.host Sample.en_US_date (Sample.answers (Sample.response [])) in
  let o := {| num := Some (lit "20"); type := None; contents := false;
              summary := false; days := None; domain := None;
              format := Some (lit "json") |} in
  given (EXA_API_KEY h) = Some (lit "secret") /\
  accepted (Papers (lit "transformers") o) = true /\
  calls (fst (main h (Papers (lit "transformers") o))) =
  [searchAndContents (lit "transformers")
     {| Request.numResults := Some (Finite 20 0);
        Request.type := Some (lit "neural");
        Request.startPublishedDate := None;
        Request.includeDomains :=
          Some [lit "arxiv.org"; lit "scholar.google.com"; lit "semanticscholar.org";
                lit "papers.ssrn.com"; lit "researchgate.net"];
        Request.text := None;
        Request.summary := Some true |}].
Proof.
  intros h o. split; [reflexivity|]. split; [reflexivity|].
  exact (proj1 (papers_request_fixed h (lit "transformers") o (lit "secret") eq_refl)
           eq_refl).
Defined.

(** C7.  A contents invocation that commander accepts (at least one URL, and
    no option but the summary flag and the format) issues exactly one call,
    [getContents] on the whole list of URLs in the order given, with
    [text: true] always and [summary: true] exactly when the summary flag is
    set.  With no URL, commander rejects the command line and no call is
    issued. *)
Theorem contents_single_call
  (h : Host) (urls : list jsstring) (o : SearchOptions.t) (key : jsstring) :
  given (EXA_API_KEY h) = Some key ->
  (accepted (Contents urls o) = true ->
   calls (fst (main h (Contents urls o))) =
   [getContents urls
      {| Request.numResults := None;
         Request.type := None;
         Request.startPublishedDate := None;
         Request.includeDomains := None;
         Request.text := Some true;
         Request.summary := if summary o then Some true else None |}])
  /\ calls (fst (main h (Contents [] o))) = [].
Proof.
  intros Hkey. split.
  - intros Hacc. rewrite (main_outcome h _ key Hkey Hacc), outcome_calls. reflexivity.
  - rewrite (main_rejected h (Contents [] o) eq_refl). reflexivity.
Qed.

Lemma contents_single_call_witness :
  let h := Sample.host Sample.en_US_date (Sample.answers (Sample.response [])) in
  let o := {| num := None; type := None; contents := false; summary := true;
              days := None; domain := None; format := None |} in
  given (EXA_API_KEY h) = Some (lit "secret") /\
  accepted (Contents [lit "urlA"; lit "urlB"] o) = true /\
  calls (fst (main h (Contents [lit "urlA"; lit "urlB"] o))) =
  [getContents [lit "urlA"; lit "urlB"]
     {| Request.numResults := None; Request.type := None;
        Request.startPublishedDate := None; Request.includeDomains := None;
        Request.text := Some true; Request.summary := Some true |}].
Proof.
  intros h o. split; [reflexivity|]. split; [reflexivity|].
  exact (proj1 (contents_single_call h [lit "urlA"; lit "urlB"] o (lit "secret") eq_refl)
           eq_refl).
Defined.

(** ** The text report *)

Lemma text_mode_not_json (format : option jsstring) :
  text_mode format = true ->
  JSString.eqb (match format with Some f => f | None => lit "text" end) (lit "json") = false.
Proof. unfold text_mode. intros H. apply negb_true_iff in H. exact H. Qed.

(** C9.  When the result collection is absent, [null] or empty, the text
    report is the header with a count of zero, a line break, and one divider
    rule: no item block. *)
Theorem empty_results_report (h : Host) (results : value) (format : option jsstring) :
  text_mode format = true ->
  get (Some results) (lit "results") = Ok None
  \/ get (Some results) (lit "results") = Ok (Some Null)
  \/ get (Some results) (lit "results") = Ok (Some (Arr [])) ->
  formatResults h results format =
  Ok (newline ++ Glyph.magnifier ++ lit " Found 0 results" ++ newline
      ++ newline ++ divider).
Proof.
  intros Hmode Hres. unfold formatResults.
  rewrite (text_mode_not_json _ Hmode).
  destruct Hres as [H|[H|H]]; rewrite H; reflexivity.
Qed.

Lemma empty_results_report_witness :
  let h := Sample.host Sample.en_US_date (Sample.answers Null) in
  text_mode None = true /\
  (get (Some (Sample.response [])) (lit "results") = Ok None
   \/ get (Some (Sample.response [])) (lit "results") = Ok (Some Null)
   \/ get (Some (Sample.response [])) (lit "results") = Ok (Some (Arr []))) /\
  formatResults h (Sample.response []) None =
  Ok (newline ++ Glyph.magnifier ++ lit " Found 0 results" ++ newline
      ++ newline ++ divider).
Proof.
  split; [reflexivity|]. split; [right; right; reflexivity|].
  apply empty_results_report; [reflexivity|right; right; reflexivity].
Defined.

(** The block of an item that is an object. *)
Lemma format_result_object (h : Host) (props : list (jsstring * value)) :
  format_result h (Obj props) =
  (body <- (if truthy (lookup (lit "text") props) then
              match lookup (lit "text") props with
              | Some (Str s) => Ok [[]; preview_line s]
              | _ => Throw TypeError
              end
            else Ok []) ;;
   Ok ([ [];
         Glyph.page ++ lit " "
         ++ ToString (or_else (lookup (lit "title") props) (Some (Str (lit "Untitled"))));
         Glyph.link ++ lit " " ++ ToString (lookup (lit "url") props) ]
       ++ (if truthy (lookup (lit "publishedDate") props)
           then [Glyph.calendar ++ lit " "
                 ++ localeDate h (match lookup (lit "publishedDate") props with
                                  | Some v => Date_of h v
                                  | None => None
                                  end)]
           else [])
       ++ (if truthy (lookup (lit "author") props)
           then [Glyph.writing_hand ++ lit "  " ++ ToString (lookup (lit "author") props)]
           else [])
       ++ (if truthy (lookup (lit "summary") props)
           then [[]; Glyph.memo ++ lit " " ++ ToString (lookup (lit "summary") props)]
           else [])
       ++ body
       ++ [ []; divider ]))%result.
Proof. reflexivity. Qed.

(** A property read that yields a value comes from an object. *)
Lemma get_some_object (item : value) (key : jsstring) (v : value) :
  JSString.eqb key (lit "length") = false ->
  get (Some item) key = Ok (Some v) ->
  exists props, item = Obj props /\ lookup key props = Some v.
Proof.
  intros Hkey H. destruct item as [| | | |items|props]; simpl in H;
    try rewrite Hkey in H; try discriminate.
  exists props. split; [reflexivity|]. congruence.
Qed.

Lemma lookup_without_same (key : jsstring) (props : list (jsstring * value)) :
  lookup key (without key props) = None.
Proof.
  induction props as [|[k v] props IH]; simpl; [reflexivity|].
  destruct (JSString.eqb k key) eqn:E; simpl; [exact IH|].
  rewrite E. exact IH.
Qed.

Lemma lookup_without_other (key key' : jsstring) (props : list (jsstring * value)) :
  JSString.eqb key' key = false ->
  lookup key' (without key props) = lookup key' props.
Proof.
  intros Hne. induction props as [|[k v] props IH]; simpl; [reflexivity|].
  destruct (JSString.eqb k key) eqn:E; simpl.
  - apply eqb_eq in E. subst k.
    destruct (JSString.eqb key key') eqn:E'; [|exact IH].
    apply eqb_eq in E'. subst key'. rewrite eqb_refl in Hne. discriminate.
  - rewrite IH. reflexivity.
Qed.


(** The body block of an item whose text is a string, [null] or absent. *)
Lemma body_well_typed (text : option value) :
  string_or_absent text = true ->
  (if truthy text then
     match text with
     | Some (Str s) => Ok [[]; preview_line s]
     | _ => Throw TypeError
     end
   else Ok []) =
  Ok (match text with
      | Some (Str (c :: s)) => [[]; preview_line (c :: s)]
      | _ => []
      end).
Proof.
  destruct text as [[| | |[|c s]| |]|]; simpl; intros H;
    try discriminate; reflexivity.
Qed.

(** C10.  An item whose title is the empty string gets the title line of an
    item with no title, the page glyph and [Untitled]; its whole block is the
    block of the same item without the title property. *)
Theorem empty_title_is_untitled (h : Host) (item : value) :
  well_formed_item item = true ->
  get (Some item) (lit "title") = Ok (Some (Str [])) ->
  exists props rest,
    item = Obj props
    /\ format_result h item = Ok ([] :: (Glyph.page ++ lit " Untitled") :: rest)
    /\ lookup (lit "title") (without (lit "title") props) = None
    /\ format_result h (Obj (without (lit "title") props)) = format_result h item.
Proof.
  intros Hwf Htitle.
  destruct (get_some_object item (lit "title") _ eq_refl Htitle) as [props [-> Hl]].
  simpl in Hwf. repeat (apply andb_true_iff in Hwf; destruct Hwf as [Hwf ?]).
  exists props. eexists. split; [reflexivity|].
  split; [|split; [apply lookup_without_same|]].
  - rewrite format_result_object, body_well_typed by assumption.
    rewrite Hl. cbn [bindR or_else truthy JSString.eqb negb ToString ToString_value app].
    reflexivity.
  - rewrite !format_result_object.
    rewrite (lookup_without_other (lit "title") (lit "text")) by reflexivity.
    rewrite (lookup_without_other (lit "title") (lit "url")) by reflexivity.
    rewrite (lookup_without_other (lit "title") (lit "publishedDate")) by reflexivity.
    rewrite (lookup_without_other (lit "title") (lit "author")) by reflexivity.
    rewrite (lookup_without_other (lit "title") (lit "summary")) by reflexivity.
    rewrite lookup_without_same, Hl. reflexivity.
Qed.

Lemma empty_title_is_untitled_witness :
  let h := Sample.host Sample.en_GB_date (Sample.answers Null) in
  let item := Sample.item [(lit "title", Str []); (lit "author", Str (lit "Ada"))] in
  well_formed_item item = true /\
  get (Some item) (lit "title") = Ok (Some (Str [])) /\
  exists props rest,
    item = Obj props
    /\ format_result h item = Ok ([] :: (Glyph.page ++ lit " Untitled") :: rest)
    /\ lookup (lit "title") (without (lit "title") props) = None
    /\ format_result h (Obj (without (lit "title") props)) = format_result h item.
Proof.
  intros h item. split; [reflexivity|]. split; [reflexivity|].
  exact (empty_title_is_untitled h item eq_refl eq_refl).
Defined.




(** ** Output after a failure *)

(** C2 as stated fails: research prints its progress line before the call, so
    after a failed call standard output is not empty. *)
Lemma no_partial_output_counterexample :
  ~ (forall (h : Host) (c : Command) (key : jsstring) (e : Error),
       given (EXA_API_KEY h) = Some key ->
       (forall call, exa h call = Throw e) ->
       stdout (fst (main h c)) = []).
Proof.
  intros claim.
  specialize (claim (Sample.host Sample.en_US_date (Sample.rejects (lit "quota exceeded")))
                    (Research (lit "ai") SearchOptions.none)
                    (lit "secret") (ExaError (lit "quota exceeded"))
                    eq_refl (fun _ => eq_refl)).
  discriminate claim.
Qed.

(** C2, as amended.  With the key set, an invocation of a command line that
    commander accepts (the only ones that reach a call) ends in one of two
    ways: exit code 0 with the progress line of the subcommand (none for
    search, similar and contents) followed by one whole formatted response
    and nothing on standard error; or exit code 1 with the progress line
    alone on standard output and one diagnostic line on standard error.  A
    failed external call gives the second, with the message of the
    failure. *)
Theorem output_whole_or_banner (h : Host) (c : Command) (key : jsstring) :
  given (EXA_API_KEY h) = Some key ->
  accepted c = true ->
  ((exists call response out,
       exa h call = Ok response
       /\ formatResults h response (SearchOptions.format (declared c)) = Ok out
       /\ main h c
          = ({| stdout := banner c ++ [out]; stderr := []; calls := [call] |}, 0))
   \/ (exists e issued,
         main h c
         = ({| stdout := banner c; stderr := [diagnostic h e]; calls := issued |}, 1)))
  /\ (forall call e,
        request h c = Ok call -> exa h call = Throw e ->
        main h c
        = ({| stdout := banner c; stderr := [diagnostic h e]; calls := [call] |}, 1))
  /\ (match c with
      | Search _ _ | Similar _ _ | Contents _ _ => banner c = []
      | Research topic _ =>
          banner c = [Glyph.microscope ++ lit " Researching: " ++ topic ++ lit "..." ++ newline]
      | News topic _ =>
          banner c = [Glyph.newspaper ++ lit " Searching news: " ++ topic ++ lit "..." ++ newline]
      | Papers topic _ =>
          banner c = [Glyph.books ++ lit " Searching papers: " ++ topic ++ lit "..." ++ newline]
      end).
Proof.
  intros Hkey Hacc. rewrite (main_outcome h c key Hkey Hacc). unfold outcome, failed.
  split; [|split].
  - destruct (request h c) as [call|e]; [|right; eauto].
    destruct (exa h call) as [response|e] eqn:Ecall; [|right; eauto].
    destruct (formatResults _ _ _) as [out|e] eqn:Eout; [|right; eauto].
    left. exists call, response, out. auto.
  - intros call e -> ->. reflexivity.
  - destruct c; reflexivity.
Qed.

Lemma output_whole_or_banner_witness :
  let h := Sample.host Sample.en_US_date (Sample.rejects (lit "quota exceeded")) in
  let c := News (lit "ai") SearchOptions.none in
  given (EXA_API_KEY h) = Some (lit "secret") /\
  accepted c = true /\
  forall call e,
    request h c = Ok call -> exa h call = Throw e ->
    main h c
    = ({| stdout := banner c; stderr := [diagnostic h e]; calls := [call] |}, 1).
Proof.
  intros h c. split; [reflexivity|]. split; [reflexivity|].
  exact (proj1 (proj2 (output_whole_or_banner h c (lit "secret") eq_refl eq_refl))).
Defined.

(** ** Formatting and the host *)

Lemma Date_of_same_locale (h1 h2 : Host) (v : value) :
  same_locale h1 h2 -> Date_of h1 v = Date_of h2 v.
Proof. intros [Hp _]. destruct v; simpl; auto. Qed.

Lemma format_result_same (h1 h2 : Host) (item : value) :
  dated item = false \/ same_locale h1 h2 ->
  format_result h1 item = format_result h2 item.
Proof.
  intros H. destruct item as [| | | |items|props]; try reflexivity.
  rewrite !format_result_object. destruct H as [H|H].
  - simpl in H. rewrite H. reflexivity.
  - destruct (lookup (lit "publishedDate") props) as [v|]; [|reflexivity].
    rewrite (Date_of_same_locale h1 h2 v H).
    destruct (Date_of h2 v) as [t|]; [|reflexivity].
    unfold localeDate. rewrite (proj2 H t). reflexivity.
Qed.

Lemma format_each_same (h1 h2 : Host) (items : list value) :
  forallb (fun i => negb (dated i)) items = true \/ same_locale h1 h2 ->
  format_each h1 items = format_each h2 items.
Proof.
  intros H. induction items as [|item items IH]; [reflexivity|].
  cbn [format_each]. rewrite (format_result_same h1 h2 item), IH; [reflexivity| |].
  - destruct H as [H|H]; [left|right; exact H].
    simpl in H. apply andb_true_iff in H. apply H.
  - destruct H as [H|H]; [left|right; exact H].
    simpl in H. apply andb_true_iff in H. apply negb_true_iff, H.
Qed.

Lemma format_result_well_formed (h : Host) (item : value) :
  well_formed_item item = true -> exists block, format_result h item = Ok block.
Proof.
  intros Hwf. destruct item as [| | | |items|props]; try discriminate.
  simpl in Hwf. repeat (apply andb_true_iff in Hwf; destruct Hwf as [Hwf ?]).
  rewrite format_result_object, body_well_typed by assumption.
  eexists. reflexivity.
Qed.

Lemma format_each_well_formed (h : Host) (items : list value) :
  forallb well_formed_item items = true -> exists blocks, format_each h items = Ok blocks.
Proof.
  induction items as [|item items IH]; intros Hwf; [exists []; reflexivity|].
  simpl in Hwf. apply andb_true_iff in Hwf. destruct Hwf as [Hi Hr].
  destruct (format_result_well_formed h item Hi) as [block Hb].
  destruct (IH Hr) as [blocks Hbs].
  cbn [format_each]. rewrite Hb, Hbs. eexists. reflexivity.
Qed.

(** The text report of a well-formed response: header, divider, the blocks. *)
Lemma formatResults_text (h : Host) (results : value) (format : option jsstring) :
  text_mode format = true ->
  well_formed results = true ->
  formatResults h results format =
  (blocks <- format_each h (items_of results) ;;
   Ok (join newline
         ([newline ++ Glyph.magnifier ++ lit " Found "
           ++ ToString (or_else
                          (Some (Num (F_of_Z (Z.of_nat (List.length (items_of results))))))
                          (Some (Num (Finite 0 0))))
           ++ lit " results" ++ newline; divider] ++ blocks)))%result.
Proof.
  intros Hmode Hwf. unfold formatResults. rewrite (text_mode_not_json _ Hmode).
  destruct results as [| | | |?|props]; try discriminate.
  unfold items_of. simpl in Hwf. cbn [get bindR].
  destruct (lookup (lit "results") props) as [[| | | |items|]|]; try discriminate;
    reflexivity.
Qed.

(** C4 as stated fails: the date line is rendered in the locale of the
    runtime, so the same well-formed response formats differently on an en-US
    and on an en-GB host. *)
Lemma formatting_pure_counterexample :
  ~ (forall (h1 h2 : Host) (results : value) (format : option jsstring),
       well_formed results = true ->
       formatResults h1 results format = formatResults h2 results format).
Proof.
  intros claim.
  specialize (claim (Sample.host Sample.en_US_date (Sample.answers Null))
                    (Sample.host Sample.en_GB_date (Sample.answers Null))
                    (Sample.response
                       [Sample.item [(lit "publishedDate",
                                      Str (lit "2024-01-05T00:00:00.000Z"))]])
                    None eq_refl).
  vm_compute in claim. discriminate claim.
Qed.

(** C4, as amended.  On a well-formed response the formatter never fails, on
    any host.  Its output is a function of the response, the format and the
    date handling of the host (date parsing and the locale rendering of a
    date): hosts that agree on these give the same output, and so do any two
    hosts in JSON mode or when no item has a published date.  An item with a
    [url] and nothing else gives the title fallback, the link line, a blank
    line and the divider: no line stands for a missing field. *)
Theorem formatting_deterministic
  (h1 h2 : Host) (results : value) (format : option jsstring) :
  well_formed results = true ->
  (exists out, formatResults h1 results format = Ok out)
  /\ (same_locale h1 h2 ->
      formatResults h1 results format = formatResults h2 results format)
  /\ (forallb (fun i => negb (dated i)) (items_of results) = true ->
      formatResults h1 results format = formatResults h2 results format)
  /\ (text_mode format = false ->
      formatResults h1 results format = Ok (JSON.stringify results)
      /\ formatResults h2 results format = Ok (JSON.stringify results))
  /\ (forall u,
        format_result h1 (Obj [(lit "url", Str u)])
        = Ok [ []; Glyph.page ++ lit " Untitled"; Glyph.link ++ lit " " ++ u;
               []; divider ]).
Proof.
  intros Hwf.
  assert (Hjson : text_mode format = false ->
                  forall h, formatResults h results format = Ok (JSON.stringify results)).
  { intros Hm h. unfold formatResults. unfold text_mode in Hm.
    apply negb_false_iff in Hm. rewrite Hm. reflexivity. }
  assert (Hsame : forallb (fun i => negb (dated i)) (items_of results) = true
                  \/ same_locale h1 h2 ->
                  formatResults h1 results format = formatResults h2 results format).
  { intros H. destruct (text_mode format) eqn:Hm.
    - rewrite !formatResults_text by assumption.
      rewrite (format_each_same h1 h2 _ H). reflexivity.
    - rewrite !Hjson by reflexivity. reflexivity. }
  split; [|split; [|split; [|split]]].
  - destruct (text_mode format) eqn:Hm.
    + rewrite formatResults_text by assumption.
      assert (Hitems : forallb well_formed_item (items_of results) = true).
      { destruct results as [| | | |?|props]; try discriminate.
        unfold items_of. simpl in Hwf.
        destruct (lookup (lit "results") props) as [[| | | |items|]|];
          try discriminate; try reflexivity. exact Hwf. }
      destruct (format_each_well_formed h1 _ Hitems) as [blocks ->].
      eexists. reflexivity.
    + rewrite Hjson by reflexivity. eexists. reflexivity.
  - intros H. apply Hsame. right. exact H.
  - intros H. apply Hsame. left. exact H.
  - intros Hm. split; apply Hjson; exact Hm.
  - intros u. reflexivity.
Qed.

Lemma formatting_deterministic_witness :
  let h1 := Sample.host Sample.en_US_date (Sample.answers Null) in
  let h2 := Sample.host Sample.en_GB_date (Sample.answers Null) in
  let results := Sample.response [Sample.item [(lit "title", Str (lit "A page"))]] in
  well_formed results = true /\
  (exists out, formatResults h1 results None = Ok out) /\
  formatResults h1 results None = formatResults h2 results None.
Proof.
  intros h1 h2 results. split; [reflexivity|].
  pose proof (formatting_deterministic h1 h2 results None eq_refl) as H.
  split; [exact (proj1 H)|].
  exact (proj1 (proj2 (proj2 H)) eq_refl).
Defined.

(** ** The calendar *)

Ltac split_400 y :=
  let k := fresh "k" in
  let r := fresh "r" in
  pose proof (Z.div_mod y 400 ltac:(lia));
  pose proof (Z.mod_pos_bound y 400 ltac:(lia));
  set (k := y / 400) in *; set (r := y mod 400) in *;
  replace y with (400 * k + r) in * by lia; clearbody k r;
  Z.div_mod_to_equations; lia.

Lemma DayFromYear_succ (y : Z) : DayFromYear (y + 1) = DayFromYear y + DaysInYear y.
Proof.
  unfold DayFromYear, DaysInYear.
  destruct (Z.eqb_spec (y mod 4) 0); destruct (Z.eqb_spec (y mod 100) 0);
    destruct (Z.eqb_spec (y mod 400) 0); cbn [negb]; split_400 y.
Qed.

Lemma DayFromYear_lower (y : Z) : 146097 * (y - 1970) - 146097 <= 400 * DayFromYear y.
Proof. unfold DayFromYear. split_400 y. Qed.

Lemma DayFromYear_upper (y : Z) : 400 * DayFromYear y <= 146097 * (y - 1970) + 146097.
Proof. unfold DayFromYear. split_400 y. Qed.

(** [YearFromTime] is the year the day falls in. *)
Lemma YearFromTime_spec (t : Z) :
  DayFromYear (YearFromTime t) <= Day t < DayFromYear (YearFromTime t + 1).
Proof.
  unfold YearFromTime. set (d := Day t). set (y := 1970 + d * 400 / 146097).
  assert (Hy : DayFromYear (y - 1) <= d < DayFromYear (y + 2)).
  { pose proof (DayFromYear_upper (y - 1)). pose proof (DayFromYear_lower (y + 2)).
    subst y. Z.div_mod_to_equations. lia. }
  replace (y + 2) with (y + 1 + 1) in Hy by lia.
  destruct (Z.leb_spec (DayFromYear (y + 1)) d); [lia|].
  destruct (Z.leb_spec (DayFromYear y) d); [lia|].
  replace (y - 1 + 1) with y by lia. lia.
Qed.

Lemma DaysInYear_cases (y : Z) : DaysInYear y = 365 + LeapOfYear y /\ 0 <= LeapOfYear y <= 1.
Proof.
  unfold LeapOfYear, DaysInYear.
  destruct (y mod 4 =? 0), (y mod 100 =? 0), (y mod 400 =? 0); cbn; lia.
Qed.

Lemma DayWithinYear_range (t : Z) : 0 <= DayWithinYear t < 365 + InLeapYear t.
Proof.
  unfold DayWithinYear, InLeapYear.
  pose proof (YearFromTime_spec t) as H.
  rewrite DayFromYear_succ in H.
  destruct (DaysInYear_cases (YearFromTime t)) as [E _]. lia.
Qed.

Lemma MonthFromTime_range (t : Z) : 0 <= MonthFromTime t <= 11.
Proof.
  unfold MonthFromTime.
  repeat match goal with
         | |- context [if ?b then _ else _] => destruct b
         end; lia.
Qed.

(** The day of the month is between 1 and 31. *)
Lemma DateFromTime_range (t : Z) : 1 <= DateFromTime t <= 31.
Proof.
  unfold DateFromTime, MonthFromTime.
  pose proof (DayWithinYear_range t) as Hd.
  destruct (DaysInYear_cases (YearFromTime t)) as [_ Hl].
  fold (InLeapYear t) in Hl.
  set (d := DayWithinYear t) in *. set (l := InLeapYear t) in *.
  repeat match goal with
         | |- context [if ?a <? ?b then _ else _] => destruct (Z.ltb_spec a b)
         end; cbn [MonthStart]; lia.
Qed.

(** Setting the day of the month to the current one less [n] moves the day
    number back by [n]. *)
Lemma MakeDay_back (t n : Z) :
  MakeDay (YearFromTime t) (MonthFromTime t) (DateFromTime t - n) = Day t - n.
Proof.
  unfold MakeDay. pose proof (MonthFromTime_range t) as Hm.
  rewrite (Z.div_small (MonthFromTime t) 12), (Z.mod_small (MonthFromTime t) 12) by lia.
  rewrite Z.add_0_r. unfold DateFromTime, DayWithinYear, InLeapYear. lia.
Qed.

Lemma F_of_Z_small (z : Z) : Z.abs z <= two53 -> F_of_Z z = Finite z 0.
Proof.
  intros H. unfold F_of_Z, F_of_Q. rewrite Z.eqb_refl.
  destruct (Z.leb_spec (Z.abs z) two53); [reflexivity|lia].
Qed.

(** [days_before_now] for a day count that [parseInt] reads as the integer
    [n]: the local time moves back by [n] whole days. *)
Lemma days_before_now_spec (h : Host) (days : jsstring) (n : Z) :
  parseInt days = Finite n 0 ->
  Z.abs n <= 2 ^ 52 ->
  days_before_now h days
  = TimeClip (UTC (LocalTZA h) (LocalTime (LocalTZA h) (now h) - n * msPerDay)).
Proof.
  intros Hparse Hn. unfold days_before_now, setDate, getDate. rewrite Hparse.
  set (t := LocalTime (LocalTZA h) (now h)).
  pose proof (DateFromTime_range t) as Hd.
  assert (H53 : two53 = 2 * 2 ^ 52) by reflexivity.
  rewrite F_of_Z_small by lia.
  unfold JSNumber.sub. cbn [N.add Z.of_N]. rewrite Z.pow_0_r, !Z.mul_1_r.
  fold (F_of_Z (DateFromTime t - n)). rewrite F_of_Z_small by lia.
  cbn [trunc Z.of_N]. rewrite Z.pow_0_r, Z.quot_1_r, MakeDay_back.
  f_equal. f_equal. unfold MakeDate, Day, TimeWithinDay.
  pose proof (Z.div_mod t msPerDay ltac:(discriminate)). lia.
Qed.


(** ** News: the default week *)

(** C5 as stated fails: a news invocation with no days flag and the num
    option [3] asks for 3 results, not 10. *)
Lemma news_count_counterexample :
  ~ (forall (h : Host) (topic : jsstring) (o : SearchOptions.t) (key : jsstring),
       given (EXA_API_KEY h) = Some key ->
       accepted (News topic o) = true ->
       days o = None ->
       forall call, In call (calls (fst (main h (News topic o)))) ->
         Request.numResults (options_of call) = Some (Finite 10 0)).
Proof.
  intros claim.
  specialize (claim (Sample.host Sample.en_US_date (Sample.answers (Sample.response [])))
                    (lit "topic X")
                    {| num := Some (lit "3"); type := None; contents := false;
                       summary := false; days := None; domain := None;
                       format := None |}
                    (lit "secret") eq_refl eq_refl eq_refl _ (or_introl eq_refl)).
  discriminate claim.
Qed.

(** C5, as amended.  A news invocation with no days flag that commander
    accepts issues one call, [searchAndContents] on the topic, with type
    ["neural"], [summary: true], [startPublishedDate] the ISO string of now
    moved back seven days on the local calendar, and [numResults] the
    [parseInt] of the num string, which is 10 when no num flag is given.
    Where the zone offset is the same at both instants the date is now minus
    7 * 86400000 ms.  A search invocation with no days flag sets no
    [startPublishedDate]. *)
Theorem news_default_week
  (h : Host) (topic : jsstring) (o : SearchOptions.t) (key : jsstring) :
  given (EXA_API_KEY h) = Some key ->
  accepted (News topic o) = true ->
  days o = None ->
  Z.abs (UTC (LocalTZA h) (LocalTime (LocalTZA h) (now h) - 7 * msPerDay))
  <= 8640000000000000 ->
  calls (fst (main h (News topic o))) =
  [searchAndContents topic
     {| Request.numResults := Some (parseInt (or_default (num o) (lit "10")));
        Request.type := Some (lit "neural");
        Request.startPublishedDate :=
          Some (iso_string
                  (UTC (LocalTZA h) (LocalTime (LocalTZA h) (now h) - 7 * msPerDay)));
        Request.includeDomains := None;
        Request.text := None;
        Request.summary := Some true |}]
  /\ (num o = None -> parseInt (or_default (num o) (lit "10")) = Finite 10 0)
  /\ (forall offset,
        LocalTZA h (now h) true = offset ->
        LocalTZA h (now h + offset - 7 * msPerDay) false = offset ->
        UTC (LocalTZA h) (LocalTime (LocalTZA h) (now h) - 7 * msPerDay)
        = now h - 7 * msPerDay)
  /\ (exists call,
        calls (fst (main h (Search topic o))) = [call]
        /\ Request.startPublishedDate (options_of call) = None).
Proof.
  intros Hkey Hacc Hdays Hrange.
  rewrite (main_outcome h _ key Hkey Hacc), (main_outcome h (Search topic o) key Hkey eq_refl),
    !outcome_calls.
  split; [|split; [|split]].
  - unfold request. cbn [declared SearchOptions.days SearchOptions.num].
    rewrite Hdays. cbn [default].
    change (or_default (Some (lit "7")) (lit "7")) with (lit "7").
    rewrite (days_before_now_spec h (lit "7") 7 eq_refl) by (cbn; lia).
    unfold TimeClip.
    destruct (Z.ltb_spec 8640000000000000
                (Z.abs (UTC (LocalTZA h) (LocalTime (LocalTZA h) (now h) - 7 * msPerDay))));
      [lia|].
    cbn [toISOString bindR].
    destruct (num o) as [[|? ?]|]; reflexivity.
  - intros Hnum. rewrite Hnum. reflexivity.
  - intros offset H1 H2. unfold UTC, LocalTime. rewrite H1, H2. lia.
  - unfold request, since. cbn [declared SearchOptions.days].
    rewrite Hdays. cbn [given bindR SearchOptions.contents SearchOptions.summary].
    destruct (contents o || summary o); eexists; split; reflexivity.
Qed.

Lemma news_default_week_witness :
  let h := Sample.host Sample.en_US_date (Sample.answers (Sample.response [])) in
  given (EXA_API_KEY h) = Some (lit "secret") /\
  calls (fst (main h (News (lit "topic X") SearchOptions.none))) =
  [searchAndContents (lit "topic X")
     {| Request.numResults := Some (Finite 10 0);
        Request.type := Some (lit "neural");
        Request.startPublishedDate := Some (lit "2023-11-07T22:13:20.000Z");
        Request.includeDomains := None;
        Request.text := None;
        Request.summary := Some true |}].
Proof.
  intros h. split; [reflexivity|].
  exact (proj1 (news_default_week h (lit "topic X") SearchOptions.none (lit "secret")
                  eq_refl eq_refl eq_refl ltac:(vm_compute; discriminate))).
Defined.

(** ** Decimal numerals *)

Lemma fold_digits_acc (ds : list Z) (acc : Z) :
  fold_left (fun a d => a * 10 + d) ds acc
  = acc * 10 ^ Z.of_nat (List.length ds) + JSON.digits_value ds.
Proof.
  unfold JSON.digits_value. revert acc.
  induction ds as [|d ds IH]; intros acc; cbn [fold_left List.length].
  - cbn. lia.
  - rewrite (IH (acc * 10 + d)), (IH (0 * 10 + d)), Nat2Z.inj_succ, Z.pow_succ_r by lia.
    ring.
Qed.

Lemma digits_value_app (a b : list Z) :
  JSON.digits_value (a ++ b)
  = JSON.digits_value a * 10 ^ Z.of_nat (List.length b) + JSON.digits_value b.
Proof.
  unfold JSON.digits_value at 1. rewrite fold_left_app, fold_digits_acc. reflexivity.
Qed.

Lemma digits_value_cons (d : Z) (ds : list Z) :
  JSON.digits_value (d :: ds) = d * 10 ^ Z.of_nat (List.length ds) + JSON.digits_value ds.
Proof. apply (digits_value_app [d] ds). Qed.

Lemma digits_value_nonneg (ds : list Z) : Forall digit ds -> 0 <= JSON.digits_value ds.
Proof.
  induction 1 as [|d ds Hd _ IH]; [cbn; lia|].
  rewrite digits_value_cons. unfold digit in Hd.
  pose proof (Z.pow_nonneg 10 (Z.of_nat (List.length ds)) ltac:(lia)). nia.
Qed.

Lemma digits_fuel_spec (fuel : nat) (n : Z) (acc : list Z) :
  0 <= n < 10 ^ Z.of_nat (S fuel) ->
  exists d ds,
    digits_fuel (S fuel) n acc = d :: ds ++ acc
    /\ Forall digit (d :: ds)
    /\ JSON.digits_value (d :: ds) = n
    /\ (0 < n -> 0 < d).
Proof.
  revert n acc. induction fuel as [|fuel IH]; intros n acc Hn.
  - change (10 ^ Z.of_nat 1) with 10 in Hn.
    cbn [digits_fuel]. destruct (Z.ltb_spec n 10); [|lia].
    rewrite Z.mod_small by lia.
    exists n, []. repeat split; try (cbn; lia).
    constructor; [unfold digit; lia|constructor].
  - cbn [digits_fuel]. destruct (Z.ltb_spec n 10) as [Hlt|Hge].
    + rewrite Z.mod_small by lia.
      exists n, []. repeat split; try (cbn; lia).
      constructor; [unfold digit; lia|constructor].
    + assert (Hq : 0 <= n / 10 < 10 ^ Z.of_nat (S fuel)).
      { rewrite (Nat2Z.inj_succ (S fuel)), Z.pow_succ_r in Hn by lia.
        split; [apply Z.div_pos; lia|apply Z.div_lt_upper_bound; lia]. }
      destruct (IH (n / 10) (n mod 10 :: acc) Hq) as [d [ds [E [Hds [Hv Hpos]]]]].
      change (digits_fuel (S fuel) (n / 10) (n mod 10 :: acc)
              = d :: ds ++ n mod 10 :: acc) in E.
      exists d, (ds ++ [n mod 10]). split; [|split; [|split]].
      * cbn [digits_fuel] in E |- *. rewrite E, <- app_assoc. reflexivity.
      * change (d :: ds ++ [n mod 10]) with ((d :: ds) ++ [n mod 10]).
        apply Forall_app. split; [exact Hds|].
        constructor; [|constructor].
        unfold digit. pose proof (Z.mod_pos_bound n 10 ltac:(lia)). lia.
      * change (d :: ds ++ [n mod 10]) with ((d :: ds) ++ [n mod 10]).
        rewrite digits_value_app, Hv. cbn.
        pose proof (Z.div_mod n 10 ltac:(lia)). lia.
      * intros _. apply Hpos. apply Z.div_str_pos. lia.
Qed.

(** The digits of a non-negative integer: decimal digits that give the
    integer back, the first of them not zero unless the integer is. *)
Lemma digits_spec (n : Z) :
  0 <= n ->
  exists d ds,
    digits n = d :: ds
    /\ Forall digit (d :: ds)
    /\ JSON.digits_value (d :: ds) = n
    /\ (0 < n -> 0 < d).
Proof.
  intros Hn. unfold digits.
  destruct (digits_fuel_spec (Z.to_nat (Z.log2 n)) n []) as [d [ds [E H]]].
  - split; [lia|].
    rewrite Nat2Z.inj_succ, Z2Nat.id by apply Z.log2_nonneg.
    destruct (Z.eq_dec n 0) as [->|Hnz]; [cbn; lia|].
    pose proof (Z.log2_spec n ltac:(lia)) as [_ Hlt].
    pose proof (Z.pow_le_mono_l 2 10 (Z.succ (Z.log2 n)) ltac:(lia)). lia.
  - exists d, ds. rewrite app_nil_r in E. auto.
Qed.

Lemma digit_cases (d : Z) :
  digit d -> d = 0 \/ d = 1 \/ d = 2 \/ d = 3 \/ d = 4 \/ d = 5 \/ d = 6 \/ d = 7
             \/ d = 8 \/ d = 9.
Proof. unfold digit. lia. Qed.

Ltac each_digit H :=
  let E := fresh in
  destruct (digit_cases _ H) as [E|[E|[E|[E|[E|[E|[E|[E|[E|E]]]]]]]]]; rewrite E in *.

(** [parseInt]'s scan over a decimal numeral. *)
Lemma parse_digits_decimal (ds : list Z) (rest : jsstring) (acc : Z) (seen : bool) :
  Forall digit ds ->
  parse_digits 10 (map digit_char ds ++ rest) acc seen
  = parse_digits 10 rest (fold_left (fun a d => a * 10 + d) ds acc)
                 (seen || negb (Nat.eqb (List.length ds) 0)).
Proof.
  intros H. revert acc seen.
  induction H as [|d ds Hd _ IH]; intros acc seen.
  - cbn. rewrite orb_false_r. reflexivity.
  - cbn [map app parse_digits fold_left List.length Nat.eqb negb].
    assert (E : digit_value 10 (digit_char d) = Some d)
      by (each_digit Hd; reflexivity).
    rewrite E, IH, orb_true_r. reflexivity.
Qed.




(** ** The request builder and its option strings *)

Lemma or_default_default (s : option jsstring) (d : jsstring) :
  or_default (default s d) d = or_default s d.
Proof. destruct s as [[|c r]|]; destruct d; reflexivity. Qed.






(** ** Number tokens: what [Number::toString] writes, [JSON.parse] reads *)

Lemma digit_char_is_digit (d : Z) :
  digit d -> JSON.is_digit (digit_char d) = true /\ digit_char d - 48 = d.
Proof. intros H. each_digit H; split; reflexivity. Qed.

Lemma span_digits_numeral (ds : list Z) (r : jsstring) :
  Forall digit ds -> stops_digits r ->
  JSON.span_digits (map digit_char ds ++ r) = (ds, r).
Proof.
  intros H Hr. induction H as [|d ds Hd _ IH].
  - destruct r as [|c r]; [reflexivity|]. cbn in Hr |- *. rewrite Hr. reflexivity.
  - cbn [map app JSON.span_digits].
    destruct (digit_char_is_digit d Hd) as [-> ->]. rewrite IH. reflexivity.
Qed.

Lemma zeros_numeral (m : nat) : repeat_str (lit "0") m = map digit_char (repeat 0 m).
Proof. induction m as [|m IH]; [reflexivity|]. cbn [repeat_str repeat map]. rewrite IH. reflexivity. Qed.

Lemma Forall_digit_zeros (m : nat) : Forall digit (repeat 0 m).
Proof. induction m; constructor; [unfold digit; lia|assumption]. Qed.

Lemma digits_value_zeros (m : nat) : JSON.digits_value (repeat 0 m) = 0.
Proof.
  induction m as [|m IH]; [reflexivity|].
  cbn [repeat]. rewrite digits_value_cons, IH. lia.
Qed.

Lemma delimited_stops (rest : jsstring) :
  delimited rest ->
  stops_digits rest /\ JSON.parse_fraction rest = Some ([], rest)
  /\ JSON.parse_exponent rest = Some (0, rest).
Proof.
  destruct rest as [|c r]; [intros _; repeat split|].
  intros [->| ->]; repeat split.
Qed.

(** The exponent part [e], sign, digits is read as the exponent. *)
Lemma parse_exponent_part (n : Z) (rest : jsstring) :
  delimited rest ->
  JSON.parse_exponent (exponent_part n ++ rest) = Some (n - 1, rest).
Proof.
  intros Hrest. destruct (delimited_stops rest Hrest) as [Hstop _].
  unfold exponent_part, decimal.
  destruct (digits_spec (Z.abs (n - 1)) ltac:(lia)) as [d [ds [E [Hds [Hv _]]]]].
  rewrite E.
  change (lit "e") with [101]. change (lit "+") with [43]. change (lit "-") with [45].
  destruct (Z.leb_spec 0 (n - 1));
    cbn [app JSON.parse_exponent Z.eqb Pos.eqb orb];
    change (digit_char d :: map digit_char ds ++ rest)
      with (map digit_char (d :: ds) ++ rest);
    rewrite span_digits_numeral by assumption; rewrite Hv; f_equal; f_equal; lia.
Qed.

(** A number token in its parts: integer digits, fraction digits, exponent. *)
Lemma parse_unsigned_parts
  (d : Z) (int frac : list Z) (tail rest : jsstring) (ex : Z) :
  Forall digit (d :: int) -> Forall digit frac ->
  (d = 0 -> int = []) ->
  stops_digits tail ->
  (frac = [] -> JSON.parse_fraction tail = Some ([], tail)) ->
  JSON.parse_exponent tail = Some (ex, rest) ->
  JSON.parse_unsigned
    (map digit_char (d :: int)
     ++ (match frac with [] => [] | _ => 46 :: map digit_char frac end) ++ tail)
  = Some (F_of_dec (JSON.digits_value ((d :: int) ++ frac))
                   (ex - Z.of_nat (List.length frac)), rest).
Proof.
  intros Hint Hfrac Hzero Htail Hnofrac Hexp. unfold JSON.parse_unsigned.
  assert (Hspan : JSON.span_digits
                    (map digit_char (d :: int)
                     ++ (match frac with [] => [] | _ => 46 :: map digit_char frac end)
                     ++ tail)
                  = (d :: int,
                     (match frac with [] => [] | _ => 46 :: map digit_char frac end)
                     ++ tail)).
  { apply span_digits_numeral; [exact Hint|].
    destruct frac; [exact Htail|reflexivity]. }
  rewrite Hspan.
  assert (Hlead : (d =? 0) = false \/ int = []).
  { destruct (Z.eqb_spec d 0); [right; auto|left; reflexivity]. }
  destruct Hlead as [Hlead|Hlead].
  2: { subst int. assert (Hd0 : (if d =? 0 then d = 0 else True))
         by (destruct (Z.eqb_spec d 0); auto).
       destruct (d =? 0); [subst d|]; cbn [map app];
         (destruct frac as [|f frac];
          [ cbn [app]; rewrite (Hnofrac eq_refl), Hexp; reflexivity
          | cbn [app JSON.parse_fraction Z.eqb Pos.eqb];
            rewrite (span_digits_numeral (f :: frac) tail Hfrac Htail), Hexp;
            reflexivity ]). }
  rewrite Hlead.
  destruct frac as [|f frac].
  - cbn [app]. rewrite (Hnofrac eq_refl), Hexp. reflexivity.
  - cbn [app JSON.parse_fraction Z.eqb Pos.eqb].
    change (map digit_char (f :: frac) ++ tail)
      with (map digit_char (f :: frac) ++ tail).
    rewrite (span_digits_numeral (f :: frac) tail Hfrac Htail), Hexp. reflexivity.
Qed.

Lemma F_of_dec_shift (s m : Z) : 0 <= m -> F_of_dec (s * 10 ^ m) 0 = F_of_dec s m.
Proof.
  intros Hm. unfold F_of_dec. destruct (Z.leb_spec 0 m); [|lia].
  cbn [Z.leb Z.compare]. rewrite Z.pow_0_r, Z.mul_1_r. reflexivity.
Qed.

Lemma exponent_part_head (n : Z) (rest : jsstring) :
  stops_digits (exponent_part n ++ rest)
  /\ JSON.parse_fraction (exponent_part n ++ rest) = Some ([], exponent_part n ++ rest).
Proof. unfold exponent_part. change (lit "e") with [101]. split; reflexivity. Qed.

Section Numerals.

(** The digits [d :: ds] of a positive integer [s], and a delimited rest. *)
Variables (d : Z) (ds : list Z) (s : Z) (rest : jsstring).
Hypothesis Hds : Forall digit (d :: ds).
Hypothesis Hv : JSON.digits_value (d :: ds) = s.
Hypothesis Hpos : 0 < d.
Hypothesis Hrest : delimited rest.

Let len : Z := Z.of_nat (List.length ds).

(** Digits followed by zeros: an integer. *)
Lemma numeral_integer (m : nat) :
  JSON.parse_unsigned ((map digit_char (d :: ds) ++ repeat_str (lit "0") m) ++ rest)
  = Some (F_of_dec s (Z.of_nat m), rest).
Proof.
  destruct (delimited_stops rest Hrest) as [Hstop [Hfrac0 Hexp0]].
  rewrite zeros_numeral, <- map_app.
  etransitivity;
    [apply (parse_unsigned_parts d (ds ++ repeat 0 m) [] rest rest 0); auto; try lia|].
  - constructor; [exact (Forall_inv Hds)|].
    apply Forall_app. split; [exact (Forall_inv_tail Hds)|apply Forall_digit_zeros].
  - rewrite app_nil_r.
    change (d :: ds ++ repeat 0 m) with ((d :: ds) ++ repeat 0 m).
    rewrite digits_value_app, Hv, digits_value_zeros, repeat_length.
    cbn [List.length Z.of_nat]. rewrite Z.add_0_r, Z.sub_0_r, F_of_dec_shift by lia.
    reflexivity.
Qed.

(** Digits with a decimal point after the first [S j] of them. *)
Lemma numeral_point (j : nat) :
  (j < List.length ds)%nat ->
  JSON.parse_unsigned
    ((firstn (S j) (map digit_char (d :: ds)) ++ lit "."
      ++ skipn (S j) (map digit_char (d :: ds))) ++ rest)
  = Some (F_of_dec s (Z.of_nat j - len), rest).
Proof.
  intros Hj. destruct (delimited_stops rest Hrest) as [Hstop [Hfrac0 Hexp0]].
  rewrite firstn_map, skipn_map. cbn [firstn skipn].
  assert (Hfrac : Forall digit (skipn j ds)).
  { rewrite <- (firstn_skipn j ds) in Hds. apply Forall_inv_tail in Hds.
    apply Forall_app in Hds. apply Hds. }
  assert (Hint : Forall digit (d :: firstn j ds)).
  { constructor; [exact (Forall_inv Hds)|].
    pose proof (Forall_inv_tail Hds) as H. rewrite <- (firstn_skipn j ds) in H.
    apply Forall_app in H. apply H. }
  assert (Hlen : List.length (skipn j ds) = (List.length ds - j)%nat) by apply length_skipn.
  pose proof (parse_unsigned_parts d (firstn j ds) (skipn j ds) rest rest 0
                Hint Hfrac ltac:(lia) Hstop ltac:(auto) Hexp0) as H.
  change ((d :: firstn j ds) ++ skipn j ds) with (d :: (firstn j ds ++ skipn j ds)) in H.
  rewrite firstn_skipn, Hv, Hlen in H.
  destruct (skipn j ds) as [|f fr]; [cbn in Hlen; lia|].
  change (lit ".") with [46]. rewrite <- !app_assoc. cbn [app] in H |- *.
  rewrite H. f_equal. f_equal. f_equal. subst len. lia.
Qed.

(** [0.], zeros, digits: a fraction below one. *)
Lemma numeral_fraction (m : nat) :
  JSON.parse_unsigned
    ((lit "0." ++ repeat_str (lit "0") m ++ map digit_char (d :: ds)) ++ rest)
  = Some (F_of_dec s (- Z.of_nat m - Z.succ len), rest).
Proof.
  destruct (delimited_stops rest Hrest) as [Hstop [Hfrac0 Hexp0]].
  assert (Hfrac : Forall digit (repeat 0 m ++ d :: ds)).
  { apply Forall_app. split; [apply Forall_digit_zeros|exact Hds]. }
  assert (Hzero : Forall digit [0]) by (constructor; [unfold digit; lia|constructor]).
  pose proof (parse_unsigned_parts 0 [] (repeat 0 m ++ d :: ds) rest rest 0
                Hzero Hfrac ltac:(auto) Hstop ltac:(auto) Hexp0) as H.
  rewrite zeros_numeral, <- map_app. change (lit "0.") with [48; 46].
  assert (Hlenf : List.length (repeat 0 m ++ d :: ds) = (m + S (List.length ds))%nat)
    by (rewrite length_app, repeat_length; reflexivity).
  assert (Hval : JSON.digits_value ([0] ++ repeat 0 m ++ d :: ds) = s).
  { cbn [app]. rewrite digits_value_cons, digits_value_app, digits_value_zeros, Hv. lia. }
  rewrite Hval, Hlenf in H.
  destruct (repeat 0 m ++ d :: ds) as [|f fr]; [cbn in Hlenf; lia|].
  rewrite <- !app_assoc. cbn [app map] in H |- *. change (digit_char 0) with 48 in H.
  rewrite H. f_equal. f_equal. f_equal. subst len. lia.
Qed.

(** One digit and an exponent part. *)
Lemma numeral_exponent_single (n : Z) :
  ds = [] ->
  JSON.parse_unsigned ((map digit_char (d :: ds) ++ exponent_part n) ++ rest)
  = Some (F_of_dec s (n - 1), rest).
Proof.
  intros ->. destruct (exponent_part_head n rest) as [Hstop Hfrac].
  pose proof (parse_unsigned_parts d [] [] (exponent_part n ++ rest) rest (n - 1)
                Hds ltac:(constructor) ltac:(lia) Hstop ltac:(auto)
                (parse_exponent_part n rest Hrest)) as H.
  rewrite <- app_assoc. cbn [app] in H |- *. rewrite H.
  rewrite Hv. cbn [List.length Z.of_nat]. rewrite Z.sub_0_r. reflexivity.
Qed.

(** A digit, a decimal point, more digits and an exponent part. *)
Lemma numeral_exponent (n : Z) :
  ds <> [] ->
  JSON.parse_unsigned
    ((firstn 1 (map digit_char (d :: ds)) ++ lit "."
      ++ skipn 1 (map digit_char (d :: ds)) ++ exponent_part n) ++ rest)
  = Some (F_of_dec s (n - 1 - len), rest).
Proof.
  intros Hne. destruct (exponent_part_head n rest) as [Hstop Hfrac].
  pose proof (parse_unsigned_parts d [] ds (exponent_part n ++ rest) rest (n - 1)
                ltac:(constructor; [exact (Forall_inv Hds)|constructor])
                (Forall_inv_tail Hds) ltac:(lia) Hstop ltac:(auto)
                (parse_exponent_part n rest Hrest)) as H.
  change (lit ".") with [46]. cbn [firstn skipn map].
  destruct ds as [|f fr] eqn:Eds; [contradiction|].
  rewrite <- !app_assoc. cbn [app map] in H |- *. rewrite H.
  cbn [app] in Hv. rewrite Hv. reflexivity.
Qed.

End Numerals.

(** Every numeral [format_decimal] writes is read back as the Number of its
    digits and exponent. *)
Lemma parse_unsigned_format (s n : Z) (rest : jsstring) :
  0 < s -> delimited rest ->
  JSON.parse_unsigned (format_decimal s n ++ rest)
  = Some (F_of_dec s (n - Z.of_nat (List.length (digits s))), rest).
Proof.
  intros Hs Hrest.
  destruct (digits_spec s ltac:(lia)) as [d [ds [E [Hds [Hv Hpos]]]]].
  specialize (Hpos Hs).
  unfold format_decimal, decimal. rewrite length_map, E.
  cbn [List.length]. rewrite Nat2Z.inj_succ.
  set (len := Z.of_nat (List.length ds)). assert (Hlen : 0 <= len) by (subst len; lia).
  destruct (Z.leb_spec (Z.succ len) n) as [A|A];
    destruct (Z.leb_spec n 21) as [B|B]; cbn [andb].
  - rewrite (numeral_integer d ds s rest) by assumption.
    rewrite Z2Nat.id by lia. reflexivity.
  - rewrite andb_false_r.
    destruct (Z.ltb_spec (-6) n); [|lia]. destruct (Z.leb_spec n 0); [lia|]. cbn [andb].
    destruct (Z.eqb_spec (Z.succ len) 1) as [K|K].
    + rewrite (numeral_exponent_single d ds s rest) with (n := n)
        by first [assumption | destruct ds; [reflexivity|cbn in len; lia]].
      subst len; repeat (f_equal; try lia).
    + rewrite (numeral_exponent d ds s rest) with (n := n)
        by first [assumption | intros ->; cbn in len; lia].
      subst len; repeat (f_equal; try lia).
  - destruct (Z.ltb_spec 0 n) as [C|C]; cbn [andb].
    + assert (Hj : (Z.to_nat n = S (Z.to_nat (n - 1)))%nat) by lia.
      rewrite Hj, (numeral_point d ds s rest) by first [assumption | lia].
      subst len; repeat (f_equal; try lia).
    + destruct (Z.ltb_spec (-6) n) as [D|D]; destruct (Z.leb_spec n 0); try lia; cbn [andb].
      * rewrite (numeral_fraction d ds s rest) by assumption.
        subst len; repeat (f_equal; try lia).
      * destruct (Z.eqb_spec (Z.succ len) 1) as [K|K].
        -- rewrite (numeral_exponent_single d ds s rest) with (n := n)
             by first [assumption | destruct ds; [reflexivity|cbn in len; lia]].
           subst len; repeat (f_equal; try lia).
        -- rewrite (numeral_exponent d ds s rest) with (n := n)
             by first [assumption | intros ->; cbn in len; lia].
           subst len; repeat (f_equal; try lia).
  - destruct (Z.ltb_spec 0 n); [|lia]. cbn [andb].
    destruct (Z.ltb_spec (-6) n); [|lia]. destruct (Z.leb_spec n 0); [lia|]. cbn [andb].
    destruct (Z.eqb_spec (Z.succ len) 1) as [K|K].
    + rewrite (numeral_exponent_single d ds s rest) with (n := n)
        by first [assumption | destruct ds; [reflexivity|cbn in len; lia]].
      subst len; repeat (f_equal; try lia).
    + rewrite (numeral_exponent d ds s rest) with (n := n)
        by first [assumption | intros ->; cbn in len; lia].
      subst len; repeat (f_equal; try lia).
Qed.

(** ** Rounding depends on the ratio only *)

Lemma pow2_pos (k : Z) : 0 <= k -> 0 < 2 ^ k.
Proof. intros. apply Z.pow_pos_nonneg; lia. Qed.

Lemma ge_pow2_scale (p q c k : Z) :
  0 < c -> ge_pow2 (p * c) (q * c) k = ge_pow2 p q k.
Proof.
  intros Hc. unfold ge_pow2. destruct (0 <=? k).
  - destruct (Z.leb_spec (q * 2 ^ k) p), (Z.leb_spec (q * c * 2 ^ k) (p * c));
      try reflexivity; nia.
  - destruct (Z.leb_spec q (p * 2 ^ (- k))), (Z.leb_spec (q * c) (p * c * 2 ^ (- k)));
      try reflexivity; nia.
Qed.

Lemma ge_pow2_mono (p q k k' : Z) :
  0 < p -> 0 < q -> k' <= k -> ge_pow2 p q k = true -> ge_pow2 p q k' = true.
Proof.
  intros Hp Hq Hk. unfold ge_pow2.
  destruct (Z.leb_spec 0 k) as [K|K], (Z.leb_spec 0 k') as [K'|K']; try lia; intros Hge.
  - apply Z.leb_le in Hge. apply Z.leb_le.
    pose proof (Z.pow_le_mono_r 2 k' k ltac:(lia) ltac:(lia)). nia.
  - apply Z.leb_le in Hge. apply Z.leb_le.
    pose proof (pow2_pos k ltac:(lia)). pose proof (pow2_pos (- k') ltac:(lia)). nia.
  - apply Z.leb_le in Hge. apply Z.leb_le.
    pose proof (Z.pow_le_mono_r 2 (- k) (- k') ltac:(lia) ltac:(lia)). nia.
Qed.

(** [ilog2Q p q] is the exponent [l] with [2^l <= p / q < 2^(l+1)]. *)
Lemma ilog2Q_spec (p q : Z) :
  0 < p -> 0 < q ->
  ge_pow2 p q (ilog2Q p q) = true /\ ge_pow2 p q (ilog2Q p q + 1) = false.
Proof.
  intros Hp Hq. unfold ilog2Q.
  pose proof (Z.log2_spec p Hp) as [Ha1 Ha2]. pose proof (Z.log2_spec q Hq) as [Hb1 Hb2].
  pose proof (Z.log2_nonneg p) as Ha0. pose proof (Z.log2_nonneg q) as Hb0.
  set (a := Z.log2 p) in *. set (b := Z.log2 q) in *.
  rewrite Z.pow_succ_r in Ha2, Hb2 by lia.
  destruct (ge_pow2 p q (a - b)) eqn:E.
  - split; [exact E|]. unfold ge_pow2.
    destruct (Z.leb_spec 0 (a - b + 1)).
    + apply Z.leb_gt.
      assert (2 ^ b * 2 ^ (a - b + 1) = 2 * 2 ^ a).
      { rewrite <- Z.pow_add_r, <- Z.pow_succ_r by lia. f_equal. lia. }
      pose proof (pow2_pos (a - b + 1) ltac:(lia)). nia.
    + apply Z.leb_gt.
      assert (2 * 2 ^ a * 2 ^ (- (a - b + 1)) = 2 ^ b).
      { rewrite <- Z.pow_succ_r, <- Z.pow_add_r by lia. f_equal. lia. }
      pose proof (pow2_pos (- (a - b + 1)) ltac:(lia)). nia.
  - replace (a - b - 1 + 1) with (a - b) by lia. split; [|exact E].
    unfold ge_pow2. destruct (Z.leb_spec 0 (a - b - 1)).
    + apply Z.leb_le.
      assert (2 * 2 ^ b * 2 ^ (a - b - 1) = 2 ^ a).
      { rewrite <- Z.pow_succ_r, <- Z.pow_add_r by lia. f_equal. lia. }
      pose proof (pow2_pos (a - b - 1) ltac:(lia)). nia.
    + apply Z.leb_le.
      assert (2 ^ a * 2 ^ (- (a - b - 1)) = 2 * 2 ^ b).
      { rewrite <- Z.pow_add_r, <- Z.pow_succ_r by lia. f_equal. lia. }
      pose proof (pow2_pos (- (a - b - 1)) ltac:(lia)). nia.
Qed.

Lemma ilog2Q_unique (p q l : Z) :
  0 < p -> 0 < q ->
  ge_pow2 p q l = true -> ge_pow2 p q (l + 1) = false -> ilog2Q p q = l.
Proof.
  intros Hp Hq H1 H2. destruct (ilog2Q_spec p q Hp Hq) as [S1 S2].
  destruct (Z.lt_trichotomy (ilog2Q p q) l) as [Hlt|[Heq|Hgt]]; [|exact Heq|].
  - rewrite (ge_pow2_mono p q l (ilog2Q p q + 1) Hp Hq ltac:(lia) H1) in S2. discriminate.
  - rewrite (ge_pow2_mono p q (ilog2Q p q) (l + 1) Hp Hq ltac:(lia) S1) in H2. discriminate.
Qed.

Lemma ilog2Q_scale (p q c : Z) :
  0 < p -> 0 < q -> 0 < c -> ilog2Q (p * c) (q * c) = ilog2Q p q.
Proof.
  intros Hp Hq Hc. destruct (ilog2Q_spec p q Hp Hq) as [S1 S2].
  apply ilog2Q_unique; try nia; rewrite ge_pow2_scale by exact Hc; assumption.
Qed.

Lemma rne_scale (p q c : Z) : 0 < q -> 0 < c -> rne (p * c) (q * c) = rne p q.
Proof.
  intros Hq Hc. unfold rne.
  rewrite Z.div_mul_cancel_r, Z.mul_mod_distr_r by lia.
  assert (E1 : (2 * (p mod q * c) <? q * c) = (2 * (p mod q) <? q)).
  { destruct (Z.ltb_spec (2 * (p mod q)) q), (Z.ltb_spec (2 * (p mod q * c)) (q * c));
      try reflexivity; nia. }
  assert (E2 : (q * c <? 2 * (p mod q * c)) = (q <? 2 * (p mod q))).
  { destruct (Z.ltb_spec q (2 * (p mod q))), (Z.ltb_spec (q * c) (2 * (p mod q * c)));
      try reflexivity; nia. }
  rewrite E1, E2. reflexivity.
Qed.

Lemma F_pos_scale (p q c : Z) :
  0 < p -> 0 < q -> 0 < c -> F_pos (p * c) (q * c) = F_pos p q.
Proof.
  intros Hp Hq Hc. unfold F_pos. rewrite ilog2Q_scale by assumption.
  set (ex := Z.max (ilog2Q p q - 52) (-1074)).
  assert (Hm : (if 0 <=? ex then rne (p * c) (q * c * 2 ^ ex)
                else rne (p * c * 2 ^ (- ex)) (q * c))
               = (if 0 <=? ex then rne p (q * 2 ^ ex) else rne (p * 2 ^ (- ex)) q)).
  { destruct (Z.leb_spec 0 ex).
    - replace (q * c * 2 ^ ex) with (q * 2 ^ ex * c) by ring.
      apply rne_scale; [|exact Hc]. pose proof (pow2_pos ex ltac:(lia)). nia.
    - replace (p * c * 2 ^ (- ex)) with (p * 2 ^ (- ex) * c) by ring.
      apply rne_scale; assumption. }
  rewrite Hm. reflexivity.
Qed.

(** Away from the integers, the Number of a ratio does not change when both
    terms are scaled. *)
Lemma F_of_Q_scale (p q c : Z) :
  1 < q -> 0 < c -> F_of_Q (p * c) (q * c) = F_of_Q p q.
Proof.
  intros Hq Hc. unfold F_of_Q.
  destruct (Z.eqb_spec q 1); [lia|]. destruct (Z.eqb_spec (q * c) 1); [nia|].
  cbn [andb].
  destruct (Z.eqb_spec p 0) as [->|Hp0]; [reflexivity|].
  destruct (Z.eqb_spec (p * c) 0); [nia|].
  destruct (Z.ltb_spec 0 p), (Z.ltb_spec 0 (p * c)); try nia.
  - apply F_pos_scale; lia.
  - replace (- (p * c)) with (- p * c) by ring. rewrite F_pos_scale by lia. reflexivity.
Qed.

(** ** The shortest decimal of a double is read back as the double *)

Lemma Number_eqb_eq (a b : Number) : JSNumber.eqb a b = true -> a = b.
Proof.
  destruct a as [|sa| |za ea], b as [|sb| |zb eb]; cbn; try discriminate; try reflexivity.
  - intros H. apply Bool.eqb_prop in H. congruence.
  - intros H. apply andb_true_iff in H. destruct H as [Hz He].
    apply Z.eqb_eq in Hz. apply N.eqb_eq in He. congruence.
Qed.

Lemma F_of_Q_zero (q : Z) : F_of_Q 0 q = Finite 0 0.
Proof. unfold F_of_Q. destruct ((q =? 1) && (Z.abs 0 <=? two53)); reflexivity. Qed.

Lemma F_of_dec_zero (E : Z) : F_of_dec 0 E = Finite 0 0.
Proof. unfold F_of_dec. destruct (0 <=? E); rewrite ?Z.mul_0_l; apply F_of_Q_zero. Qed.

Lemma pow10_pos (k : Z) : 0 <= k -> 0 < 10 ^ k.
Proof. intros. apply Z.pow_pos_nonneg; lia. Qed.

Lemma candidate_sound (x : Number) (p q n0 k s n : Z) :
  0 <= p -> 0 < q -> 1 <= k ->
  candidate x p q n0 k = Some (s, n) ->
  rounds_to x s n = true /\ 0 <= s.
Proof.
  intros Hp Hq Hk. unfold candidate.
  set (P := p * 10 ^ Z.max (k - n0) 0). set (Q := q * 10 ^ Z.max (n0 - k) 0).
  assert (HP : 0 <= P).
  { subst P. pose proof (pow10_pos (Z.max (k - n0) 0) ltac:(lia)). nia. }
  assert (HQ : 0 < Q).
  { subst Q. pose proof (pow10_pos (Z.max (n0 - k) 0) ltac:(lia)). nia. }
  assert (Hlo : 0 <= P / Q) by (apply Z.div_pos; lia).
  set (above := if P / Q + 1 =? 10 ^ k then (10 ^ (k - 1), n0 + 1) else (P / Q + 1, n0)).
  assert (Habove : 0 <= fst above).
  { subst above. destruct (P / Q + 1 =? 10 ^ k); cbn [fst]; [|lia].
    apply Z.pow_nonneg. lia. }
  clearbody above. destruct above as [sa na]. cbn [fst snd] in *.
  destruct (rounds_to x (P / Q) n0) eqn:EL;
    destruct (rounds_to x sa na) eqn:EH; cbn [andb];
    intros H; try discriminate H.
  - destruct (2 * (P mod Q) <? Q); [injection H as <- <-; auto|].
    destruct (Q <? 2 * (P mod Q)); [injection H as <- <-; auto|].
    destruct (Z.even (P / Q)); injection H as <- <-; auto.
  - injection H as <- <-. auto.
  - injection H as <- <-. auto.
Qed.

Lemma shortest_sound (fuel : nat) (x : Number) (p q n0 k s n : Z) :
  0 <= p -> 0 < q -> 1 <= k ->
  shortest fuel x p q n0 k = Some (s, n) ->
  rounds_to x s n = true /\ 0 <= s.
Proof.
  intros Hp Hq. revert k. induction fuel as [|fuel IH]; intros k Hk; [discriminate|].
  cbn [shortest]. destruct (candidate x p q n0 k) as [[s' n']|] eqn:E.
  - intros H. injection H as <- <-. exact (candidate_sound x p q n0 k s' n' Hp Hq Hk E).
  - apply IH. lia.
Qed.

(** The digits and exponent chosen for a positive double round to it. *)
Lemma shortest_decimal_spec (z : Z) (e : N) :
  0 < z -> is_double (Finite z e) = true ->
  0 < fst (shortest_decimal z e)
  /\ F_of_dec (fst (shortest_decimal z e))
              (snd (shortest_decimal z e)
               - Z.of_nat (List.length (digits (fst (shortest_decimal z e)))))
     = Finite z e.
Proof.
  intros Hz Hd. unfold shortest_decimal.
  destruct (shortest 17 (Finite z e) z (2 ^ Z.of_N e) (decimal_exponent z (2 ^ Z.of_N e)) 1)
    as [[s n]|] eqn:E; cbn [fst snd].
  - assert (H0 : 0 <= z) by lia. assert (H1 : 1 <= 1) by lia.
    destruct (shortest_sound _ _ _ _ _ _ s n H0 (pow2_pos _ (N2Z.is_nonneg e)) H1 E)
      as [Hr Hs].
    unfold rounds_to in Hr. apply Number_eqb_eq in Hr.
    split; [|exact Hr].
    destruct (Z.eq_dec s 0) as [->|]; [|lia].
    rewrite F_of_dec_zero in Hr. injection Hr as Hr _. lia.
  - pose proof (pow10_pos (Z.of_N e) ltac:(lia)).
    assert (H5 : 0 < 5 ^ Z.of_N e) by (apply Z.pow_pos_nonneg; lia).
    split; [nia|].
    replace (Z.of_nat (List.length (digits (z * 5 ^ Z.of_N e))) - Z.of_N e
             - Z.of_nat (List.length (digits (z * 5 ^ Z.of_N e))))
      with (- Z.of_N e) by lia.
    unfold is_double in Hd. apply Number_eqb_eq in Hd.
    unfold F_of_dec. destruct (N.eq_dec e 0) as [->|He].
    + cbn [Z.of_N Z.opp Z.leb Z.compare] in *. rewrite Z.pow_0_r, !Z.mul_1_r. exact Hd.
    + destruct (Z.leb_spec 0 (- Z.of_N e)); [lia|].
      rewrite Z.opp_involutive.
      replace (10 ^ Z.of_N e) with (2 ^ Z.of_N e * 5 ^ Z.of_N e)
        by (rewrite <- Z.pow_mul_l; reflexivity).
      rewrite F_of_Q_scale; [exact Hd| |exact H5].
      pose proof (Z.pow_gt_1 2 (Z.of_N e) ltac:(lia)) as [Hgt _]. apply Hgt. lia.
Qed.

(** A double and its opposite. *)
Lemma is_double_opp (z : Z) (e : N) :
  z < 0 -> is_double (Finite z e) = true -> is_double (Finite (- z) e) = true.
Proof.
  intros Hz. unfold is_double, F_of_Q. rewrite Z.abs_opp.
  destruct ((2 ^ Z.of_N e =? 1) && (Z.abs z <=? two53)).
  - cbn. intros Hd. apply andb_true_iff in Hd. destruct Hd as [_ Hd].
    rewrite Z.eqb_refl. exact Hd.
  - destruct (Z.eqb_spec z 0) as [|Hnz]; [lia|]. destruct (Z.eqb_spec (- z) 0); [lia|].
    destruct (Z.ltb_spec 0 z); [lia|]. destruct (Z.ltb_spec 0 (- z)); [|lia].
    intros Hd. apply Number_eqb_eq in Hd.
    destruct (F_pos (- z) (2 ^ Z.of_N e)) as [|sg| |z' e']; cbn in Hd.
    + discriminate Hd.
    + discriminate Hd.
    + injection Hd as Hd _. lia.
    + destruct z' as [|pz|pz]; try discriminate Hd; injection Hd as <- <-;
        cbn; rewrite Pos.eqb_refl, N.eqb_refl; reflexivity.
Qed.

Lemma format_decimal_head (s n : Z) :
  0 < s -> exists c t, format_decimal s n = c :: t /\ 48 <= c <= 57.
Proof.
  intros Hs. destruct (digits_spec s ltac:(lia)) as [d [ds [E [Hds _]]]].
  pose proof (Forall_inv Hds) as Hd. unfold digit in Hd.
  unfold format_decimal, decimal. rewrite length_map, E. cbn [map List.length].
  destruct ((Z.of_nat (S (List.length ds)) <=? n) && (n <=? 21)).
  { eexists _, _. split; [reflexivity|]. unfold digit_char. lia. }
  destruct (Z.ltb_spec 0 n) as [Hn|Hn]; cbn [andb].
  - destruct (n <=? 21).
    + assert (Hj : Z.to_nat n = S (Z.to_nat (n - 1))) by lia. rewrite Hj. cbn [firstn app].
      eexists _, _. split; [reflexivity|]. unfold digit_char. lia.
    + destruct ((-6 <? n) && (n <=? 0)).
      { change (lit "0.") with [48; 46]. eexists _, _. split; [reflexivity|]. lia. }
      destruct (Z.of_nat (S (List.length ds)) =? 1); cbn [firstn app];
        eexists _, _; (split; [reflexivity|]); unfold digit_char; lia.
  - destruct ((-6 <? n) && (n <=? 0)).
    { change (lit "0.") with [48; 46]. eexists _, _. split; [reflexivity|]. lia. }
    destruct (Z.of_nat (S (List.length ds)) =? 1); cbn [firstn app];
      eexists _, _; (split; [reflexivity|]); unfold digit_char; lia.
Qed.

Lemma parse_number_digit_head (c : Z) (t : jsstring) :
  48 <= c <= 57 -> JSON.parse_number (c :: t) = JSON.parse_unsigned (c :: t).
Proof. intros Hc. cbn [JSON.parse_number]. destruct (Z.eqb_spec c 45); [lia|reflexivity]. Qed.

Lemma parse_zero (rest : jsstring) :
  delimited rest -> JSON.parse_number (lit "0" ++ rest) = Some (Finite 0 0, rest).
Proof.
  intros Hrest. destruct (delimited_stops rest Hrest) as [Hstop [Hfrac0 Hexp0]].
  change (lit "0" ++ rest) with (48 :: rest). rewrite parse_number_digit_head by lia.
  assert (Hzero : Forall digit [0]) by (constructor; [unfold digit; lia|constructor]).
  exact (parse_unsigned_parts 0 [] [] rest rest 0 Hzero ltac:(constructor)
           ltac:(auto) Hstop ltac:(auto) Hexp0).
Qed.

(** What [Number::toString] writes for a double, [JSON.parse] reads as that
    double (negative zero as zero); the text starts with a minus sign or a
    digit. *)
Lemma parse_number_toString (x : Number) (rest : jsstring) :
  is_double x = true -> delimited rest ->
  x <> NaN -> (forall sg, x <> Infinity sg) ->
  JSON.parse_number (JSNumber.toString x ++ rest) = Some (reread x, rest)
  /\ exists c t, JSNumber.toString x = c :: t /\ (c = 45 \/ 48 <= c <= 57).
Proof.
  intros Hd Hrest Hnan Hinf.
  destruct x as [|sg| |z e]; [contradiction|exfalso; exact (Hinf sg eq_refl)| |].
  - split; [apply parse_zero; exact Hrest|].
    exists 48, []. split; [reflexivity|lia].
  - cbn [JSNumber.toString reread].
    destruct (Z.eqb_spec z 0) as [->|Hz].
    + assert (e = 0%N) as ->.
      { unfold is_double in Hd. rewrite F_of_Q_zero in Hd. cbn in Hd.
        destruct e; [reflexivity|discriminate Hd]. }
      split; [apply parse_zero; exact Hrest|].
      exists 48, []. split; [reflexivity|lia].
    + destruct (Z.ltb_spec z 0) as [Hneg|Hpos].
      * pose proof (is_double_opp z e Hneg Hd) as Hd'.
        rewrite Z.abs_neq by lia.
        destruct (shortest_decimal_spec (- z) e ltac:(lia) Hd') as [Hs Hr].
        destruct (shortest_decimal (- z) e) as [s n]. cbn [fst snd] in Hs, Hr.
        split.
        -- change (lit "-") with [45]. cbn [app JSON.parse_number Z.eqb Pos.eqb].
           rewrite parse_unsigned_format, Hr by assumption.
           destruct z as [|pz|pz]; try lia. reflexivity.
        -- exists 45, (format_decimal s n). split; [reflexivity|left; reflexivity].
      * rewrite Z.abs_eq by lia.
        destruct (shortest_decimal_spec z e ltac:(lia) Hd) as [Hs Hr].
        destruct (shortest_decimal z e) as [s n]. cbn [fst snd] in Hs, Hr.
        destruct (format_decimal_head s n Hs) as [c [t [E Hc]]].
        split.
        -- cbn [app]. rewrite E. cbn [app]. rewrite parse_number_digit_head by exact Hc.
           change (c :: t ++ rest) with ((c :: t) ++ rest).
           rewrite <- E, parse_unsigned_format, Hr by assumption. reflexivity.
        -- exists c, t. split; [cbn [app]; exact E|right; exact Hc].
Qed.

(** ** String tokens *)

Lemma hex_value_digit (d : Z) : 0 <= d < 16 -> JSON.hex_value (JSON.hex_digit d) = Some d.
Proof.
  intros Hd.
  assert (H : d = 0 \/ d = 1 \/ d = 2 \/ d = 3 \/ d = 4 \/ d = 5 \/ d = 6 \/ d = 7
              \/ d = 8 \/ d = 9 \/ d = 10 \/ d = 11 \/ d = 12 \/ d = 13 \/ d = 14
              \/ d = 15) by lia.
  repeat (destruct H as [->|H]; [reflexivity|]). subst d. reflexivity.
Qed.

Lemma parse_chars_unicode_escape (c : Z) (t : jsstring) :
  0 <= c < 65536 ->
  JSON.parse_chars (JSON.unicode_escape c ++ t) = JSON.push c (JSON.parse_chars t).
Proof.
  intros Hc. unfold JSON.unicode_escape.
  cbn [app JSON.parse_chars Z.eqb Pos.eqb].
  rewrite !hex_value_digit by (apply Z.mod_pos_bound; lia).
  replace (c / 4096 mod 16 * 4096 + c / 256 mod 16 * 256 + c / 16 mod 16 * 16 + c mod 16)
    with c; [reflexivity|].
  Z.div_mod_to_equations. lia.
Qed.

Lemma parse_chars_plain (c : Z) (t : jsstring) :
  32 <= c -> c <> 34 -> c <> 92 ->
  JSON.parse_chars (c :: t) = JSON.push c (JSON.parse_chars t).
Proof.
  intros H32 H34 H92. cbn [JSON.parse_chars].
  destruct (Z.eqb_spec c 34); [contradiction|].
  destruct (Z.eqb_spec c 92); [contradiction|].
  destruct (Z.ltb_spec c 32); [lia|reflexivity].
Qed.

Lemma parse_chars_escape_unit (c : Z) (t : jsstring) :
  0 <= c < 65536 ->
  JSON.parse_chars (JSON.escape_unit c ++ t) = JSON.push c (JSON.parse_chars t).
Proof.
  intros Hc. unfold JSON.escape_unit.
  destruct (Z.eqb_spec c 8) as [->|]; [reflexivity|].
  destruct (Z.eqb_spec c 9) as [->|]; [reflexivity|].
  destruct (Z.eqb_spec c 10) as [->|]; [reflexivity|].
  destruct (Z.eqb_spec c 12) as [->|]; [reflexivity|].
  destruct (Z.eqb_spec c 13) as [->|]; [reflexivity|].
  destruct (Z.eqb_spec c 34) as [->|]; [reflexivity|].
  destruct (Z.eqb_spec c 92) as [->|]; [reflexivity|].
  destruct ((c <? 32) || is_high_surrogate c || is_low_surrogate c) eqn:E.
  - apply parse_chars_unicode_escape. exact Hc.
  - apply orb_false_iff in E. destruct E as [E _]. apply orb_false_iff in E.
    destruct E as [E _]. apply Z.ltb_ge in E.
    cbn [app]. apply parse_chars_plain; assumption.
Qed.

Lemma utf16_cons (c : Z) (s : jsstring) :
  utf16 (c :: s) = true -> 0 <= c < 65536 /\ utf16 s = true.
Proof.
  cbn. intros H. apply andb_true_iff in H. destruct H as [H Hs].
  apply andb_true_iff in H. destruct H as [H1 H2].
  apply Z.leb_le in H1. apply Z.ltb_lt in H2. auto.
Qed.

Lemma quote_body_pair (c d : Z) (s : jsstring) :
  JSON.quote_body (c :: d :: s)
  = if is_high_surrogate c && is_low_surrogate d
    then c :: d :: JSON.quote_body s
    else JSON.escape_unit c ++ JSON.quote_body (d :: s).
Proof. reflexivity. Qed.

(** A quoted string is read back as the string. *)
Lemma parse_chars_quote_body (s : jsstring) (rest : jsstring) :
  utf16 s = true ->
  JSON.parse_chars (JSON.quote_body s ++ 34 :: rest) = Some (s, rest).
Proof.
  remember (List.length s) as n eqn:Hn.
  assert (Hle : (List.length s <= n)%nat) by lia. clear Hn.
  revert s Hle. induction n as [|n IH]; intros s Hle Hs.
  - destruct s; [reflexivity|cbn in Hle; lia].
  - destruct s as [|c [|d s]]; [reflexivity| |].
    + destruct (utf16_cons _ _ Hs) as [Hc _].
      cbn [JSON.quote_body]. rewrite parse_chars_escape_unit by exact Hc. reflexivity.
    + destruct (utf16_cons _ _ Hs) as [Hc Hs1].
      destruct (utf16_cons _ _ Hs1) as [Hd Hs2].
      rewrite quote_body_pair.
      destruct (is_high_surrogate c && is_low_surrogate d) eqn:E.
      * apply andb_true_iff in E. destruct E as [E1 E2].
        unfold is_high_surrogate in E1. unfold is_low_surrogate in E2.
        apply andb_true_iff in E1. apply andb_true_iff in E2.
        destruct E1 as [E1 _]. destruct E2 as [E2 _].
        apply Z.leb_le in E1. apply Z.leb_le in E2.
        cbn [app]. rewrite !parse_chars_plain by lia.
        rewrite IH; [reflexivity| |exact Hs2]. cbn in Hle. lia.
      * rewrite <- app_assoc, parse_chars_escape_unit by exact Hc.
        rewrite IH; [reflexivity| |exact Hs1]. cbn in Hle |- *. lia.
Qed.

Lemma parse_string_quote (s : jsstring) (rest : jsstring) :
  utf16 s = true -> JSON.parse_string (JSON.quote s ++ rest) = Some (s, rest).
Proof.
  intros Hs. unfold JSON.quote. cbn [app JSON.parse_string Z.eqb Pos.eqb].
  rewrite <- app_assoc. apply parse_chars_quote_body. exact Hs.
Qed.

(** ** Values: induction, white space, first characters *)

Lemma value_ind_nested (P : value -> Prop) :
  P Null -> (forall b, P (Bool b)) -> (forall n, P (Num n)) -> (forall s, P (Str s)) ->
  (forall items, Forall P items -> P (Arr items)) ->
  (forall props, Forall (fun kv => P (snd kv)) props -> P (Obj props)) ->
  forall v, P v.
Proof.
  intros HNull HBool HNum HStr HArr HObj.
  fix IH 1. intros v. destruct v as [|b|n|s|items|props].
  - exact HNull.
  - apply HBool.
  - apply HNum.
  - apply HStr.
  - apply HArr. induction items as [|x items IHitems]; constructor; [apply IH|exact IHitems].
  - apply HObj. induction props as [|[k x] props IHprops]; constructor;
      [apply IH|exact IHprops].
Qed.

Lemma skip_ws_blank (pre t : jsstring) :
  blank pre -> JSON.skip_ws (pre ++ t) = JSON.skip_ws t.
Proof.
  induction 1 as [|c pre Hc _ IH]; [reflexivity|].
  cbn [app JSON.skip_ws]. rewrite Hc. exact IH.
Qed.

Lemma spaces_blank (indent : jsstring) : spaces indent -> blank indent.
Proof. induction 1 as [|c indent -> _ IH]; constructor; [reflexivity|exact IH]. Qed.

Lemma spaces_gap (indent : jsstring) : spaces indent -> spaces (indent ++ JSON.gap).
Proof.
  intros H. apply Forall_app. split; [exact H|].
  repeat constructor.
Qed.

Lemma skip_ws_start (c : Z) (t : jsstring) :
  starts_value c -> JSON.skip_ws (c :: t) = c :: t.
Proof.
  intros H. cbn [JSON.skip_ws].
  assert (E : JSON.is_ws c = false).
  { unfold JSON.is_ws, starts_value in *.
    destruct (Z.eqb_spec c 9), (Z.eqb_spec c 10), (Z.eqb_spec c 13), (Z.eqb_spec c 32);
      try reflexivity; lia. }
  rewrite E. reflexivity.
Qed.

(** The text of a value starts like a value. *)
Lemma serialize_head (indent : jsstring) (v : value) :
  json v = true ->
  exists c t, JSON.serialize indent v = c :: t /\ starts_value c.
Proof.
  intros Hj. unfold starts_value.
  destruct v as [|[|]|n|s|[|x items]|[|kv props]].
  4: { destruct n as [|sg| |z e];
         try (do 2 eexists; split; [reflexivity|]; cbn; lia).
       destruct (parse_number_toString (Finite z e) [] Hj I ltac:(discriminate)
                   ltac:(discriminate)) as [_ [c [t [E Hc]]]].
       exists c, t. split; [exact E|]. lia. }
  all: do 2 eexists; (split; [reflexivity|]); cbn; lia.
Qed.

(** ** Lengths of joined texts *)

Lemma length_join_part (sep part : jsstring) (parts : list jsstring) :
  In part parts -> (List.length part <= List.length (join sep parts))%nat.
Proof.
  induction parts as [|p parts IH]; [contradiction|].
  intros [->|Hin].
  - destruct parts; cbn [join]; rewrite ?length_app; lia.
  - specialize (IH Hin). destruct parts as [|p' parts]; [contradiction|].
    cbn [join] in *. rewrite !length_app. lia.
Qed.

Lemma length_join_count (sep : jsstring) (parts : list jsstring) :
  sep <> [] -> (List.length parts <= S (List.length (join sep parts)))%nat.
Proof.
  intros Hsep. induction parts as [|p parts IH]; [cbn; lia|].
  destruct parts as [|p' parts]; [cbn; lia|].
  cbn [join List.length] in *. rewrite !length_app.
  destruct sep; [contradiction|]. cbn [List.length]. lia.
Qed.

(** ** Arrays and objects *)

Lemma serialize_then (inner : jsstring) (x : value) (t : jsstring) :
  json x = true -> JSON.skip_ws (JSON.serialize inner x ++ t) = JSON.serialize inner x ++ t.
Proof.
  intros Hj. destruct (serialize_head inner x Hj) as [c [r [E Hc]]].
  rewrite E. cbn [app]. apply skip_ws_start. exact Hc.
Qed.

Lemma blank_break (inner : jsstring) : spaces inner -> blank (JSON.nl ++ inner).
Proof.
  intros H. constructor; [reflexivity|]. apply spaces_blank. exact H.
Qed.

(** The elements of an array are read back one by one. *)
Lemma parse_elements_items
  (pv : jsstring -> option (value * jsstring)) (inner tail rest : jsstring)
  (items : list value) :
  spaces inner -> delimited tail -> JSON.skip_ws tail = 93 :: rest ->
  Forall (fun x => json x = true /\ reads_back pv inner x) items ->
  items <> [] ->
  forall (fuel : nat) (pre : jsstring),
    blank pre -> (List.length items <= fuel)%nat ->
    JSON.parse_elements pv fuel
      (pre ++ join (separator inner) (map (JSON.serialize inner) items) ++ tail)
    = Some (map reparsed items, rest).
Proof.
  intros Hinner Htail Hclose Hitems.
  induction Hitems as [|x items [Hj Hx] _ IH]; [contradiction|]. intros _ fuel pre Hpre Hfuel.
  destruct fuel as [|fuel]; [cbn in Hfuel; lia|].
  cbn [JSON.parse_elements]. rewrite skip_ws_blank by exact Hpre.
  destruct items as [|y items].
  - cbn [map join]. rewrite serialize_then by exact Hj.
    rewrite (Hx tail Htail), Hclose. reflexivity.
  - change (join (separator inner) (map (JSON.serialize inner) (x :: y :: items)))
      with (JSON.serialize inner x ++ separator inner
            ++ join (separator inner) (map (JSON.serialize inner) (y :: items))).
    rewrite <- !app_assoc. rewrite serialize_then by exact Hj.
    unfold separator at 1. change (lit ",") with [44]. rewrite <- !app_assoc.
    cbn [app]. rewrite Hx by (cbn; auto).
    cbn [JSON.skip_ws JSON.is_ws Z.eqb Pos.eqb orb].
    rewrite (app_assoc JSON.nl inner).
    rewrite (IH ltac:(discriminate) fuel (JSON.nl ++ inner) (blank_break inner Hinner));
      [reflexivity|cbn in Hfuel |- *; lia].
Qed.

(** The members of an object are read back one by one, each defined on the
    object built so far. *)
Lemma parse_members_props
  (pv : jsstring -> option (value * jsstring)) (inner tail rest : jsstring)
  (props : list (jsstring * value)) :
  spaces inner -> delimited tail -> JSON.skip_ws tail = 125 :: rest ->
  Forall (fun kv => utf16 (fst kv) = true /\ json (snd kv) = true
                    /\ reads_back pv inner (snd kv)) props ->
  props <> [] ->
  forall (fuel : nat) (pre : jsstring) (acc : list (jsstring * value)),
    blank pre -> (List.length props <= fuel)%nat ->
    JSON.parse_members pv fuel
      (pre ++ join (separator inner) (map (member inner) props) ++ tail) acc
    = Some (defined acc props, rest).
Proof.
  intros Hinner Htail Hclose Hprops.
  induction Hprops as [|[k x] props [Hk [Hj Hx]] _ IH]; [contradiction|].
  intros _ fuel pre acc Hpre Hfuel. cbn [fst snd] in Hk, Hj, Hx.
  destruct fuel as [|fuel]; [cbn in Hfuel; lia|].
  cbn [JSON.parse_members]. rewrite skip_ws_blank by exact Hpre.
  assert (Hmember : forall t,
             JSON.parse_string (JSON.skip_ws (member inner (k, x) ++ t))
             = Some (k, lit ": " ++ JSON.serialize inner x ++ t)).
  { intros t. unfold member. cbn [fst snd]. rewrite <- !app_assoc.
    unfold JSON.quote at 1. cbn [app JSON.skip_ws JSON.is_ws Z.eqb Pos.eqb orb].
    change (34 :: JSON.quote_body k ++ 34 :: lit ": " ++ JSON.serialize inner x ++ t)
      with (JSON.quote k ++ lit ": " ++ JSON.serialize inner x ++ t).
    apply parse_string_quote. exact Hk. }
  destruct props as [|kv props].
  - cbn [map join]. rewrite Hmember. change (lit ": ") with [58; 32].
    cbn [app JSON.skip_ws JSON.is_ws Z.eqb Pos.eqb orb].
    rewrite serialize_then by exact Hj. rewrite (Hx tail Htail), Hclose. reflexivity.
  - change (join (separator inner) (map (member inner) ((k, x) :: kv :: props)))
      with (member inner (k, x) ++ separator inner
            ++ join (separator inner) (map (member inner) (kv :: props))).
    rewrite <- !app_assoc. rewrite Hmember. change (lit ": ") with [58; 32].
    cbn [app JSON.skip_ws JSON.is_ws Z.eqb Pos.eqb orb].
    rewrite serialize_then by exact Hj.
    unfold separator at 1. change (lit ",") with [44]. rewrite <- !app_assoc.
    cbn [app]. rewrite Hx by (cbn; auto).
    cbn [JSON.skip_ws JSON.is_ws Z.eqb Pos.eqb orb].
    rewrite (app_assoc JSON.nl inner).
    rewrite (IH ltac:(discriminate) fuel (JSON.nl ++ inner) _ (blank_break inner Hinner));
      [reflexivity|cbn in Hfuel |- *; lia].
Qed.

(** ** Defining the properties of an object in enumeration order *)

Lemma lookup_absent (k : jsstring) (props : list (jsstring * value)) :
  forallb (fun k' => negb (JSString.eqb k' k)) (map fst props) = true ->
  lookup k props = None.
Proof.
  induction props as [|[k' v] props IH]; [reflexivity|].
  cbn [map fst forallb lookup]. intros H. apply andb_true_iff in H. destruct H as [H1 H2].
  apply negb_true_iff in H1. rewrite H1. apply IH. exact H2.
Qed.

Lemma insert_key_last (k : jsstring) (v : value) (props : list (jsstring * value)) :
  forallb (fun k' => negb (JSON.goes_before k k')) (map fst props) = true ->
  JSON.insert_key k v props = props ++ [(k, v)].
Proof.
  induction props as [|[k' v'] props IH]; [reflexivity|].
  cbn [map fst forallb JSON.insert_key app]. intros H.
  apply andb_true_iff in H. destruct H as [H1 H2].
  apply negb_true_iff in H1. rewrite H1, IH by exact H2. reflexivity.
Qed.

(** The keys of [acc] followed by [keys] are own keys in order. *)
Lemma own_keys_app_cons (acc : list jsstring) (k : jsstring) (keys : list jsstring) :
  own_keys (acc ++ k :: keys) = true ->
  forallb (fun k' => negb (JSString.eqb k' k)) acc = true
  /\ forallb (fun k' => negb (JSON.goes_before k k')) acc = true
  /\ own_keys ((acc ++ [k]) ++ keys) = true.
Proof.
  intros H. split; [|split].
  - induction acc as [|a acc IH]; [reflexivity|].
    cbn [app own_keys forallb] in H |- *. apply andb_true_iff in H. destruct H as [H1 H2].
    rewrite forallb_app in H1. apply andb_true_iff in H1. destruct H1 as [_ H1].
    cbn [forallb] in H1. apply andb_true_iff in H1. destruct H1 as [H1 _].
    apply andb_true_iff in H1. destruct H1 as [H1 _]. rewrite H1. exact (IH H2).
  - induction acc as [|a acc IH]; [reflexivity|].
    cbn [app own_keys forallb] in H |- *. apply andb_true_iff in H. destruct H as [H1 H2].
    rewrite forallb_app in H1. apply andb_true_iff in H1. destruct H1 as [_ H1].
    cbn [forallb] in H1. apply andb_true_iff in H1. destruct H1 as [H1 _].
    apply andb_true_iff in H1. destruct H1 as [_ H1]. rewrite H1. exact (IH H2).
  - rewrite <- app_assoc. exact H.
Qed.

(** Defining the properties of a well-formed object, in order, builds the
    object again. *)
Lemma defined_own_keys (props acc : list (jsstring * value)) :
  own_keys (map fst (acc ++ props)) = true ->
  defined acc props = acc ++ map (fun kv => (fst kv, reparsed (snd kv))) props.
Proof.
  unfold defined. revert acc. induction props as [|[k v] props IH]; intros acc H.
  - cbn. rewrite app_nil_r. reflexivity.
  - cbn [fold_left fst snd map].
    rewrite map_app in H. cbn [map fst] in H.
    destruct (own_keys_app_cons _ _ _ H) as [Hne [Hord Hrest]].
    unfold JSON.define. rewrite lookup_absent by exact Hne.
    rewrite insert_key_last by exact Hord.
    rewrite IH, <- app_assoc; [reflexivity|].
    rewrite !map_app. cbn [map fst]. exact Hrest.
Qed.

(** ** A serialized value is read back *)

Lemma depth_item (x : value) (items : list value) :
  In x items -> (depth x <= fold_right Nat.max 0 (map depth items))%nat.
Proof.
  induction items as [|y items IH]; [contradiction|].
  cbn [map fold_right]. intros [->|Hin]; [lia|]. specialize (IH Hin). lia.
Qed.

Lemma depth_member (kv : jsstring * value) (props : list (jsstring * value)) :
  In kv props ->
  (depth (snd kv) <= fold_right Nat.max 0 (map (fun kv => depth (snd kv)) props))%nat.
Proof.
  induction props as [|y props IH]; [contradiction|].
  cbn [map fold_right]. intros [->|Hin]; [lia|]. specialize (IH Hin). lia.
Qed.

Lemma serialize_array (indent : jsstring) (x : value) (items : list value)
  (rest : jsstring) :
  JSON.serialize indent (Arr (x :: items)) ++ rest
  = 91 :: (JSON.nl ++ indent ++ JSON.gap)
    ++ (join (separator (indent ++ JSON.gap))
             (map (JSON.serialize (indent ++ JSON.gap)) (x :: items))
        ++ (JSON.nl ++ indent ++ lit "]" ++ rest)).
Proof.
  cbn [JSON.serialize]. change (lit "[") with [91]. cbn [app].
  rewrite <- !app_assoc. reflexivity.
Qed.

Lemma serialize_object (indent : jsstring) (kv : jsstring * value)
  (props : list (jsstring * value)) (rest : jsstring) :
  JSON.serialize indent (Obj (kv :: props)) ++ rest
  = 123 :: (JSON.nl ++ indent ++ JSON.gap)
    ++ (join (separator (indent ++ JSON.gap))
             (map (member (indent ++ JSON.gap)) (kv :: props))
        ++ (JSON.nl ++ indent ++ lit "}" ++ rest)).
Proof.
  cbn [JSON.serialize]. change (lit "{") with [123]. cbn [app].
  rewrite <- !app_assoc. reflexivity.
Qed.

Lemma skip_to_close (indent : jsstring) (close : Z) (rest : jsstring) :
  spaces indent -> JSON.is_ws close = false ->
  JSON.skip_ws (JSON.nl ++ indent ++ close :: rest) = close :: rest.
Proof.
  intros Hindent Hclose. cbn [JSON.nl app JSON.skip_ws JSON.is_ws Z.eqb Pos.eqb orb].
  rewrite skip_ws_blank by (apply spaces_blank; exact Hindent).
  cbn [JSON.skip_ws]. rewrite Hclose. reflexivity.
Qed.

Lemma parse_value_array (d : nat) (pre X : jsstring) (vs : list value) (r : jsstring) :
  blank pre ->
  (exists c t, X = c :: t /\ starts_value c) ->
  JSON.parse_elements (JSON.parse_value d) (List.length X) X = Some (vs, r) ->
  JSON.parse_value (S d) (91 :: pre ++ X) = Some (Arr vs, r).
Proof.
  intros Hpre [c [t [-> Hc]]] H. cbn [JSON.parse_value Z.eqb Pos.eqb].
  rewrite skip_ws_blank, skip_ws_start by assumption.
  destruct (Z.eqb_spec c 93); [unfold starts_value in Hc; lia|].
  cbn [List.length] in H. rewrite H. reflexivity.
Qed.

Lemma parse_value_object (d : nat) (pre X : jsstring)
  (ps : list (jsstring * value)) (r : jsstring) :
  blank pre ->
  (exists c t, X = c :: t /\ starts_value c) ->
  JSON.parse_members (JSON.parse_value d) (List.length X) X [] = Some (ps, r) ->
  JSON.parse_value (S d) (123 :: pre ++ X) = Some (Obj ps, r).
Proof.
  intros Hpre [c [t [-> Hc]]] H. cbn [JSON.parse_value Z.eqb Pos.eqb].
  rewrite skip_ws_blank, skip_ws_start by assumption.
  destruct (Z.eqb_spec c 125); [unfold starts_value in Hc; lia|].
  cbn [List.length] in H. rewrite H. reflexivity.
Qed.

(** [JSON.parse] reads the text of a well-formed value back, at any
    indentation and before any delimited rest. *)
Lemma parse_value_serialize (v : value) :
  forall (d : nat) (indent rest : jsstring),
    (depth v < d)%nat -> spaces indent -> delimited rest -> json v = true ->
    JSON.parse_value d (JSON.serialize indent v ++ rest) = Some (reparsed v, rest).
Proof.
  induction v as [|b|n|s|items IH|props IH] using value_ind_nested;
    intros d indent rest Hd Hindent Hrest Hj; (destruct d as [|d]; [lia|]).
  - reflexivity.
  - destruct b; reflexivity.
  - destruct n as [|sg| |z e]; try reflexivity.
    + destruct (parse_number_toString NegZero rest Hj Hrest ltac:(discriminate)
                  ltac:(discriminate)) as [Hp _].
      change (JSON.parse_number (48 :: rest) = Some (Finite 0 0, rest)) in Hp.
      change (JSON.serialize indent (Num NegZero) ++ rest) with (48 :: rest).
      cbn [JSON.parse_value Z.eqb Pos.eqb]. rewrite Hp. reflexivity.
    + destruct (parse_number_toString (Finite z e) rest Hj Hrest ltac:(discriminate)
                  ltac:(discriminate)) as [Hp [c [t [E Hc]]]].
      change (JSON.serialize indent (Num (Finite z e)))
        with (JSNumber.toString (Finite z e)).
      rewrite E in Hp |- *. cbn [app] in Hp |- *. cbn [JSON.parse_value].
      destruct (Z.eqb_spec c 110); [lia|]. destruct (Z.eqb_spec c 116); [lia|].
      destruct (Z.eqb_spec c 102); [lia|]. destruct (Z.eqb_spec c 34); [lia|].
      destruct (Z.eqb_spec c 91); [lia|]. destruct (Z.eqb_spec c 123); [lia|].
      rewrite Hp. reflexivity.
  - cbn [JSON.serialize reparsed]. unfold JSON.quote at 1.
    cbn [app JSON.parse_value Z.eqb Pos.eqb].
    change (34 :: (JSON.quote_body s ++ [34]) ++ rest) with (JSON.quote s ++ rest).
    rewrite parse_string_quote by exact Hj. reflexivity.
  - destruct items as [|x items]; [reflexivity|].
    cbn [json] in Hj. cbn [depth] in Hd.
    rewrite serialize_array.
    set (inner := indent ++ JSON.gap).
    assert (Hinner : spaces inner) by (apply spaces_gap; exact Hindent).
    set (J := join (separator inner) (map (JSON.serialize inner) (x :: items))).
    set (tail := JSON.nl ++ indent ++ lit "]" ++ rest).
    assert (Hx : json x = true) by (cbn in Hj; apply andb_true_iff in Hj; apply Hj).
    apply parse_value_array; [apply blank_break; exact Hinner| |].
    + destruct (serialize_head inner x Hx) as [c [t [E Hc]]].
      subst J. destruct items; cbn [map join]; rewrite E; cbn [app]; eauto.
    + apply (parse_elements_items _ inner tail rest (x :: items) Hinner) with (pre := []).
      * right. reflexivity.
      * apply skip_to_close; [exact Hindent|reflexivity].
      * apply Forall_forall. intros y Hy. split.
        -- apply (proj1 (forallb_forall json (x :: items)) Hj y Hy).
        -- intros rest' Hrest'.
           apply (proj1 (Forall_forall _ _) IH y Hy); try assumption.
           pose proof (depth_item y (x :: items) Hy). lia.
           apply (proj1 (forallb_forall json (x :: items)) Hj y Hy).
      * discriminate.
      * constructor.
      * rewrite length_app.
        pose proof (length_join_count (separator inner)
                      (map (JSON.serialize inner) (x :: items)) ltac:(discriminate)) as Hc.
        rewrite length_map in Hc. fold J in Hc. cbn [List.length] in Hc.
        subst tail. cbn [JSON.nl app List.length]. lia.
  - destruct props as [|[k x] props]; [reflexivity|].
    cbn [json] in Hj. apply andb_true_iff in Hj. destruct Hj as [Hkeys Hj].
    cbn [depth] in Hd.
    rewrite serialize_object.
    set (inner := indent ++ JSON.gap).
    assert (Hinner : spaces inner) by (apply spaces_gap; exact Hindent).
    set (J := join (separator inner) (map (member inner) ((k, x) :: props))).
    set (tail := JSON.nl ++ indent ++ lit "}" ++ rest).
    change (reparsed (Obj ((k, x) :: props)))
      with (Obj ([] ++ map (fun kv => (fst kv, reparsed (snd kv))) ((k, x) :: props))).
    rewrite <- (defined_own_keys ((k, x) :: props) []) by exact Hkeys.
    apply parse_value_object; [apply blank_break; exact Hinner| |].
    + exists 34. subst J. unfold member at 1. cbn [fst]. unfold JSON.quote.
      destruct props; cbn [map join app]; eexists; (split; [reflexivity|]);
        unfold starts_value; lia.
    + apply (parse_members_props _ inner tail rest ((k, x) :: props) Hinner)
        with (pre := []).
      * right. reflexivity.
      * apply skip_to_close; [exact Hindent|reflexivity].
      * apply Forall_forall. intros kv Hkv.
        pose proof (proj1 (forallb_forall _ _) Hj kv Hkv) as Hkvj.
        apply andb_true_iff in Hkvj. destruct Hkvj as [Hu Hjv].
        split; [exact Hu|]. split; [exact Hjv|].
        intros rest' Hrest'.
        apply (proj1 (Forall_forall _ _) IH kv Hkv); try assumption.
        pose proof (depth_member kv ((k, x) :: props) Hkv). lia.
      * discriminate.
      * constructor.
      * rewrite length_app.
        pose proof (length_join_count (separator inner)
                      (map (member inner) ((k, x) :: props)) ltac:(discriminate)) as Hc.
        rewrite length_map in Hc. fold J in Hc. cbn [List.length] in Hc.
        subst tail. cbn [JSON.nl app List.length]. lia.
Qed.

(** The value read back has the same text. *)
Lemma serialize_reparsed (v : value) :
  forall indent, JSON.serialize indent (reparsed v) = JSON.serialize indent v.
Proof.
  induction v as [|b|n|s|items IH|props IH] using value_ind_nested; intros indent;
    try reflexivity.
  - destruct n as [|sg| |z e]; reflexivity.
  - destruct items as [|x items]; [reflexivity|].
    apply (app_inv_tail []). rewrite (serialize_array indent x items []).
    change (reparsed (Arr (x :: items))) with (Arr (reparsed x :: map reparsed items)).
    rewrite serialize_array.
    change (reparsed x :: map reparsed items) with (map reparsed (x :: items)).
    rewrite map_map.
    rewrite (map_ext_in (fun y => JSON.serialize (indent ++ JSON.gap) (reparsed y))
               (JSON.serialize (indent ++ JSON.gap))); [reflexivity|].
    intros y Hy. exact (proj1 (Forall_forall _ _) IH y Hy (indent ++ JSON.gap)).
  - destruct props as [|kv props]; [reflexivity|].
    apply (app_inv_tail []). rewrite (serialize_object indent kv props []).
    change (reparsed (Obj (kv :: props)))
      with (Obj ((fst kv, reparsed (snd kv))
                 :: map (fun p => (fst p, reparsed (snd p))) props)).
    rewrite serialize_object.
    change ((fst kv, reparsed (snd kv)) :: map (fun p => (fst p, reparsed (snd p))) props)
      with (map (fun p => (fst p, reparsed (snd p))) (kv :: props)).
    rewrite map_map.
    rewrite (map_ext_in (fun y => member (indent ++ JSON.gap) (fst y, reparsed (snd y)))
               (member (indent ++ JSON.gap))); [reflexivity|].
    intros y Hy. unfold member. cbn [fst snd].
    rewrite (proj1 (Forall_forall _ _) IH y Hy (indent ++ JSON.gap)). reflexivity.
Qed.

Lemma fold_max_bound (bound : nat) (ns : list nat) :
  Forall (fun n => (n <= bound)%nat) ns -> (fold_right Nat.max 0 ns <= bound)%nat.
Proof. induction 1; cbn [fold_right]; lia. Qed.

(** The text of a value is longer than the value is deep. *)
Lemma depth_lt_length (v : value) :
  forall indent, json v = true ->
    (depth v < List.length (JSON.serialize indent v))%nat.
Proof.
  induction v as [|b|n|s|items IH|props IH] using value_ind_nested; intros indent Hj;
    try (destruct (serialize_head indent _ Hj) as [c [t [E _]]]; rewrite E; cbn; lia).
  - destruct items as [|x items]; [cbn; lia|].
    rewrite <- (app_nil_r (JSON.serialize indent (Arr (x :: items)))), serialize_array.
    cbn [depth List.length]. rewrite !length_app.
    set (inner := indent ++ JSON.gap).
    assert (Hb : (fold_right Nat.max 0 (map depth (x :: items))
                  <= List.length (join (separator inner)
                                       (map (JSON.serialize inner) (x :: items))))%nat).
    { apply fold_max_bound. apply Forall_map. apply Forall_forall. intros y Hy.
      pose proof (proj1 (Forall_forall _ _) IH y Hy inner
                    (proj1 (forallb_forall json _) Hj y Hy)) as Hlt.
      pose proof (length_join_part (separator inner) (JSON.serialize inner y)
                    (map (JSON.serialize inner) (x :: items))
                    (in_map _ _ _ Hy)). lia. }
    cbn [JSON.nl List.length]. lia.
  - destruct props as [|kv props]; [cbn; lia|].
    rewrite <- (app_nil_r (JSON.serialize indent (Obj (kv :: props)))), serialize_object.
    cbn [depth List.length]. rewrite !length_app.
    set (inner := indent ++ JSON.gap).
    cbn [json] in Hj. apply andb_true_iff in Hj. destruct Hj as [_ Hj].
    assert (Hb : (fold_right Nat.max 0 (map (fun kv => depth (snd kv)) (kv :: props))
                  <= List.length (join (separator inner)
                                       (map (member inner) (kv :: props))))%nat).
    { apply fold_max_bound. apply Forall_map. apply Forall_forall. intros y Hy.
      pose proof (proj1 (forallb_forall _ _) Hj y Hy) as Hyj.
      apply andb_true_iff in Hyj. destruct Hyj as [_ Hyj].
      pose proof (proj1 (Forall_forall _ _) IH y Hy inner Hyj) as Hlt.
      pose proof (length_join_part (separator inner) (member inner y)
                    (map (member inner) (kv :: props)) (in_map _ _ _ Hy)) as Hle.
      unfold member at 1 in Hle. rewrite !length_app in Hle. lia. }
    cbn [JSON.nl List.length]. lia.
Qed.

(** [JSON.parse] of [JSON.stringify]. *)
Lemma parse_stringify (v : value) :
  json v = true -> JSON.parse (JSON.stringify v) = Some (reparsed v).
Proof.
  intros Hj. unfold JSON.parse, JSON.stringify.
  rewrite <- (app_nil_r (JSON.serialize [] v)) at 2.
  rewrite serialize_then by exact Hj.
  rewrite parse_value_serialize;
    [reflexivity|apply depth_lt_length; exact Hj|constructor|exact I|exact Hj].
Qed.

(** ** JSON mode *)

(** C8.  For a response that is a well-formed JSON value (16-bit code units
    in strings, doubles for numbers, distinct keys in enumeration order),
    the JSON-mode output parses, and formatting the parsed value in JSON mode
    gives the same output, code unit for code unit.  The parsed value is the
    response with [null] for [NaN] and the infinities and [0] for negative
    zero. *)
Theorem json_output_round_trips (h : Host) (response : value) (out : jsstring) :
  json response = true ->
  formatResults h response (Some (lit "json")) = Ok out ->
  JSON.parse out = Some (reparsed response)
  /\ formatResults h (reparsed response) (Some (lit "json")) = Ok out.
Proof.
  intros Hj Hout.
  change (formatResults h response (Some (lit "json")))
    with (@Ok jsstring (JSON.stringify response)) in Hout.
  injection Hout as <-. split; [apply parse_stringify; exact Hj|].
  change (formatResults h (reparsed response) (Some (lit "json")))
    with (@Ok jsstring (JSON.stringify (reparsed response))).
  unfold JSON.stringify. rewrite serialize_reparsed. reflexivity.
Qed.

Lemma json_output_round_trips_witness :
  let h := Sample.host Sample.en_US_date (Sample.answers Null) in
  let response :=
    Obj [(lit "7", Num (Finite 7 0));
         (lit "results",
          Arr [Sample.item [(lit "title", Str (lit "Tab" ++ [9; 34] ++ lit "quoted" ++ [34; 10]
                                               ++ Glyph.page ++ [0xD83D]));
                            (lit "score", Num (F_of_dec 18234 (-5)));
                            (lit "author", Null)];
               Arr []; Obj []; Bool true;
               Num (F_of_dec (-15) 30); Num NegZero; Num NaN]);
         (lit "costDollars", Obj [(lit "total", Num (F_of_dec 5 (-3)))])] in
  json response = true /\
  formatResults h response (Some (lit "json")) = Ok (JSON.stringify response) /\
  JSON.parse (JSON.stringify response) = Some (reparsed response) /\
  formatResults h (reparsed response) (Some (lit "json")) = Ok (JSON.stringify response).
Proof.
  intros h response.
  assert (Hj : json response = true) by (vm_compute; reflexivity).
  split; [exact Hj|]. split; [reflexivity|].
  exact (json_output_round_trips h response (JSON.stringify response) Hj eq_refl).
Defined.

(** * Further properties of the actions and of the formatter *)

(** ** The credential, the exit code and the streams *)

(** An invocation that commander accepts, without the key: the line of
    [getClient] on standard error, exit code 1, and nothing else. *)
Lemma main_without_key (h : Host) (c : Command) :
  accepted c = true ->
  given (EXA_API_KEY h) = None ->
  main h c = ({| stdout := []; stderr := [Glyph.cross ++ lit " EXA_API_KEY environment variable not set"];
                 calls := [] |}, 1).
Proof.
  intros Hacc Hkey. unfold main, action. rewrite Hacc.
  destruct c as [q o|u o|us o|t o|t o|t o];
    unfold run, search_action, similar_action, contents_action,
      research_action, news_action, papers_action, getClient, bind;
    rewrite Hkey; reflexivity.
Qed.

(** X1.  When the environment variable is not set, or is set to the empty
    string, every command line that commander accepts ends with exit code 1
    after one line on standard error that names the variable; nothing is
    written to standard output and no call is issued. *)
Theorem no_credential_no_call (h : Host) (c : Command) :
  accepted c = true ->
  EXA_API_KEY h = None \/ EXA_API_KEY h = Some [] ->
  main h c
  = ({| stdout := [];
        stderr := [Glyph.cross ++ lit " EXA_API_KEY environment variable not set"];
        calls := [] |}, 1).
Proof.
  intros Hacc H. apply main_without_key; [exact Hacc|]. destruct H as [-> | ->]; reflexivity.
Qed.

Lemma no_credential_no_call_witness :
  main {| EXA_API_KEY := Some []; now := 1700000000000; LocalTZA := fun _ _ => 0;
          Date_parse := Sample.iso_parse; toLocaleDateString := Sample.en_US_date;
          RangeError_message := lit "Invalid time value";
          TypeError_message := lit "not an object";
          commander_error := fun _ => lit "error: unknown option";
          exa := Sample.answers (Sample.response []) |}
       (News (lit "rust") SearchOptions.none)
  = ({| stdout := [];
        stderr := [Glyph.cross ++ lit " EXA_API_KEY environment variable not set"];
        calls := [] |}, 1).
Proof.
  apply no_credential_no_call; [reflexivity|]. right. reflexivity.
Defined.

(** X2.  On every host and for every command line, an invocation issues at
    most one call of the client and ends in one of two ways: exit code 0,
    nothing on standard error and the progress line of the subcommand
    followed by one output; or exit code 1 and exactly one line on standard
    error, with standard output empty or holding the progress line alone.
    A command line that commander rejects ends the second way, with nothing
    on standard output and no call. *)
Theorem one_call_and_exit_code (h : Host) (c : Command) :
  (List.length (calls (fst (main h c))) <= 1)%nat
  /\ ((snd (main h c) = 0 /\ stderr (fst (main h c)) = []
       /\ exists out, stdout (fst (main h c)) = banner c ++ [out])
      \/ (snd (main h c) = 1
          /\ (exists line, stderr (fst (main h c)) = [line])
          /\ (stdout (fst (main h c)) = [] \/ stdout (fst (main h c)) = banner c)))
  /\ (accepted c = false ->
      snd (main h c) = 1 /\ stdout (fst (main h c)) = []
      /\ calls (fst (main h c)) = []).
Proof.
  destruct (accepted c) eqn:Hacc.
  - assert (H : (List.length (calls (fst (main h c))) <= 1)%nat
               /\ ((snd (main h c) = 0 /\ stderr (fst (main h c)) = []
                    /\ exists out, stdout (fst (main h c)) = banner c ++ [out])
                   \/ (snd (main h c) = 1
                       /\ (exists line, stderr (fst (main h c)) = [line])
                       /\ (stdout (fst (main h c)) = []
                           \/ stdout (fst (main h c)) = banner c)))).
    { destruct (given (EXA_API_KEY h)) as [key|] eqn:Hkey.
      - rewrite (main_outcome h c key Hkey Hacc). unfold outcome, failed.
        destruct (request h c) as [call|e]; [|cbn; split; [lia|right; eauto 6]].
        destruct (exa h call); [|cbn; split; [lia|right; eauto 6]].
        destruct (formatResults _ _ _); cbn; (split; [lia|]); [left|right]; eauto 6.
      - rewrite (main_without_key h c Hacc Hkey). cbn. split; [lia|right; eauto 6]. }
    destruct H as [H1 H2]. split; [exact H1|]. split; [exact H2|discriminate].
  - rewrite (main_rejected h c Hacc). cbn. split; [lia|]. split; [right; eauto 6|auto].
Qed.

(** With the key set, the calls issued for a command line that commander
    accepts are the one call of the request, or none when the request could
    not be built. *)
Lemma main_calls (h : Host) (c : Command) (key : jsstring) :
  given (EXA_API_KEY h) = Some key ->
  accepted c = true ->
  calls (fst (main h c)) = match request h c with Ok call => [call] | Throw _ => [] end.
Proof. intros Hkey Hacc. rewrite (main_outcome h c key Hkey Hacc). apply outcome_calls. Qed.

Lemma main_calls_in (h : Host) (c : Command) (call : ExaCall) :
  In call (calls (fst (main h c))) -> accepted c = true /\ request h c = Ok call.
Proof.
  intros Hin. destruct (accepted c) eqn:Hacc;
    [|rewrite (main_rejected h c Hacc) in Hin; destruct Hin].
  destruct (given (EXA_API_KEY h)) as [key|] eqn:Hkey;
    [|rewrite (main_without_key h c Hacc Hkey) in Hin; destruct Hin].
  rewrite (main_calls h c key Hkey Hacc) in Hin.
  destruct (request h c); [|destruct Hin].
  destruct Hin as [<-|[]]. split; reflexivity.
Qed.

(** ** The requests of search and similar *)

(** X3.  A search with no days option issues one call.  It is [search]
    when neither the contents flag nor the summary flag is given and
    [searchAndContents] otherwise, with [text: true] and [summary: true]
    exactly for the flags given.  [numResults] is [parseInt] of the num
    string (10 by default), the type string is passed on as it is ("auto"
    by default), a domain that is not empty becomes a one-element
    [includeDomains], and an empty domain sets no filter. *)
Theorem search_request_shape
  (h : Host) (query : jsstring) (o : SearchOptions.t) (key : jsstring) :
  given (EXA_API_KEY h) = Some key ->
  days o = None \/ days o = Some [] ->
  calls (fst (main h (Search query o))) =
  [(if contents o || summary o then searchAndContents else search) query
     {| Request.numResults := Some (parseInt (or_default (num o) (lit "10")));
        Request.type := Some (or_default (type o) (lit "auto"));
        Request.startPublishedDate := None;
        Request.includeDomains :=
          match domain o with
          | Some (c :: d) => Some [c :: d]
          | _ => None
          end;
        Request.text := if contents o then Some true else None;
        Request.summary := if summary o then Some true else None |}].
Proof.
  intros Hkey Hdays. rewrite (main_calls h (Search query o) key Hkey eq_refl).
  destruct o as [n ty ct sm d dm f]. cbn [days] in Hdays.
  assert (Hg : given d = None) by (destruct Hdays as [-> | ->]; reflexivity).
  unfold request, since. cbn [declared days num type contents summary domain].
  rewrite Hg. cbn [bindR]. rewrite !or_default_default.
  destruct dm as [[|c dm]|]; destruct (ct || sm); reflexivity.
Qed.

Lemma search_request_shape_witness :
  let h := Sample.host Sample.en_US_date (Sample.answers (Sample.response [])) in
  let o := {| num := Some (lit "3"); type := Some (lit "fuzzy"); contents := false;
              summary := true; days := None; domain := Some [];
              format := None |} in
  calls (fst (main h (Search (lit "agents") o))) =
  [searchAndContents (lit "agents")
     {| Request.numResults := Some (parseInt (lit "3"));
        Request.type := Some (lit "fuzzy");
        Request.startPublishedDate := None;
        Request.includeDomains := None;
        Request.text := None;
        Request.summary := Some true |}].
Proof.
  intros h o.
  exact (search_request_shape h (lit "agents") o (lit "secret") eq_refl
           (or_introl eq_refl)).
Defined.

(** X4.  A similar invocation that commander accepts (similar declares the
    num, contents and format options) issues one call and never fails
    before it: [findSimilarAndContents] with [text: true] when the contents
    flag is given, [findSimilar] otherwise, on the URL, with [numResults]
    the [parseInt] of the num string (10 by default) and no other option. *)
Theorem similar_request_shape
  (h : Host) (url : jsstring) (o : SearchOptions.t) (key : jsstring) :
  given (EXA_API_KEY h) = Some key ->
  accepted (Similar url o) = true ->
  calls (fst (main h (Similar url o))) =
  [if contents o
   then findSimilarAndContents url
          {| Request.numResults := Some (parseInt (or_default (num o) (lit "10")));
             Request.type := None; Request.startPublishedDate := None;
             Request.includeDomains := None;
             Request.text := Some true; Request.summary := None |}
   else findSimilar url
          {| Request.numResults := Some (parseInt (or_default (num o) (lit "10")));
             Request.type := None; Request.startPublishedDate := None;
             Request.includeDomains := None;
             Request.text := None; Request.summary := None |}].
Proof.
  intros Hkey Hacc. rewrite (main_calls h _ key Hkey Hacc).
  destruct o as [n ty ct sm d dm f].
  unfold request. cbn [declared days num type contents summary domain].
  rewrite !or_default_default. destruct ct; reflexivity.
Qed.

Lemma similar_request_shape_witness :
  let h := Sample.host Sample.en_US_date (Sample.answers (Sample.response [])) in
  let o := {| num := Some (lit "many"); type := None; contents := true;
              summary := false; days := None; domain := None; format := None |} in
  calls (fst (main h (Similar (lit "https://example.com") o))) =
  [findSimilarAndContents (lit "https://example.com")
     {| Request.numResults := Some NaN;
        Request.type := None; Request.startPublishedDate := None;
        Request.includeDomains := None;
        Request.text := Some true; Request.summary := None |}].
Proof.
  intros h o.
  exact (similar_request_shape h (lit "https://example.com") o (lit "secret")
           eq_refl eq_refl).
Defined.

(** ** Research and news are searches with fixed options *)

(** Two command lines with the same request and the same format have the
    same calls, standard error and exit code, and the same standard output
    behind their progress lines. *)
Lemma outcome_same (h : Host) (c c' : Command) :
  request h c = request h c' ->
  format (declared c) = format (declared c') ->
  calls (fst (outcome h c)) = calls (fst (outcome h c'))
  /\ stderr (fst (outcome h c)) = stderr (fst (outcome h c'))
  /\ snd (outcome h c) = snd (outcome h c')
  /\ stdout (fst (outcome h c)) = banner c ++ skipn (List.length (banner c')) (stdout (fst (outcome h c'))).
Proof.
  intros Hr Hf. unfold outcome, failed. rewrite Hr, Hf.
  destruct (request h c') as [call|e]; cbn [fst snd calls stderr stdout].
  2:{ rewrite skipn_all, app_nil_r. auto. }
  destruct (exa h call); cbn [fst snd calls stderr stdout].
  2:{ rewrite skipn_all, app_nil_r. auto. }
  destruct (formatResults _ _ _); cbn [fst snd calls stderr stdout].
  - rewrite skipn_app, skipn_all, Nat.sub_diag. auto.
  - rewrite skipn_all, app_nil_r. auto.
Qed.

Lemma request_research (h : Host) (topic : jsstring) (o : SearchOptions.t) :
  request h (Research topic o) = request h (Search topic (research_as_search o)).
Proof.
  destruct o as [[[|c r]|] ty ct sm d dm f]; unfold request, research_as_search;
    cbn -[parseInt since]; destruct (since h d); reflexivity.
Qed.

Lemma request_news (h : Host) (topic : jsstring) (o : SearchOptions.t) :
  request h (News topic o) = request h (Search topic (news_as_search o)).
Proof.
  destruct o as [n ty ct sm [[|c r]|] dm f]; unfold request, news_as_search, since;
    cbn -[parseInt toISOString days_before_now];
    match goal with |- context [toISOString ?x] => destruct (toISOString x) end;
    reflexivity.
Qed.

(** X5.  A research invocation that commander accepts (research declares
    the num, days and format options) does what a search does with type
    neural, the contents and summary flags, the same days, no domain, and 5
    results where no number is given: the same call (method, query and
    option values), the same standard error and the same exit code on every
    host.  Its standard output is that of the search behind the progress
    line, which is printed once the key is found. *)
Theorem research_is_a_search (h : Host) (topic : jsstring) (o : SearchOptions.t) :
  accepted (Research topic o) = true ->
  calls (fst (main h (Research topic o)))
  = calls (fst (main h (Search topic (research_as_search o))))
  /\ stderr (fst (main h (Research topic o)))
     = stderr (fst (main h (Search topic (research_as_search o))))
  /\ snd (main h (Research topic o)) = snd (main h (Search topic (research_as_search o)))
  /\ stdout (fst (main h (Research topic o)))
     = match given (EXA_API_KEY h) with
       | Some _ =>
           (Glyph.microscope ++ lit " Researching: " ++ topic ++ lit "..." ++ newline)
           :: stdout (fst (main h (Search topic (research_as_search o))))
       | None => []
       end.
Proof.
  intros Hacc.
  destruct (given (EXA_API_KEY h)) as [key|] eqn:Hkey.
  - rewrite (main_outcome h _ key Hkey Hacc),
      (main_outcome h (Search topic (research_as_search o)) key Hkey eq_refl).
    destruct (outcome_same h (Research topic o) (Search topic (research_as_search o))
                (request_research h topic o) eq_refl) as [Hc [He [Hx Ho]]].
    repeat split; assumption.
  - rewrite (main_without_key h _ Hacc Hkey),
      (main_without_key h (Search topic (research_as_search o)) eq_refl Hkey).
    repeat split.
Qed.

Lemma research_is_a_search_witness :
  let h := Sample.host Sample.en_US_date (Sample.answers (Sample.response [])) in
  let o := {| num := None; type := None; contents := false; summary := false;
              days := Some (lit "14"); domain := None; format := Some (lit "json") |} in
  calls (fst (main h (Research (lit "solvers") o)))
  = calls (fst (main h (Search (lit "solvers") (research_as_search o)))).
Proof.
  intros h o. exact (proj1 (research_is_a_search h (lit "solvers") o eq_refl)).
Defined.

(** X6.  A news invocation that commander accepts (news declares the num,
    days and format options) does what a search does with type neural, the
    summary flag, no contents flag, no domain, and 7 days where no number of
    days is given: the same call (method, query and option values), the same
    standard error and the same exit code on every host.  Its standard
    output is that of the search behind the progress line. *)
Theorem news_is_a_search (h : Host) (topic : jsstring) (o : SearchOptions.t) :
  accepted (News topic o) = true ->
  calls (fst (main h (News topic o)))
  = calls (fst (main h (Search topic (news_as_search o))))
  /\ stderr (fst (main h (News topic o)))
     = stderr (fst (main h (Search topic (news_as_search o))))
  /\ snd (main h (News topic o)) = snd (main h (Search topic (news_as_search o)))
  /\ stdout (fst (main h (News topic o)))
     = match given (EXA_API_KEY h) with
       | Some _ =>
           (Glyph.newspaper ++ lit " Searching news: " ++ topic ++ lit "..." ++ newline)
           :: stdout (fst (main h (Search topic (news_as_search o))))
       | None => []
       end.
Proof.
  intros Hacc.
  destruct (given (EXA_API_KEY h)) as [key|] eqn:Hkey.
  - rewrite (main_outcome h _ key Hkey Hacc),
      (main_outcome h (Search topic (news_as_search o)) key Hkey eq_refl).
    destruct (outcome_same h (News topic o) (Search topic (news_as_search o))
                (request_news h topic o) eq_refl) as [Hc [He [Hx Ho]]].
    repeat split; assumption.
  - rewrite (main_without_key h _ Hacc Hkey),
      (main_without_key h (Search topic (news_as_search o)) eq_refl Hkey).
    repeat split.
Qed.

Lemma news_is_a_search_witness :
  let h := Sample.host Sample.en_US_date (Sample.answers (Sample.response [])) in
  let o := {| num := Some (lit "3"); type := None; contents := false; summary := false;
              days := None; domain := None; format := None |} in
  calls (fst (main h (News (lit "rust") o)))
  = calls (fst (main h (Search (lit "rust") (news_as_search o)))).
Proof.
  intros h o. exact (proj1 (news_is_a_search h (lit "rust") o eq_refl)).
Defined.

(** ** The days option *)

(** The date a days string gives: now, moved back by that many days on the
    local calendar. *)
Lemma since_spec (h : Host) (d : jsstring) (n : Z) :
  d <> [] ->
  parseInt d = Finite n 0 ->
  Z.abs n <= 2 ^ 52 ->
  Z.abs (UTC (LocalTZA h) (LocalTime (LocalTZA h) (now h) - n * msPerDay))
  <= 8640000000000000 ->
  given (Some d) = Some d
  /\ toISOString (days_before_now h d)
     = Ok (iso_string (UTC (LocalTZA h) (LocalTime (LocalTZA h) (now h) - n * msPerDay))).
Proof.
  intros Hd Hparse Hn Hrange. split; [destruct d; [contradiction|reflexivity]|].
  rewrite (days_before_now_spec h d n Hparse Hn).
  unfold TimeClip.
  destruct (Z.ltb_spec 8640000000000000
              (Z.abs (UTC (LocalTZA h) (LocalTime (LocalTZA h) (now h) - n * msPerDay))));
    [lia|].
  reflexivity.
Qed.

(** X7.  A days string that [parseInt] reads as the integer [n] makes a
    search, research or news invocation that commander accepts issue one
    call whose [startPublishedDate] is the ISO string of now moved back [n]
    days on the local calendar (the local time of day is kept), as long as
    that instant is within the range of time values.  In a time zone with a
    fixed offset that instant is now minus [n] times 86400000 ms.  A
    negative [n] gives a date in the future. *)
Theorem days_flag_start_date
  (h : Host) (topic : jsstring) (o : SearchOptions.t) (key d : jsstring) (n : Z) :
  given (EXA_API_KEY h) = Some key ->
  days o = Some d ->
  d <> [] ->
  parseInt d = Finite n 0 ->
  Z.abs n <= 2 ^ 52 ->
  Z.abs (UTC (LocalTZA h) (LocalTime (LocalTZA h) (now h) - n * msPerDay))
  <= 8640000000000000 ->
  (forall c, In c [Search topic o; Research topic o; News topic o] ->
     accepted c = true ->
     exists call,
       calls (fst (main h c)) = [call]
       /\ Request.startPublishedDate (options_of call)
          = Some (iso_string
                    (UTC (LocalTZA h) (LocalTime (LocalTZA h) (now h) - n * msPerDay))))
  /\ (forall offset,
        (forall t utc, LocalTZA h t utc = offset) ->
        UTC (LocalTZA h) (LocalTime (LocalTZA h) (now h) - n * msPerDay)
        = now h - n * msPerDay).
Proof.
  intros Hkey Hdays Hd Hparse Hn Hrange. split.
  - intros c Hc Hacc.
    destruct (since_spec h d n Hd Hparse Hn Hrange) as [Hg Hiso].
    rewrite (main_calls h c key Hkey Hacc).
    destruct o as [nm ty ct sm dy dm f]. cbn [days] in Hdays. subst dy.
    destruct Hc as [<-|[<-|[<-|[]]]]; unfold request, since;
      cbn [declared days num type contents summary domain default].
    + rewrite Hg, Hiso. cbn [bindR].
      destruct (ct || sm); eexists; split; reflexivity.
    + rewrite Hg, Hiso. cbn [bindR]. eexists; split; reflexivity.
    + assert (Hor : or_default (Some d) (lit "7") = d)
        by (destruct d; [contradiction|reflexivity]).
      rewrite Hor, Hiso. cbn [bindR]. eexists; split; reflexivity.
  - intros offset Hzone. unfold UTC, LocalTime. rewrite !Hzone. lia.
Qed.

Lemma days_flag_start_date_witness :
  let h := Sample.host Sample.en_US_date (Sample.answers (Sample.response [])) in
  let o := {| num := None; type := None; contents := false; summary := false;
              days := Some (lit "30"); domain := None; format := None |} in
  exists call,
    calls (fst (main h (Search (lit "q") o))) = [call]
    /\ Request.startPublishedDate (options_of call)
       = Some (lit "2023-10-15T22:13:20.000Z").
Proof.
  intros h o.
  exact (proj1 (days_flag_start_date h (lit "q") o (lit "secret") (lit "30") 30
                  eq_refl eq_refl ltac:(discriminate) eq_refl
                  ltac:(vm_compute; discriminate) ltac:(vm_compute; discriminate))
           (Search (lit "q") o) (or_introl eq_refl) eq_refl).
Defined.

(** X8.  Which calls carry a date filter is fixed by the subcommand and
    the days option: every call of news has a [startPublishedDate], a call
    of search or research has one exactly when a days string that is not
    empty is given, and a call of similar, contents or papers never has
    one. *)
Theorem date_filter_by_subcommand (h : Host) (c : Command) (call : ExaCall) :
  In call (calls (fst (main h c))) ->
  match Request.startPublishedDate (options_of call) with
  | Some _ => true
  | None => false
  end = filters_by_date c.
Proof.
  intros Hin0. destruct (main_calls_in h c call Hin0) as [_ Hreq].
  assert (Hin : In call match request h c with Ok x => [x] | Throw _ => [] end)
    by (rewrite Hreq; left; reflexivity).
  clear Hin0 Hreq.
  destruct c as [q o|u o|us o|t o|t o|t o]; unfold request, since in Hin;
    cbn [declared num type contents summary days domain filters_by_date] in Hin |- *.
  - destruct (given (days o)); cbn [bindR] in Hin.
    + destruct (toISOString _) in Hin; cbn [bindR] in Hin; [|destruct Hin].
      destruct Hin as [<-|[]]. destruct (_ || _); reflexivity.
    + destruct Hin as [<-|[]]. destruct (_ || _); reflexivity.
  - destruct Hin as [<-|[]]. destruct (contents _); reflexivity.
  - destruct Hin as [<-|[]]. reflexivity.
  - destruct (given (days o)); cbn [bindR] in Hin.
    + destruct (toISOString _) in Hin; cbn [bindR] in Hin; [|destruct Hin].
      destruct Hin as [<-|[]]. reflexivity.
    + destruct Hin as [<-|[]]. reflexivity.
  - destruct (toISOString _) in Hin; cbn [bindR] in Hin; [|destruct Hin].
    destruct Hin as [<-|[]]. reflexivity.
  - destruct Hin as [<-|[]]. reflexivity.
Qed.

Lemma date_filter_by_subcommand_witness :
  let h := Sample.host Sample.en_US_date (Sample.answers (Sample.response [])) in
  let c := News (lit "rust") SearchOptions.none in
  exists call,
    calls (fst (main h c)) = [call]
    /\ match Request.startPublishedDate (options_of call) with
       | Some _ => true
       | None => false
       end = true.
Proof.
  intros h c. eexists. split; [reflexivity|].
  exact (date_filter_by_subcommand h c _ (or_introl eq_refl)).
Defined.

(** ** Option strings *)

(** Two command lines with the same request, progress line and formatting
    have the same outcome. *)
Lemma outcome_ext (h : Host) (c c' : Command) :
  request h c = request h c' ->
  banner c = banner c' ->
  (forall r, formatResults h r (format (declared c))
             = formatResults h r (format (declared c'))) ->
  outcome h c = outcome h c'.
Proof.
  intros Hr Hb Hf. unfold outcome, failed. rewrite Hr, Hb.
  destruct (request h c'); [|reflexivity].
  destruct (exa h a); [|reflexivity].
  rewrite Hf. reflexivity.
Qed.

(** X9.  On a command line that commander accepts, an option given as the
    empty string is an option not given: for the num, type, days, domain
    and format options that the subcommand declares, on every host, the
    command line without them is accepted too and the invocation is the
    same.  So an empty num gives the default count, an empty days gives no
    date filter for search and research and 7 days for news, and an empty
    format gives the text report. *)
Theorem empty_option_is_no_option (h : Host) (c : Command) :
  accepted c = true ->
  accepted (with_options c (given_only (given_options c))) = true
  /\ main h (with_options c (given_only (given_options c))) = main h c.
Proof.
  intros Hacc.
  assert (Hacc' : accepted (with_options c (given_only (given_options c))) = true).
  { destruct c as [q o|u o|[|u us] o|t o|t o|t o];
      destruct o as [[[|? ?]|] [[|? ?]|] [|] [|] [[|? ?]|] [[|? ?]|] f];
      first [reflexivity | discriminate Hacc]. }
  split; [exact Hacc'|].
  destruct (given (EXA_API_KEY h)) as [key|] eqn:Hkey.
  - rewrite (main_outcome h _ key Hkey Hacc'), (main_outcome h _ key Hkey Hacc).
    apply outcome_ext.
    + destruct c as [q o|u o|us o|t o|t o|t o];
        destruct o as [[[|? ?]|] [[|? ?]|] ct sm [[|? ?]|] [[|? ?]|] f];
        reflexivity.
    + destruct c; reflexivity.
    + intros r.
      destruct c as [q o|u o|us o|t o|t o|t o];
        destruct o as [n ty ct sm d dm [[|? ?]|]]; reflexivity.
  - rewrite (main_without_key h _ Hacc' Hkey), (main_without_key h _ Hacc Hkey).
    reflexivity.
Qed.

Lemma empty_option_is_no_option_witness :
  let h := Sample.host Sample.en_US_date (Sample.answers (Sample.response [])) in
  let o := {| num := Some []; type := None; contents := false; summary := false;
              days := Some []; domain := None; format := Some [] |} in
  main h (News (lit "rust") SearchOptions.none) = main h (News (lit "rust") o).
Proof.
  intros h o. exact (proj2 (empty_option_is_no_option h (News (lit "rust") o) eq_refl)).
Defined.

Lemma parseInt_prefix_decimal (n ch : Z) (rest : jsstring) :
  0 < n -> ~ 48 <= ch <= 57 ->
  parseInt (decimal n ++ ch :: rest) = F_of_Z n.
Proof.
  intros Hn Hch. unfold decimal.
  destruct (digits_spec n ltac:(lia)) as [d [ds [E [Hds [Hv Hpos]]]]].
  rewrite E. pose proof (Forall_inv Hds) as Hd.
  specialize (Hpos Hn).
  assert (Hstop : digit_value 10 ch = None).
  { unfold digit_value.
    destruct (Z.leb_spec 48 ch), (Z.leb_spec ch 57); cbn [andb]; try lia;
      destruct (Z.leb_spec 97 ch), (Z.leb_spec ch 122); cbn [andb];
      destruct (Z.leb_spec 65 ch), (Z.leb_spec ch 90); cbn [andb];
      try reflexivity;
      match goal with |- (if ?b then _ else _) = _ => destruct (Z.ltb_spec0 (ch - 87) 10); try lia; try reflexivity | _ => idtac end;
      match goal with |- (if ?b then _ else _) = _ => destruct (Z.ltb_spec0 (ch - 55) 10); try lia; try reflexivity | _ => idtac end. }
  assert (Hscan : parse_digits 10 (map digit_char (d :: ds) ++ ch :: rest) 0 false
                  = (n, true)).
  { rewrite parse_digits_decimal by exact Hds.
    cbn [parse_digits]. rewrite Hstop. fold (JSON.digits_value (d :: ds)).
    rewrite Hv. reflexivity. }
  assert (Hhead : parseInt (map digit_char (d :: ds) ++ ch :: rest)
                  = match parse_digits 10 (map digit_char (d :: ds) ++ ch :: rest) 0 false with
                    | (_, false) => NaN
                    | (mathInt, true) =>
                        if mathInt =? 0 then Finite 0 0 else F_of_Z mathInt
                    end).
  { unfold parseInt. cbn [map app]. each_digit Hd; try lia;
      cbn [trim_start is_whitespace digit_char Z.add Pos.add Pos.succ Z.eqb Pos.eqb
           Z.leb Z.compare Pos.compare Pos.compare_cont orb andb];
      destruct ds; reflexivity. }
  rewrite Hhead, Hscan. destruct (Z.eqb_spec n 0); [lia|reflexivity].
Qed.

(** X10.  A num string that starts with the decimal numeral of a positive
    integer [n] up to [2^53], followed by a character that is no digit and
    anything after it, is read as [n]: every call issued carries
    [numResults] equal to [n] (contents has no [numResults]). *)
Theorem num_reads_leading_numeral
  (h : Host) (c : Command) (n ch : Z) (rest : jsstring) :
  0 < n <= 2 ^ 53 ->
  ~ 48 <= ch <= 57 ->
  num (given_options c) = Some (decimal n ++ ch :: rest) ->
  forall call, In call (calls (fst (main h c))) ->
    Request.numResults (options_of call)
    = match c with
      | Contents _ _ => None
      | _ => Some (Finite n 0)
      end.
Proof.
  intros Hn Hch Hnum call Hin0. destruct (main_calls_in h c call Hin0) as [_ Hreq].
  assert (Hin : In call match request h c with Ok x => [x] | Throw _ => [] end)
    by (rewrite Hreq; left; reflexivity).
  clear Hin0 Hreq.
  assert (Hor : forall dflt, or_default (default (Some (decimal n ++ ch :: rest)) dflt) dflt
                             = decimal n ++ ch :: rest).
  { intros dflt. cbn [default]. destruct (decimal n); reflexivity. }
  assert (Hp : parseInt (decimal n ++ ch :: rest) = Finite n 0).
  { rewrite parseInt_prefix_decimal by lia. apply F_of_Z_small.
    change two53 with (2 ^ 53). lia. }
  destruct c as [q o|u o|us o|t o|t o|t o]; cbn [given_options] in Hnum;
    unfold request in Hin;
    cbn [declared num type contents summary days domain] in Hin;
    rewrite ?Hnum, ?Hor, ?Hp in Hin.
  - destruct (since h _) in Hin; cbn [bindR] in Hin; [|destruct Hin].
    destruct Hin as [<-|[]]. destruct (_ || _); reflexivity.
  - destruct Hin as [<-|[]]. destruct (contents _); reflexivity.
  - destruct Hin as [<-|[]]. reflexivity.
  - destruct (since h _) in Hin; cbn [bindR] in Hin; [|destruct Hin].
    destruct Hin as [<-|[]]. reflexivity.
  - destruct (toISOString _) in Hin; cbn [bindR] in Hin; [|destruct Hin].
    destruct Hin as [<-|[]]. reflexivity.
  - destruct Hin as [<-|[]]. reflexivity.
Qed.

Lemma num_reads_leading_numeral_witness :
  let h := Sample.host Sample.en_US_date (Sample.answers (Sample.response [])) in
  let c := Papers (lit "solvers")
             {| num := Some (lit "25 or so"); type := None; contents := false;
                summary := false; days := None; domain := None; format := None |} in
  exists call,
    calls (fst (main h c)) = [call]
    /\ Request.numResults (options_of call) = Some (Finite 25 0).
Proof.
  intros h c. eexists. split; [reflexivity|].
  exact (num_reads_leading_numeral h c 25 32 (lit "or so")
           ltac:(vm_compute; split; [reflexivity|discriminate]) ltac:(lia) eq_refl
           _ (or_introl eq_refl)).
Defined.

(** ** When the formatter fails *)

(** The block of an item that renders, and the [TypeError] of one that
    does not. *)
Lemma format_result_renders (h : Host) (item : value) :
  if renders item then exists block, format_result h item = Ok block
  else format_result h item = Throw TypeError.
Proof.
  destruct item as [|b|n|s|items|props]; cbn [renders].
  - reflexivity.
  - eexists; reflexivity.
  - eexists; reflexivity.
  - unfold format_result, get.
    change (JSString.eqb (lit "title") (lit "length")) with false.
    change (JSString.eqb (lit "url") (lit "length")) with false.
    change (JSString.eqb (lit "publishedDate") (lit "length")) with false.
    change (JSString.eqb (lit "author") (lit "length")) with false.
    change (JSString.eqb (lit "summary") (lit "length")) with false.
    change (JSString.eqb (lit "text") (lit "length")) with false.
    eexists; reflexivity.
  - unfold format_result, get.
    change (JSString.eqb (lit "title") (lit "length")) with false.
    change (JSString.eqb (lit "url") (lit "length")) with false.
    change (JSString.eqb (lit "publishedDate") (lit "length")) with false.
    change (JSString.eqb (lit "author") (lit "length")) with false.
    change (JSString.eqb (lit "summary") (lit "length")) with false.
    change (JSString.eqb (lit "text") (lit "length")) with false.
    eexists; reflexivity.
  - rewrite format_result_object.
    destruct (lookup (lit "text") props) as [[|b|n|s|items|ps]|];
      cbn [truthy negb bindR]; try (eexists; reflexivity); try reflexivity.
    + destruct b; cbn [negb bindR]; [reflexivity|eexists; reflexivity].
    + destruct n as [| | |z e]; cbn [negb bindR]; try (eexists; reflexivity);
        try reflexivity.
      destruct (z =? 0); cbn [negb bindR]; [eexists; reflexivity|reflexivity].
    + destruct (negb (JSString.eqb s [])); cbn [bindR]; eexists; reflexivity.
Qed.

Lemma format_each_renders (h : Host) (items : list value) :
  if forallb renders items then exists blocks, format_each h items = Ok blocks
  else format_each h items = Throw TypeError.
Proof.
  induction items as [|x items IH]; cbn [forallb format_each].
  - eexists; reflexivity.
  - pose proof (format_result_renders h x) as Hx.
    destruct (renders x); cbn [andb].
    + destruct Hx as [block ->]. cbn [bindR].
      destruct (forallb renders items).
      * destruct IH as [blocks ->]. eexists; reflexivity.
      * rewrite IH. reflexivity.
    + rewrite Hx. reflexivity.
Qed.

(** The three cases of [formatResults]. *)
Lemma formatResults_cases
  (h : Host) (results : value) (format : option jsstring) :
  (text_mode format = false ->
   formatResults h results format = Ok (JSON.stringify results))
  /\ (text_mode format = true -> formattable results = true ->
      exists out, formatResults h results format = Ok out)
  /\ (text_mode format = true -> formattable results = false ->
      formatResults h results format = Throw TypeError).
Proof.
  unfold text_mode, formatResults.
  destruct (JSString.eqb _ (lit "json")); cbn [negb].
  { split; [reflexivity|split; discriminate]. }
  split; [discriminate|].
  destruct results as [|b|n|s|items|props]; cbn [formattable get bindR];
    try change (JSString.eqb (lit "results") (lit "length")) with false;
    try (split; intros _ H;
         first [discriminate H | reflexivity | (eexists; reflexivity)]).
  destruct (lookup (lit "results") props) as [[|b|n|s|items|ps]|];
    cbn [get bindR];
    try change (JSString.eqb (lit "length") (lit "length")) with true;
    cbn [bindR].
  - split; intros _ H; first [discriminate H | reflexivity | (eexists; reflexivity)].
  - destruct b;
      split; intros _ H; first [discriminate H | reflexivity | (eexists; reflexivity)].
  - destruct n as [|sg| |z e]; [| | |destruct (z =? 0) eqn:Hz];
      unfold or_else; cbn [truthy negb]; rewrite ?Hz; cbn [negb iterate bindR];
      split; intros _ H; first [discriminate H | reflexivity | (eexists; reflexivity)].
  - split; intros _ H; [|discriminate H].
    unfold or_else. destruct (truthy (Some (Str s))); cbn [iterate bindR].
    + assert (Hr : forall l, forallb renders (map Str l) = true)
        by (intros l; induction l as [|p ps IH]; [reflexivity|exact IH]).
      pose proof (format_each_renders h (map Str (code_points s))) as Hs.
      rewrite Hr in Hs. destruct Hs as [blocks ->]. eexists; reflexivity.
    + eexists; reflexivity.
  - pose proof (format_each_renders h items) as Hs.
    unfold or_else. cbn [truthy iterate bindR].
    destruct (forallb renders items).
    + destruct Hs as [blocks ->].
      split; intros _ H; [|discriminate H]. eexists; reflexivity.
    + rewrite Hs. split; intros _ H; [discriminate H|reflexivity].
  - split; intros _ H; first [discriminate H | reflexivity | (eexists; reflexivity)].
  - split; intros _ H; first [discriminate H | reflexivity | (eexists; reflexivity)].
Qed.

(** X11.  The formatter throws nothing but a [TypeError], and never in
    JSON mode.  In text mode it throws when the response is [null], when
    its [results] is truthy and neither an array nor a string, when an item
    is [null], or when the [text] of an item is truthy and not a string.
    A response with none of these whose items have primitives for title,
    link, date, author and summary is formatted. *)
Theorem formatter_fails_only_with_TypeError
  (h : Host) (results : value) (format : option jsstring) :
  (forall e, formatResults h results format = Throw e -> e = TypeError)
  /\ (text_mode format = false ->
      formatResults h results format = Ok (JSON.stringify results))
  /\ (text_mode format = true -> formattable results = false ->
      formatResults h results format = Throw TypeError)
  /\ (text_mode format = true -> formattable results = true ->
      plain results = true ->
      exists out, formatResults h results format = Ok out).
Proof.
  destruct (formatResults_cases h results format) as [Hjson [Hok Hfail]].
  split; [|split; [exact Hjson|split; [exact Hfail|intros Ht Hf _; exact (Hok Ht Hf)]]].
  intros e He.
  destruct (text_mode format) eqn:Ht.
  - destruct (formattable results) eqn:Hf.
    + destruct (Hok eq_refl eq_refl) as [out Hout]. congruence.
    + rewrite (Hfail eq_refl eq_refl) in He. congruence.
  - rewrite (Hjson eq_refl) in He. discriminate He.
Qed.

(** X12.  On a command line that commander accepts, a response the text
    report cannot be made of is reported like a failed call: the call has
    been issued, standard output holds the progress line only, standard
    error holds one line, the error glyph and [Error:] followed by the text
    of the exception, and the exit code is 1.  In JSON mode every response
    is printed, with exit code 0. *)
Theorem unrenderable_response_is_reported
  (h : Host) (c : Command) (key : jsstring) (call : ExaCall) (response : value) :
  given (EXA_API_KEY h) = Some key ->
  accepted c = true ->
  request h c = Ok call ->
  exa h call = Ok response ->
  (text_mode (format (declared c)) = true -> formattable response = false ->
   snd (main h c) = 1
   /\ stdout (fst (main h c)) = banner c
   /\ calls (fst (main h c)) = [call]
   /\ exists text,
        stderr (fst (main h c)) = [Glyph.cross ++ lit " Error: " ++ text])
  /\ (text_mode (format (declared c)) = false ->
      main h c
      = ({| stdout := banner c ++ [JSON.stringify response]; stderr := [];
            calls := [call] |}, 0)).
Proof.
  intros Hkey Hacc Hreq Hexa.
  rewrite (main_outcome h c key Hkey Hacc). unfold outcome. rewrite Hreq, Hexa.
  destruct (formatResults_cases h response (format (declared c))) as [Hjson [_ Hfail]].
  split.
  - intros Ht Hf. rewrite (Hfail Ht Hf). cbn [failed fst snd stdout stderr calls].
    repeat split. exists (message h TypeError). reflexivity.
  - intros Ht. rewrite (Hjson Ht). reflexivity.
Qed.

Lemma unrenderable_response_is_reported_witness :
  let h := Sample.host Sample.en_US_date (Sample.answers Null) in
  let c := Papers (lit "solvers") SearchOptions.none in
  snd (main h c) = 1
  /\ stdout (fst (main h c)) = banner c
  /\ calls (fst (main h c))
     = [searchAndContents (lit "solvers")
          {| Request.numResults := Some (Finite 10 0);
             Request.type := Some (lit "neural");
             Request.startPublishedDate := None;
             Request.includeDomains :=
               Some [lit "arxiv.org"; lit "scholar.google.com";
                     lit "semanticscholar.org"; lit "papers.ssrn.com";
                     lit "researchgate.net"];
             Request.text := None;
             Request.summary := Some true |}]
  /\ exists text,
       stderr (fst (main h c)) = [Glyph.cross ++ lit " Error: " ++ text].
Proof.
  intros h c.
  exact (proj1 (unrenderable_response_is_reported h c (lit "secret") _ Null
                  eq_refl eq_refl eq_refl eq_refl) eq_refl eq_refl).
Defined.

(** ** The lines of an item *)

(** X13.  A title, published date, author, summary or text that is falsy
    ([null], [false], [0], [NaN] or the empty string) is treated as one
    that is absent: the block of the item is the block of the item without
    that property. *)
Theorem falsy_field_is_skipped
  (h : Host) (props : list (jsstring * value)) (key : jsstring) :
  In key optional_keys ->
  truthy (lookup key props) = false ->
  format_result h (Obj (without key props)) = format_result h (Obj props).
Proof.
  intros Hkey Hfalsy. rewrite !format_result_object.
  destruct Hkey as [<-|[<-|[<-|[<-|[<-|[]]]]]].
  - rewrite lookup_without_same.
    rewrite (lookup_without_other (lit "title") (lit "url")),
      (lookup_without_other (lit "title") (lit "publishedDate")),
      (lookup_without_other (lit "title") (lit "author")),
      (lookup_without_other (lit "title") (lit "summary")),
      (lookup_without_other (lit "title") (lit "text")) by reflexivity.
    unfold or_else. rewrite Hfalsy. reflexivity.
  - rewrite lookup_without_same.
    rewrite (lookup_without_other (lit "publishedDate") (lit "url")),
      (lookup_without_other (lit "publishedDate") (lit "title")),
      (lookup_without_other (lit "publishedDate") (lit "author")),
      (lookup_without_other (lit "publishedDate") (lit "summary")),
      (lookup_without_other (lit "publishedDate") (lit "text")) by reflexivity.
    rewrite Hfalsy. reflexivity.
  - rewrite lookup_without_same.
    rewrite (lookup_without_other (lit "author") (lit "url")),
      (lookup_without_other (lit "author") (lit "title")),
      (lookup_without_other (lit "author") (lit "publishedDate")),
      (lookup_without_other (lit "author") (lit "summary")),
      (lookup_without_other (lit "author") (lit "text")) by reflexivity.
    rewrite Hfalsy. reflexivity.
  - rewrite lookup_without_same.
    rewrite (lookup_without_other (lit "summary") (lit "url")),
      (lookup_without_other (lit "summary") (lit "title")),
      (lookup_without_other (lit "summary") (lit "publishedDate")),
      (lookup_without_other (lit "summary") (lit "author")),
      (lookup_without_other (lit "summary") (lit "text")) by reflexivity.
    rewrite Hfalsy. reflexivity.
  - rewrite lookup_without_same.
    rewrite (lookup_without_other (lit "text") (lit "url")),
      (lookup_without_other (lit "text") (lit "title")),
      (lookup_without_other (lit "text") (lit "publishedDate")),
      (lookup_without_other (lit "text") (lit "author")),
      (lookup_without_other (lit "text") (lit "summary")) by reflexivity.
    rewrite Hfalsy. reflexivity.
Qed.

Lemma falsy_field_is_skipped_witness :
  let h := Sample.host Sample.en_US_date (Sample.answers Null) in
  let props := [(lit "url", Str (lit "https://example.com/a"));
                (lit "title", Str (lit "A page"));
                (lit "author", Str []);
                (lit "summary", Null)] in
  format_result h (Obj (without (lit "author") props)) = format_result h (Obj props).
Proof.
  intros h props.
  exact (falsy_field_is_skipped h props (lit "author")
           (or_intror (or_intror (or_introl eq_refl))) eq_refl).
Defined.

(** X14.  The date line never makes the formatter fail.  An item that
    renders (its [text], when truthy, is a string), with primitives for
    title, link, author and summary and a published date that is a
    non-empty string, is formatted whatever the string, and the fourth line
    of its block is the calendar glyph and the date in the locale of the
    host when the host can parse the string, and [Invalid Date] when it
    cannot. *)
Theorem date_line_never_fails
  (h : Host) (props : list (jsstring * value)) (s : jsstring) :
  lookup (lit "publishedDate") props = Some (Str s) ->
  s <> [] ->
  renders (Obj props) = true ->
  plain_item (Obj props) = true ->
  exists block,
    format_result h (Obj props) = Ok block
    /\ nth_error block 3
       = Some (Glyph.calendar ++ lit " "
               ++ match Date_parse h s with
                  | Some t => toLocaleDateString h t
                  | None => lit "Invalid Date"
                  end).
Proof.
  intros Hdate Hs Hrenders _.
  pose proof (format_result_renders h (Obj props)) as Hblock.
  rewrite Hrenders in Hblock. destruct Hblock as [block Hblock].
  exists block. split; [exact Hblock|].
  rewrite format_result_object, Hdate in Hblock.
  assert (Ht : truthy (Some (Str s)) = true) by (destruct s; [contradiction|reflexivity]).
  rewrite Ht in Hblock.
  match type of Hblock with
  | (body <- ?b ;; _)%result = _ => destruct b as [body|e]; cbn [bindR] in Hblock
  end; [|discriminate Hblock].
  injection Hblock as <-. cbn [app nth_error Date_of localeDate].
  destruct (Date_parse h s); reflexivity.
Qed.

Lemma date_line_never_fails_witness :
  let h := Sample.host Sample.en_US_date (Sample.answers Null) in
  let props := [(lit "url", Str (lit "https://example.com/a"));
                (lit "publishedDate", Str (lit "last week"))] in
  exists block,
    format_result h (Obj props) = Ok block
    /\ nth_error block 3 = Some (Glyph.calendar ++ lit " Invalid Date").
Proof.
  intros h props.
  exact (date_line_never_fails h props (lit "last week") eq_refl ltac:(discriminate)
           eq_refl eq_refl).
Defined.

(** X15.  The preview of a body text is one line of at most 303 code
    units: it holds no line feed, and for a text of up to 300 code units it
    is as long as the text. *)
Theorem preview_is_one_line (text : jsstring) :
  ~ In 10 (preview_line text)
  /\ (List.length (preview_line text) <= 303)%nat
  /\ ((List.length text <= 300)%nat ->
      List.length (preview_line text) = List.length text).
Proof.
  unfold preview_line, slice0, replace_newlines, JSString.length.
  change (lit "...") with [46; 46; 46].
  split; [|split].
  - intros Hin. apply in_app_or in Hin. destruct Hin as [Hin|Hin].
    + apply in_map_iff in Hin. destruct Hin as [c [Hc _]].
      destruct (Z.eqb_spec c 10); lia.
    + destruct (300 <? _); cbn [In] in Hin; lia.
  - rewrite length_app, length_map, length_firstn.
    destruct (300 <? _); cbn [List.length]; lia.
  - intros Hlen. rewrite length_app, length_map, length_firstn.
    destruct (Z.ltb_spec 300 (Z.of_nat (List.length text))); [lia|].
    cbn [List.length]. lia.
Qed.

(** X16.  The text report reads nothing of the response but its
    [results]: two response objects with the same [results] give the same
    report, whatever other properties they have, and every format selector
    other than [json] gives that same report. *)
Theorem text_report_reads_results_only
  (h : Host) (props props' : list (jsstring * value)) (format format' : option jsstring) :
  text_mode format = true ->
  text_mode format' = true ->
  lookup (lit "results") props = lookup (lit "results") props' ->
  formatResults h (Obj props) format = formatResults h (Obj props') format'.
Proof.
  intros Hf Hf' Hr. unfold formatResults.
  rewrite (text_mode_not_json format Hf), (text_mode_not_json format' Hf').
  cbn [get bindR]. rewrite Hr. reflexivity.
Qed.

Lemma text_report_reads_results_only_witness :
  let h := Sample.host Sample.en_US_date (Sample.answers Null) in
  let items := Arr [Sample.item [(lit "title", Str (lit "A page"))]] in
  formatResults h (Obj [(lit "requestId", Str (lit "r1")); (lit "results", items)]) None
  = formatResults h (Obj [(lit "results", items); (lit "costDollars", Num (Finite 1 0))])
      (Some (lit "JSON")).
Proof.
  intros h items.
  exact (text_report_reads_results_only h _ _ None (Some (lit "JSON"))
           eq_refl eq_refl eq_refl).
Defined.

(** ** The count in the header *)

Lemma digits_value_bound (ds : list Z) :
  Forall digit ds -> 0 <= JSON.digits_value ds < 10 ^ Z.of_nat (List.length ds).
Proof.
  induction 1 as [|d ds Hd _ IH]; [cbn; lia|].
  rewrite digits_value_cons. cbn [List.length].
  rewrite Nat2Z.inj_succ, Z.pow_succ_r by lia. unfold digit in Hd.
  pose proof (Z.pow_pos_nonneg 10 (Z.of_nat (List.length ds)) ltac:(lia) ltac:(lia)).
  nia.
Qed.

Lemma digits_value_inj (a b : list Z) :
  Forall digit a -> Forall digit b -> List.length a = List.length b ->
  JSON.digits_value a = JSON.digits_value b -> a = b.
Proof.
  intros Ha. revert b. induction Ha as [|d ds Hd Hds IH]; intros b Hb Hlen Hv.
  - destruct b; [reflexivity|discriminate Hlen].
  - destruct Hb as [|e es He Hes]; [discriminate Hlen|].
    cbn [List.length] in Hlen. injection Hlen as Hlen.
    rewrite !digits_value_cons, <- Hlen in Hv.
    pose proof (digits_value_bound ds Hds) as B1.
    pose proof (digits_value_bound es Hes) as B2. rewrite <- Hlen in B2.
    assert (d = e) by nia. subst e.
    f_equal. apply IH; [exact Hes|exact Hlen|lia].
Qed.

Lemma pow10_lt_inv (a b : Z) : 0 <= a -> 0 <= b -> 10 ^ a < 10 ^ (b + 1) -> a <= b.
Proof.
  intros Ha Hb H. destruct (Z_le_gt_dec a b) as [|Hgt]; [assumption|].
  pose proof (Z.pow_le_mono_r 10 (b + 1) a ltac:(lia) ltac:(lia)). lia.
Qed.

(** The digits of a number are the only digits for it with no leading zero. *)
Lemma digits_unique (d : Z) (ds : list Z) :
  Forall digit (d :: ds) -> 0 < d ->
  digits (JSON.digits_value (d :: ds)) = d :: ds.
Proof.
  intros Hds Hd.
  pose proof (digits_value_bound (d :: ds) Hds) as B.
  pose proof (digits_value_bound ds (Forall_inv_tail Hds)) as Bt.
  assert (Hlow : 10 ^ Z.of_nat (List.length ds) <= JSON.digits_value (d :: ds))
    by (rewrite digits_value_cons; nia).
  destruct (digits_spec (JSON.digits_value (d :: ds)) ltac:(lia))
    as [e [es [E [Hes [Hv Hpos]]]]].
  rewrite E.
  pose proof (digits_value_bound (e :: es) Hes) as B'.
  pose proof (digits_value_bound es (Forall_inv_tail Hes)) as Bt'.
  assert (He : 0 < e).
  { apply Hpos. pose proof (Z.pow_pos_nonneg 10 (Z.of_nat (List.length ds))). lia. }
  assert (Hlow' : 10 ^ Z.of_nat (List.length es) <= JSON.digits_value (e :: es))
    by (rewrite digits_value_cons; nia).
  cbn [List.length] in B, B'. rewrite Nat2Z.inj_succ in B, B'.
  assert (Hlen : List.length es = List.length ds).
  { pose proof (pow10_lt_inv (Z.of_nat (List.length es)) (Z.of_nat (List.length ds))
                  ltac:(lia) ltac:(lia) ltac:(lia)).
    pose proof (pow10_lt_inv (Z.of_nat (List.length ds)) (Z.of_nat (List.length es))
                  ltac:(lia) ltac:(lia) ltac:(lia)).
    lia. }
  apply digits_value_inj; [exact Hes|exact Hds|cbn; lia|exact Hv].
Qed.

(** A number of [k] digits. *)
Lemma digits_length (n k : Z) :
  0 < k -> 10 ^ (k - 1) <= n < 10 ^ k -> Z.of_nat (List.length (digits n)) = k.
Proof.
  intros Hk Hn.
  pose proof (Z.pow_pos_nonneg 10 (k - 1) ltac:(lia) ltac:(lia)) as Hp.
  destruct (digits_spec n ltac:(lia)) as [d [ds [E [Hds [Hv Hpos]]]]].
  rewrite E.
  pose proof (digits_value_bound (d :: ds) Hds) as B.
  pose proof (digits_value_bound ds (Forall_inv_tail Hds)) as Bt.
  assert (Hlow : 10 ^ Z.of_nat (List.length ds) <= JSON.digits_value (d :: ds))
    by (rewrite digits_value_cons; specialize (Hpos ltac:(lia)); nia).
  cbn [List.length] in B |- *. rewrite Nat2Z.inj_succ in B |- *. rewrite Hv in *.
  pose proof (pow10_lt_inv (k - 1) (Z.of_nat (List.length ds))
                ltac:(lia) ltac:(lia) ltac:(unfold Z.succ in B; lia)).
  pose proof (pow10_lt_inv (Z.of_nat (List.length ds)) (k - 1)
                ltac:(lia) ltac:(lia)
                ltac:(replace (k - 1 + 1) with k by lia; lia)).
  lia.
Qed.

(** Zeros after a numeral multiply by a power of ten. *)
Lemma decimal_shift (s : Z) (m : nat) :
  0 < s -> decimal (s * 10 ^ Z.of_nat m) = decimal s ++ repeat_str (lit "0") m.
Proof.
  intros Hs. unfold decimal.
  destruct (digits_spec s ltac:(lia)) as [d [ds [E [Hds [Hv Hpos]]]]].
  rewrite E, zeros_numeral, <- map_app. f_equal.
  assert (Hall : Forall digit (d :: ds ++ repeat 0 m)).
  { change (d :: ds ++ repeat 0 m) with ((d :: ds) ++ repeat 0 m).
    apply Forall_app. split; [exact Hds|apply Forall_digit_zeros]. }
  transitivity (digits (JSON.digits_value ((d :: ds) ++ repeat 0 m)));
    [|exact (digits_unique d (ds ++ repeat 0 m) Hall (Hpos Hs))].
  f_equal.
  rewrite digits_value_app, digits_value_zeros, repeat_length, Hv. lia.
Qed.

(** The [k]-digit candidate for a whole number [z] of [n0] digits is [z]
    without its last [n0 - k] digits, when those are zeros. *)
Lemma candidate_whole (z n0 k : Z) :
  10 ^ (n0 - 1) <= z < 10 ^ n0 -> n0 <= 15 -> 1 <= k <= n0 ->
  candidate (Finite z 0) z 1 n0 k
  = if z mod 10 ^ (n0 - k) =? 0 then Some (z / 10 ^ (n0 - k), n0) else None.
Proof.
  intros Hz Hn0 Hk. unfold candidate.
  replace (Z.max (k - n0) 0) with 0 by lia.
  replace (Z.max (n0 - k) 0) with (n0 - k) by lia.
  rewrite Z.pow_0_r, Z.mul_1_r, Z.mul_1_l.
  set (Q := 10 ^ (n0 - k)).
  assert (HQ : 0 < Q) by (apply Z.pow_pos_nonneg; lia).
  assert (Hsplit : 10 ^ n0 = 10 ^ k * Q)
    by (unfold Q; rewrite <- Z.pow_add_r by lia; f_equal; lia).
  assert (Hsplit' : 10 ^ (n0 - 1) = 10 ^ (k - 1) * Q)
    by (unfold Q; rewrite <- Z.pow_add_r by lia; f_equal; lia).
  assert (Hk1 : 0 < 10 ^ (k - 1)) by (apply Z.pow_pos_nonneg; lia).
  assert (Hkk : 10 ^ k = 10 * 10 ^ (k - 1))
    by (rewrite <- Z.pow_succ_r by lia; f_equal; lia).
  pose proof (Z.div_mod z Q ltac:(lia)) as Hdm.
  pose proof (Z.mod_pos_bound z Q HQ) as Hr.
  set (lo := z / Q) in *. set (r := z mod Q) in *.
  assert (Hlo : 10 ^ (k - 1) <= lo < 10 ^ k) by nia.
  assert (H15 : 10 ^ n0 <= 10 ^ 15) by (apply Z.pow_le_mono_r; lia).
  assert (H53 : 10 ^ 15 < two53) by reflexivity.
  assert (Hlen : forall s, 10 ^ (k - 1) <= s < 10 ^ k ->
                           Z.of_nat (List.length (digits s)) = k)
    by (intros s Hs; apply digits_length; lia).
  assert (Hround : forall s n, 10 ^ (k - 1) <= s < 10 ^ k -> k <= n ->
                     s * 10 ^ (n - k) <= two53 ->
                     rounds_to (Finite z 0) s n = (s * 10 ^ (n - k) =? z)).
  { intros s n Hs Hn Hb. unfold rounds_to. rewrite (Hlen s Hs).
    unfold F_of_dec. destruct (Z.leb_spec 0 (n - k)); [|lia].
    pose proof (Z.pow_pos_nonneg 10 (n - k) ltac:(lia) ltac:(lia)).
    fold (F_of_Z (s * 10 ^ (n - k))). rewrite F_of_Z_small by nia.
    cbn [JSNumber.eqb]. rewrite andb_true_r. reflexivity. }
  cbn [fst snd].
  rewrite (Hround lo n0 Hlo ltac:(lia)) by (fold Q; nia). fold Q.
  assert (HokH : (let above := if lo + 1 =? 10 ^ k then (10 ^ (k - 1), n0 + 1)
                               else (lo + 1, n0) in
                  rounds_to (Finite z 0) (fst above) (snd above)) = false).
  { cbv zeta. destruct (Z.eqb_spec (lo + 1) (10 ^ k)) as [Ht|Ht]; cbn [fst snd].
    - rewrite (Hround (10 ^ (k - 1)) (n0 + 1)) by
        (try lia; replace (n0 + 1 - k) with (1 + (n0 - k)) by lia;
         rewrite Z.pow_add_r by lia; fold Q; nia).
      replace (n0 + 1 - k) with (1 + (n0 - k)) by lia.
      rewrite Z.pow_add_r by lia. fold Q. apply Z.eqb_neq. nia.
    - rewrite (Hround (lo + 1) n0) by (try lia; fold Q; nia).
      fold Q. apply Z.eqb_neq. nia. }
  cbv zeta in HokH. rewrite HokH, andb_false_r.
  destruct (Z.eqb_spec (lo * Q) z) as [He|He];
    destruct (Z.eqb_spec r 0) as [Hr0|Hr0]; try reflexivity; nia.
Qed.

(** The search for the shortest decimal of a whole number stops at its
    digits without the trailing zeros. *)
Lemma shortest_whole (z n0 : Z) (fuel : nat) :
  10 ^ (n0 - 1) <= z < 10 ^ n0 -> n0 <= 15 ->
  forall k, 1 <= k <= n0 -> n0 - k < Z.of_nat fuel ->
    exists s k',
      shortest fuel (Finite z 0) z 1 n0 k = Some (s, n0)
      /\ 1 <= k' <= n0 /\ 10 ^ (k' - 1) <= s < 10 ^ k' /\ s * 10 ^ (n0 - k') = z.
Proof.
  intros Hz Hn0. induction fuel as [|fuel IH]; intros k Hk Hfuel; [lia|].
  cbn [shortest]. rewrite candidate_whole by assumption.
  set (Q := 10 ^ (n0 - k)).
  assert (HQ : 0 < Q) by (apply Z.pow_pos_nonneg; lia).
  pose proof (Z.div_mod z Q ltac:(lia)) as Hdm.
  pose proof (Z.mod_pos_bound z Q HQ) as Hr.
  destruct (Z.eqb_spec (z mod Q) 0) as [H0|H0].
  - exists (z / Q), k. split; [reflexivity|]. split; [lia|].
    assert (Hsplit : 10 ^ n0 = 10 ^ k * Q)
      by (unfold Q; rewrite <- Z.pow_add_r by lia; f_equal; lia).
    assert (Hsplit' : 10 ^ (n0 - 1) = 10 ^ (k - 1) * Q)
      by (unfold Q; rewrite <- Z.pow_add_r by lia; f_equal; lia).
    assert (Hk1 : 0 < 10 ^ (k - 1)) by (apply Z.pow_pos_nonneg; lia).
    fold Q. split; nia.
  - assert (k < n0).
    { destruct (Z.eq_dec k n0) as [->|]; [|lia].
      unfold Q in H0. rewrite Z.sub_diag, Z.pow_0_r, Z.mod_1_r in H0. contradiction. }
    apply IH; lia.
Qed.

(** A count is written with its decimal digits. *)
Lemma toString_count (z : Z) :
  0 <= z < 10 ^ 15 -> JSNumber.toString (Finite z 0) = decimal z.
Proof.
  intros Hz. destruct (Z.eq_dec z 0) as [->|Hnz]; [reflexivity|].
  unfold JSNumber.toString. destruct (Z.eqb_spec z 0); [contradiction|].
  destruct (Z.ltb_spec z 0); [lia|].
  rewrite Z.abs_eq by lia. unfold shortest_decimal.
  change (2 ^ Z.of_N 0) with 1.
  set (n0 := decimal_exponent z 1).
  destruct (digits_spec z ltac:(lia)) as [d [ds [E [Hds [Hv Hpos]]]]].
  assert (Hn0 : n0 = Z.of_nat (List.length (digits z))).
  { unfold n0, decimal_exponent. destruct (Z.leb_spec 1 z); [|lia].
    rewrite Z.div_1_r. reflexivity. }
  pose proof (digits_value_bound (d :: ds) Hds) as B.
  pose proof (digits_value_bound ds (Forall_inv_tail Hds)) as Bt.
  assert (Hlow : 10 ^ Z.of_nat (List.length ds) <= z)
    by (rewrite <- Hv, digits_value_cons; specialize (Hpos ltac:(lia)); nia).
  rewrite Hv in B. rewrite E in Hn0. cbn [List.length] in Hn0, B.
  rewrite Nat2Z.inj_succ in Hn0, B.
  assert (Hrange : 10 ^ (n0 - 1) <= z < 10 ^ n0).
  { rewrite Hn0. replace (Z.succ (Z.of_nat (List.length ds)) - 1)
      with (Z.of_nat (List.length ds)) by lia. lia. }
  assert (H15 : n0 <= 15).
  { pose proof (pow10_lt_inv (n0 - 1) 14 ltac:(lia) ltac:(lia) ltac:(cbn; lia)). lia. }
  destruct (shortest_whole z n0 17 Hrange H15 1 ltac:(lia) ltac:(lia))
    as [s [k' [Hs [Hk' [Hsr Hsz]]]]].
  rewrite Hs. cbn [app]. unfold format_decimal.
  assert (Hlen : Z.of_nat (List.length (decimal s)) = k').
  { unfold decimal. rewrite length_map. apply digits_length; lia. }
  rewrite Hlen.
  destruct (Z.leb_spec k' n0); [|lia]. destruct (Z.leb_spec n0 21); [|lia].
  cbn [andb]. rewrite <- decimal_shift.
  - rewrite Z2Nat.id by lia. rewrite Hsz. reflexivity.
  - pose proof (Z.pow_pos_nonneg 10 (k' - 1) ltac:(lia) ltac:(lia)). lia.
Qed.

(** The lines of the blocks are the blocks of the items, one after
    another. *)
Lemma format_each_blocks (h : Host) (items : list value) (lines : list jsstring) :
  format_each h items = Ok lines ->
  exists blocks,
    Forall2 (fun item block => format_result h item = Ok block) items blocks
    /\ lines = List.concat blocks.
Proof.
  revert lines. induction items as [|x items IH]; intros lines H; cbn [format_each] in H.
  - injection H as <-. exists []. split; [constructor|reflexivity].
  - destruct (format_result h x) as [block|e] eqn:Hx; cbn [bindR] in H; [|discriminate H].
    destruct (format_each h items) as [rest|e]; cbn [bindR] in H; [|discriminate H].
    injection H as <-. destruct (IH rest eq_refl) as [blocks [Hb ->]].
    exists (block :: blocks). split; [constructor; assumption|reflexivity].
Qed.

(** The number in the header. *)
Lemma header_count (n : nat) :
  Z.of_nat n < 2 ^ 32 ->
  ToString (or_else (Some (Num (F_of_Z (Z.of_nat n)))) (Some (Num (Finite 0 0))))
  = decimal (Z.of_nat n).
Proof.
  intros Hn.
  rewrite F_of_Z_small by (change two53 with (2 ^ 53); lia).
  unfold or_else. cbn [truthy].
  destruct (Z.eqb_spec (Z.of_nat n) 0) as [->|Hnz]; [reflexivity|].
  cbn [negb ToString ToString_value]. apply toString_count. lia.
Qed.

(** X17.  The text report of a well-formed response is the header with the
    number of items in decimal, the divider, and then the block of each
    item in the order of the response, one block for every item; the
    lines are joined by line feeds.  (An array has fewer than [2^32]
    items.) *)
Theorem report_structure (h : Host) (results : value) (format : option jsstring) :
  text_mode format = true ->
  well_formed results = true ->
  Z.of_nat (List.length (items_of results)) < 2 ^ 32 ->
  exists blocks,
    Forall2 (fun item block => format_result h item = Ok block) (items_of results) blocks
    /\ formatResults h results format
       = Ok (join newline
               ((newline ++ Glyph.magnifier ++ lit " Found "
                 ++ decimal (Z.of_nat (List.length (items_of results)))
                 ++ lit " results" ++ newline)
                :: divider :: List.concat blocks)).
Proof.
  intros Hmode Hwf Hlen.
  rewrite (formatResults_text h results format Hmode Hwf), header_count by exact Hlen.
  assert (Hitems : forallb well_formed_item (items_of results) = true).
  { unfold well_formed in Hwf. unfold items_of.
    destruct results as [| | | | |props]; try discriminate Hwf.
    destruct (lookup (lit "results") props) as [[| | | |items|]|];
      try discriminate Hwf; try reflexivity. exact Hwf. }
  destruct (format_each_well_formed h (items_of results) Hitems) as [lines Hlines].
  destruct (format_each_blocks h (items_of results) lines Hlines) as [blocks [Hb ->]].
  exists blocks. split; [exact Hb|]. rewrite Hlines. reflexivity.
Qed.

Lemma report_structure_witness :
  let h := Sample.host Sample.en_GB_date (Sample.answers Null) in
  let a := Sample.item [(lit "title", Str (lit "A page"))] in
  let b := Sample.item [(lit "author", Str (lit "B. Author"))] in
  exists blocks,
    Forall2 (fun item block => format_result h item = Ok block) [a; b; a] blocks
    /\ formatResults h (Sample.response [a; b; a]) None
       = Ok (join newline
               ((newline ++ Glyph.magnifier ++ lit " Found " ++ decimal 3
                 ++ lit " results" ++ newline)
                :: divider :: List.concat blocks)).
Proof.
  intros h a b.
  exact (report_structure h (Sample.response [a; b; a]) None eq_refl eq_refl
           ltac:(vm_compute; reflexivity)).
Defined.

(** ** Standard output as a JSON document *)

(** [JSON.parse] of a line that [JSON.stringify] wrote. *)
Lemma parse_stringify_line (v : value) :
  json v = true -> JSON.parse (JSON.stringify v ++ newline) = Some (reparsed v).
Proof.
  intros Hj. unfold JSON.parse, JSON.stringify.
  rewrite serialize_then by exact Hj.
  rewrite parse_value_serialize;
    [reflexivity| |constructor|right; reflexivity|exact Hj].
  rewrite length_app. pose proof (depth_lt_length v [] Hj). lia.
Qed.

(** X18.  With the format [json], what a search, similar or contents
    invocation that commander accepts has written to standard output after
    a successful call is one JSON document: it parses to the response (with
    [null] for [NaN] and the infinities and [0] for negative zero), and the
    exit code is 0. *)
Theorem json_output_is_one_document
  (h : Host) (c : Command) (key : jsstring) (call : ExaCall) (response : value) :
  given (EXA_API_KEY h) = Some key ->
  accepted c = true ->
  banner c = [] ->
  format (given_options c) = Some (lit "json") ->
  request h c = Ok call ->
  exa h call = Ok response ->
  json response = true ->
  snd (main h c) = 0
  /\ JSON.parse (written (stdout (fst (main h c)))) = Some (reparsed response).
Proof.
  intros Hkey Hacc Hbanner Hformat Hreq Hexa Hj.
  rewrite (main_outcome h c key Hkey Hacc). unfold outcome. rewrite Hreq, Hexa.
  assert (Hf : format (declared c) = Some (lit "json"))
    by (destruct c as [q o|u o|us o|t o|t o|t o]; cbn [given_options] in Hformat; cbn [declared format];
        rewrite Hformat; reflexivity).
  rewrite Hf. change (formatResults h response (Some (lit "json")))
    with (@Ok jsstring (JSON.stringify response)).
  cbn [fst snd stdout]. rewrite Hbanner. split; [reflexivity|].
  unfold written. cbn [app map List.concat]. rewrite app_nil_r.
  apply parse_stringify_line. exact Hj.
Qed.

Lemma json_output_is_one_document_witness :
  let response := Sample.response [Sample.item [(lit "score", Num (F_of_dec 25 (-2)))]] in
  let h := Sample.host Sample.en_US_date (Sample.answers response) in
  let c := Similar (lit "https://example.com")
             {| num := None; type := None; contents := true; summary := false;
                days := None; domain := None; format := Some (lit "json") |} in
  snd (main h c) = 0
  /\ JSON.parse (written (stdout (fst (main h c)))) = Some (reparsed response).
Proof.
  intros response h c.
  exact (json_output_is_one_document h c (lit "secret") _ response
           eq_refl eq_refl eq_refl eq_refl eq_refl eq_refl
           ltac:(vm_compute; reflexivity)).
Defined.

(** No JSON text starts with the first code unit of the glyphs. *)
Lemma parse_after_glyph (t : jsstring) : JSON.parse (0xD83D :: t) = None.
Proof. reflexivity. Qed.

(** X19.  What research, news and papers have written to standard output
    is never a JSON document, on any host and with any options, the format
    [json] included: the progress line comes first. *)
Theorem progress_line_is_not_json (h : Host) (topic : jsstring) (o : SearchOptions.t) :
  JSON.parse (written (stdout (fst (main h (Research topic o))))) = None
  /\ JSON.parse (written (stdout (fst (main h (News topic o))))) = None
  /\ JSON.parse (written (stdout (fst (main h (Papers topic o))))) = None.
Proof.
  assert (H : forall c, In c [Research topic o; News topic o; Papers topic o] ->
                JSON.parse (written (stdout (fst (main h c)))) = None).
  { intros c Hc.
    destruct (accepted c) eqn:Hacc; [|rewrite (main_rejected h c Hacc); reflexivity].
    destruct (given (EXA_API_KEY h)) as [key|] eqn:Hkey.
    - rewrite (main_outcome h c key Hkey Hacc).
      assert (Hout : exists tail, stdout (fst (outcome h c)) = banner c ++ tail).
      { unfold outcome, failed. destruct (request h c) as [call|e];
          [|exists []; cbn; rewrite app_nil_r; reflexivity].
        destruct (exa h call); [|exists []; cbn; rewrite app_nil_r; reflexivity].
        destruct (formatResults _ _ _); [eexists; reflexivity|].
        exists []; cbn; rewrite app_nil_r; reflexivity. }
      destruct Hout as [tail ->].
      destruct Hc as [<-|[<-|[<-|[]]]]; apply parse_after_glyph.
    - rewrite (main_without_key h c Hacc Hkey). reflexivity. }
  repeat split; apply H; cbn; auto.
Qed.
